(** * Podcast transcription tools: discovery CLI and transcription pipeline

    A shallow embedding of [podcast_search.py] and [transcribe_podcast.py].
    Python values are modelled as the code uses them: [str] as [string]
    (read as the UTF-8 byte sequence of the text, so that
    [s.encode('utf-8')] is the list of its bytes), [int] as [Z], [dict]s
    decoded from JSON as association lists, exceptions as a class with a
    message, and the outside world (clock, network, standard input, file
    system failures, the Whisper model) as explicit oracles. *)

From Stdlib Require Import ZArith List Ascii String Lia Bool Sorted.
From stdpp Require Import base decidable option list strings pretty gmap.

Local Open Scope string_scope.
Local Open Scope list_scope.
Local Open Scope Z_scope.

(* ===================================================================== *)
(** * Python built-ins used by the two programs *)
(* ===================================================================== *)

Module Py.

(** ** Exceptions *)

(** The exception classes that the two programs can see, with the classes
    of [requests.exceptions] that the [except] clauses name. *)
Inductive exn_class : Set :=
  | BaseException | KeyboardInterrupt | SystemExit | Exception
  | ValueError | KeyError | IndexError | TypeError | AttributeError | EOFError
  | RuntimeError | ArithmeticError | OverflowError
  | OSError | PermissionError | IsADirectoryError | FileNotFoundError
  | RequestException | HTTPError | ConnectionError | Timeout
  | ConnectTimeout | ReadTimeout | RetryError | JSONDecodeError.

#[global] Instance exn_class_eq_dec : EqDecision exn_class.
Proof. solve_decision. Defined.

(** The method resolution order of each class: the class itself followed by
    all its ancestors. [RequestException] derives from [IOError], which is
    [OSError]; [ConnectTimeout] derives from both [ConnectionError] and
    [Timeout]; [requests.exceptions.JSONDecodeError] is a
    [RequestException] and a [ValueError]. *)
Definition mro (c : exn_class) : list exn_class :=
  match c with
  | BaseException => [BaseException]
  | KeyboardInterrupt => [KeyboardInterrupt; BaseException]
  | SystemExit => [SystemExit; BaseException]
  | Exception => [Exception; BaseException]
  | ValueError => [ValueError; Exception; BaseException]
  | KeyError => [KeyError; Exception; BaseException]
  | IndexError => [IndexError; Exception; BaseException]
  | TypeError => [TypeError; Exception; BaseException]
  | AttributeError => [AttributeError; Exception; BaseException]
  | EOFError => [EOFError; Exception; BaseException]
  | RuntimeError => [RuntimeError; Exception; BaseException]
  | ArithmeticError => [ArithmeticError; Exception; BaseException]
  | OverflowError => [OverflowError; ArithmeticError; Exception; BaseException]
  | OSError => [OSError; Exception; BaseException]
  | PermissionError => [PermissionError; OSError; Exception; BaseException]
  | IsADirectoryError => [IsADirectoryError; OSError; Exception; BaseException]
  | FileNotFoundError => [FileNotFoundError; OSError; Exception; BaseException]
  | RequestException => [RequestException; OSError; Exception; BaseException]
  | HTTPError => [HTTPError; RequestException; OSError; Exception; BaseException]
  | ConnectionError =>
      [ConnectionError; RequestException; OSError; Exception; BaseException]
  | Timeout => [Timeout; RequestException; OSError; Exception; BaseException]
  | ConnectTimeout =>
      [ConnectTimeout; ConnectionError; Timeout; RequestException; OSError;
       Exception; BaseException]
  | ReadTimeout =>
      [ReadTimeout; Timeout; RequestException; OSError; Exception; BaseException]
  | RetryError => [RetryError; RequestException; OSError; Exception; BaseException]
  | JSONDecodeError =>
      [JSONDecodeError; RequestException; OSError; ValueError; Exception;
       BaseException]
  end.

Definition issubclass (c d : exn_class) : bool := bool_decide (d ∈ mro c).

(** A raised exception: its class and [str(e)]. *)
Record exn : Set := Exn { exn_cls : exn_class; exn_str : string }.

Definition isinstance (e : exn) (d : exn_class) : bool := issubclass (exn_cls e) d.

(** The result of evaluating a Python expression or call: a value or a
    raised exception. *)
Inductive result (A : Type) : Type :=
  | Return (a : A)
  | Raise (e : exn).
Arguments Return {A} a.
Arguments Raise {A} e.

(** ** Strings

    A [str] is kept as the bytes of its UTF-8 encoding. [strip], [lower]
    and [int] below are those of Python on ASCII text, where a byte is a
    character; on other text Python also knows spaces, digits and capital
    letters that the functions below do not. [isascii] tells the two
    apart. *)

Definition code (a : ascii) : Z := Z.of_N (N_of_ascii a).

(** [s.isascii()] *)
Definition isascii (s : string) : bool :=
  forallb (fun a => code a <? 128) (list_ascii_of_string s).

(** [str.isspace] on the ASCII range: TAB, LF, VT, FF, CR, the four
    separators FS, GS, RS, US and the space. *)
Definition isspace (a : ascii) : bool :=
  let n := code a in
  ((9 <=? n) && (n <=? 13)) || ((28 <=? n) && (n <=? 32)).

Definition isdigit (a : ascii) : bool :=
  let n := code a in (48 <=? n) && (n <=? 57).

Definition lower_char (a : ascii) : ascii :=
  let n := code a in
  if (65 <=? n) && (n <=? 90) then ascii_of_N (Z.to_N (n + 32)) else a.

(** The spaces of a text that was decoded as Latin-1, one character per
    byte, as [http.client] decodes the headers of a response: those of
    ASCII, NEL and the no-break space. Its digits are the ASCII ones. *)
Definition isspace_latin1 (a : ascii) : bool :=
  isspace a || (code a =? 133) || (code a =? 160).

Fixpoint lstrip_chars (space : ascii -> bool) (l : list ascii) : list ascii :=
  match l with
  | a :: l' => if space a then lstrip_chars space l' else l
  | [] => []
  end.

Definition strip_chars (space : ascii -> bool) (l : list ascii) : list ascii :=
  rev (lstrip_chars space (rev (lstrip_chars space l))).

(** [s.strip()] *)
Definition strip (s : string) : string :=
  string_of_list_ascii (strip_chars isspace (list_ascii_of_string s)).

(** [s.lower()] *)
Definition lower (s : string) : string :=
  string_of_list_ascii (map lower_char (list_ascii_of_string s)).

(** [str(n)] for an [int]. *)
Definition str (n : Z) : string := pretty n.

(** ** [int(s)] for a [str]

    Base ten: surrounding whitespace is ignored, then an optional sign, then
    decimal digits in which single underscores may separate digits. Anything
    else raises [ValueError], here [None], and so does a text with more
    digits than [sys.int_info.default_max_str_digits]. The text is taken to
    be ASCII: digits and spaces of other scripts are not recognised. *)
Definition MAX_STR_DIGITS : nat := 4300.

Fixpoint int_digits (l : list ascii) (acc : Z) (after_digit : bool) : option Z :=
  match l with
  | [] => if after_digit then Some acc else None
  | a :: l' =>
      if isdigit a then int_digits l' (10 * acc + (code a - 48)) true
      else if bool_decide (a = "_"%char) then
        if after_digit then int_digits l' acc false else None
      else None
  end.

Definition int_chars (l : list ascii) : option Z :=
  if (MAX_STR_DIGITS <? length (List.filter isdigit l))%nat then None
  else
    match l with
    | a :: l' =>
        if bool_decide (a = "-"%char) then Z.opp <$> int_digits l' 0 false
        else if bool_decide (a = "+"%char) then int_digits l' 0 false
        else int_digits l 0 false
    | [] => None
    end.

Definition int (s : string) : option Z :=
  int_chars (strip_chars isspace (list_ascii_of_string s)).

(** [int(s)] for a text that was decoded as Latin-1. *)
Definition int_latin1 (s : string) : option Z :=
  int_chars (strip_chars isspace_latin1 (list_ascii_of_string s)).

(** The bytes of [s.encode('utf-8')]. *)
Definition encode (s : string) : list Z := map code (list_ascii_of_string s).

End Py.

(* ===================================================================== *)
(** * [hashlib.sha1] *)
(* ===================================================================== *)

Module SHA1.

(** Library semantics: the SHA-1 function of FIPS 180-4 on a list of bytes,
    with 32-bit words as integers reduced modulo [2 ^ 32]. The examples
    after the programs check it on the standard test vectors. *)

Definition w32 (x : Z) : Z := x mod 2 ^ 32.

Definition rotl (n x : Z) : Z :=
  w32 (Z.lor (Z.shiftl x n) (Z.shiftr x (32 - n))).

Definition be_bytes (n : nat) (x : Z) : list Z :=
  map (fun i => Z.shiftr x (8 * Z.of_nat i) mod 256) (rev (seq 0 n)).

(** Padding: a one bit, zeros up to 56 modulo 64, the bit length on 64 bits. *)
Definition pad (msg : list Z) : list Z :=
  let l := Z.of_nat (length msg) in
  msg ++ [128] ++ repeat 0 (Z.to_nat ((55 - l) mod 64)) ++ be_bytes 8 (8 * l).

Fixpoint words (bs : list Z) : list Z :=
  match bs with
  | a :: b :: c :: d :: rest =>
      Z.lor (Z.shiftl a 24) (Z.lor (Z.shiftl b 16) (Z.lor (Z.shiftl c 8) d))
      :: words rest
  | _ => []
  end.

(** The message schedule, latest word first. *)
Fixpoint expand (n : nat) (w : list Z) : list Z :=
  match n with
  | O => w
  | S n' =>
      let x := Z.lxor (Z.lxor (nth 2 w 0) (nth 7 w 0))
                      (Z.lxor (nth 13 w 0) (nth 15 w 0)) in
      expand n' (rotl 1 x :: w)
  end.

Definition schedule (block : list Z) : list Z := rev (expand 64 (rev block)).

Record hash := Hash { h0 : Z; h1 : Z; h2 : Z; h3 : Z; h4 : Z }.

Definition init : hash :=
  Hash 0x67452301 0xEFCDAB89 0x98BADCFE 0x10325476 0xC3D2E1F0.

Definition f (t : nat) (b c d : Z) : Z :=
  if (t <? 20)%nat then Z.lor (Z.land b c) (Z.land (Z.lxor b 0xFFFFFFFF) d)
  else if (t <? 40)%nat then Z.lxor b (Z.lxor c d)
  else if (t <? 60)%nat then
    Z.lor (Z.land b c) (Z.lor (Z.land b d) (Z.land c d))
  else Z.lxor b (Z.lxor c d).

Definition k (t : nat) : Z :=
  if (t <? 20)%nat then 0x5A827999
  else if (t <? 40)%nat then 0x6ED9EBA1
  else if (t <? 60)%nat then 0x8F1BBCDC
  else 0xCA62C1D6.

Definition round (s : hash) (tw : nat * Z) : hash :=
  let '(t, wt) := tw in
  let temp := w32 (rotl 5 (h0 s) + f t (h1 s) (h2 s) (h3 s) + h4 s + k t + wt) in
  Hash temp (h0 s) (rotl 30 (h1 s)) (h2 s) (h3 s).

Definition compress (h : hash) (block : list Z) : hash :=
  let w := schedule block in
  let s := fold_left round (combine (seq 0 80) w) h in
  Hash (w32 (h0 h + h0 s)) (w32 (h1 h + h1 s)) (w32 (h2 h + h2 s))
       (w32 (h3 h + h3 s)) (w32 (h4 h + h4 s)).

Fixpoint process (fuel : nat) (ws : list Z) (h : hash) : hash :=
  match fuel with
  | O => h
  | S fuel' =>
      match ws with
      | [] => h
      | _ => process fuel' (drop 16 ws) (compress h (take 16 ws))
      end
  end.

(** [hashlib.sha1(msg).digest()] *)
Definition digest (msg : list Z) : list Z :=
  let ws := words (pad msg) in
  let h := process (length ws) ws init in
  be_bytes 4 (h0 h) ++ be_bytes 4 (h1 h) ++ be_bytes 4 (h2 h)
  ++ be_bytes 4 (h3 h) ++ be_bytes 4 (h4 h).

Definition hex_digit (n : Z) : ascii :=
  nth (Z.to_nat (n mod 16)) (list_ascii_of_string "0123456789abcdef") "0"%char.

Fixpoint hex (bs : list Z) : string :=
  match bs with
  | [] => ""
  | b :: bs' => String (hex_digit (b / 16)) (String (hex_digit b) (hex bs'))
  end.

(** [hashlib.sha1(msg).hexdigest()] *)
Definition hexdigest (msg : list Z) : string := hex (digest msg).

Definition is_lower_hex (a : ascii) : bool :=
  let n := Py.code a in
  ((48 <=? n) && (n <=? 57)) || ((97 <=? n) && (n <=? 102)).

End SHA1.

(* ===================================================================== *)
(** * JSON values, HTTP requests and responses, observable events *)
(* ===================================================================== *)

Module Json.

(** What [response.json()] returns. Numbers are the integers; the items of
    an object are those of the decoded [dict], in its order, each key
    once. *)
#[warnings="-register-all"] Inductive json : Set :=
  | JNull
  | JBool (b : bool)
  | JNum (n : Z)
  | JStr (s : string)
  | JArr (l : list json)
  | JObj (items : list (string * json)).

Abbreviation dict := (list (string * json)).

(** [d.get(key)] on the items of a dict, [None] when the key is missing. *)
Fixpoint dict_get (key : string) (d : dict) : option json :=
  match d with
  | [] => None
  | (k, v) :: d' => if bool_decide (k = key) then Some v else dict_get key d'
  end.

(** [bool(v)] *)
Definition truthy (v : json) : bool :=
  match v with
  | JNull => false
  | JBool b => b
  | JNum n => negb (n =? 0)
  | JStr s => negb (bool_decide (s = ""))
  | JArr l => negb (bool_decide (l = []))
  | JObj d => negb (bool_decide (d = []))
  end.

Definition chars (s : string) : list json :=
  map (fun a => JStr (String a "")) (list_ascii_of_string s).

(** [v.get(key, default)]: only a dict has the method. *)
Definition get (v : json) (key : string) (default : json) : Py.result json :=
  match v with
  | JObj d => Py.Return (from_option id default (dict_get key d))
  | _ => Py.Raise (Py.Exn Py.AttributeError "object has no attribute 'get'")
  end.

(** [v[key]] with a string key, as [main] uses it on a podcast. *)
Definition getitem (v : json) (key : string) : Py.result json :=
  match v with
  | JObj d =>
      match dict_get key d with
      | Some x => Py.Return x
      | None => Py.Raise (Py.Exn Py.KeyError key)
      end
  | _ => Py.Raise (Py.Exn Py.TypeError "indices must be integers")
  end.

(** [for x in v]: the elements of a list, the characters of a string, the
    keys of a dict; nothing else is iterable. *)
Definition iter (v : json) : Py.result (list json) :=
  match v with
  | JArr l => Py.Return l
  | JStr s => Py.Return (chars s)
  | JObj d => Py.Return (map (fun kv => JStr (fst kv)) d)
  | _ => Py.Raise (Py.Exn Py.TypeError "object is not iterable")
  end.

(** What [v[:n]] raises, if anything: a string and a list can be sliced;
    [None], a number and a [bool] are not subscriptable; a dict takes the
    slice for a key, which is unhashable ([TypeError]) before Python 3.12
    and a key that is missing ([KeyError]) from 3.12 on. *)
Definition slice_error (hashable_slices : bool) (v : json) : option Py.exn :=
  match v with
  | JStr _ | JArr _ => None
  | JObj _ =>
      Some (if hashable_slices
            then Py.Exn Py.KeyError "slice(None, 200, None)"
            else Py.Exn Py.TypeError "unhashable type: 'slice'")
  | _ => Some (Py.Exn Py.TypeError "object is not subscriptable")
  end.

(** [v.values()]: only a dict has the method. *)
Definition values (v : json) : Py.result (list json) :=
  match v with
  | JObj d => Py.Return (map snd d)
  | _ => Py.Raise (Py.Exn Py.AttributeError "object has no attribute 'values'")
  end.

(** [sep.join(l)]: every item must be a [str]. *)
Fixpoint join (sep : string) (l : list json) {struct l} : Py.result string :=
  match l with
  | [] => Py.Return ""
  | v :: l' =>
      match v with
      | JStr x =>
          match l' with
          | [] => Py.Return x
          | _ :: _ =>
              match join sep l' with
              | Py.Return rest => Py.Return (x +:+ sep +:+ rest)
              | Py.Raise e => Py.Raise e
              end
          end
      | _ => Py.Raise (Py.Exn Py.TypeError "sequence item: expected str instance")
      end
  end.

(** [v // k] for a positive [int] [k]: [v] must be a number, and a [bool]
    is one. *)
Definition floordiv (v : json) (k : Z) : Py.result Z :=
  match v with
  | JNum n => Py.Return (n / k)
  | JBool b => Py.Return ((if b then 1 else 0) / k)
  | _ => Py.Raise (Py.Exn Py.TypeError "unsupported operand type(s) for //")
  end.

End Json.

Module Requests.

Abbreviation headers := (list (string * option string)).

(** The arguments of one [get] call. [req_timeout] is the [timeout=]
    keyword: [None] is the library's default, no timeout at all. *)
Record request : Set := Request {
  req_url : string;
  req_headers : headers;
  req_params : list (string * Json.json);
  req_stream : bool;
  req_timeout : option Z
}.

(** What the programs read from a response: the status, the headers (names
    in lower case, values as [http.client] decodes them, as Latin-1 with one
    character per byte), the decoded JSON body ([None] when the body is not
    JSON) and, for a streamed body, the chunks that [iter_content] yields,
    followed by the exception that interrupts the stream, if any. *)
Record response : Set := Response {
  status_code : Z;
  resp_headers : list (string * string);
  resp_json : option Json.json;
  resp_chunks : list (list Z);
  resp_stream_error : option Py.exn
}.

Fixpoint header_get (key : string) (h : list (string * string)) : option string :=
  match h with
  | [] => None
  | (k, v) :: h' => if bool_decide (k = key) then Some v else header_get key h'
  end.

(** [response.raise_for_status()]: [HTTPError] for the 4xx and 5xx codes. *)
Definition raise_for_status (r : response) : Py.result unit :=
  if (400 <=? status_code r) && (status_code r <? 600)
  then Py.Raise (Py.Exn Py.HTTPError (Py.str (status_code r) +:+ " Error"))
  else Py.Return tt.

(** [response.json()] *)
Definition json (r : response) : Py.result Json.json :=
  match resp_json r with
  | Some v => Py.Return v
  | None => Py.Raise (Py.Exn Py.JSONDecodeError "Expecting value")
  end.

End Requests.

Module IO.

(** The parts of an f-string whose values have no fixed type: literal
    text, [{v}] for the [str()] of a value, and [{v[:200]}] for the [str()]
    of the first 200 items of a string or a list. *)
Inductive piece : Set :=
  | Text (s : string)
  | Str (v : Json.json)
  | Str200 (v : Json.json).

(** What a run does to the outside, in order. Lines whose text is built from
    a dict or from values of unknown type keep the value instead of its
    rendering: [PrintHeaders h] is [print(f"With headers: {h}")],
    [PrintLatest t] is [print(f"\nLatest episodes for: {t}")], [Print parts]
    is the [print] of an f-string with the parts [parts], and
    [Progress n total] is the state of the progress bar after an
    [update]. *)
Inductive event : Set :=
  | Stdout (line : string)
  | Stderr (line : string)
  | PrintHeaders (h : Requests.headers)
  | PrintLatest (title : Json.json)
  | Print (parts : list piece)
  | Input (prompt : string)
  | HttpGet (r : Requests.request)
  | Progress (n total : Z).

(** How a [main] ends: [sys.exit(code)] or falling off its end (code 0), or
    an exception that nothing catches. *)
Inductive outcome : Set :=
  | Exit (code : Z)
  | Uncaught (e : Py.exn).

Definition nl : string := String (ascii_of_nat 10) "".

End IO.

(* ===================================================================== *)
(** * Computations with a state and exceptions *)
(* ===================================================================== *)

Module Eff.

Definition M (S A : Type) : Type := S -> Py.result A * S.

#[global] Instance M_ret {S} : MRet (M S) := fun A a s => (Py.Return a, s).

#[global] Instance M_bind {S} : MBind (M S) := fun A B k c s =>
  match c s with
  | (Py.Return a, s') => k a s'
  | (Py.Raise e, s') => (Py.Raise e, s')
  end.

Definition raise {S A} (e : Py.exn) : M S A := fun s => (Py.Raise e, s).

Definition lift {S A} (r : Py.result A) : M S A := fun s => (r, s).

(** The first [except] clause whose class the exception is an instance of. *)
Fixpoint handler_for {S A} (e : Py.exn)
    (clauses : list (Py.exn_class * (Py.exn -> M S A))) : option (M S A) :=
  match clauses with
  | [] => None
  | (cls, h) :: rest =>
      if Py.isinstance e cls then Some (h e) else handler_for e rest
  end.

(** [try: body  except C1 as e: h1(e)  except C2 as e: h2(e) ...] *)
Definition try_except {S A} (body : M S A)
    (clauses : list (Py.exn_class * (Py.exn -> M S A))) : M S A := fun s =>
  match body s with
  | (Py.Raise e, s') =>
      match handler_for e clauses with
      | Some h => h s'
      | None => (Py.Raise e, s')
      end
  | r => r
  end.

(** [try: body  finally: cleanup] *)
Definition try_finally {S A} (body : M S A) (cleanup : M S unit) : M S A := fun s =>
  let '(r, s') := body s in
  match cleanup s' with
  | (Py.Return _, s'') => (r, s'')
  | (Py.Raise e, s'') => (Py.Raise e, s'')
  end.

(** [for x in l: body(x)] *)
Fixpoint for_each {S A} (l : list A) (body : A -> M S unit) : M S unit :=
  match l with
  | [] => mret tt
  | x :: l' => body x ;; for_each l' body
  end.

End Eff.

(* ===================================================================== *)
(** * The retry policy object of the HTTP adapter *)
(* ===================================================================== *)

Module Urllib3.

(** Library semantics. [create_session] only builds a
    [urllib3.util.retry.Retry] and mounts it; what the object then does is
    the library's [Retry.increment], [Retry.is_exhausted], [Retry.is_retry],
    [Retry.get_backoff_time], [Retry.sleep] and the loop of
    [HTTPConnectionPool.urlopen], transcribed here for the [GET] method
    (which is in the default [allowed_methods]) and for counters that are
    [None] or an integer. *)

(** The failures of one attempt, as [urlopen] classifies them. A refused or
    unreachable connection and a failed name lookup are
    [NewConnectionError], a subclass of [ConnectTimeoutError]. *)
Inductive error : Set :=
  | ConnectTimeoutError | NewConnectionError
  | ReadTimeoutError | ProtocolError
  | SSLError.

Definition is_connection_error (e : error) : bool :=
  match e with ConnectTimeoutError | NewConnectionError => true | _ => false end.

Definition is_read_error (e : error) : bool :=
  match e with ReadTimeoutError | ProtocolError => true | _ => false end.

(** What one attempt gives: a failure, or a response with its status and
    the seconds of its [Retry-After] header when it has one. *)
Inductive attempt : Set :=
  | Fail (e : error)
  | Respond (status : Z) (retry_after : option Z).

Record Retry : Set := mkRetry {
  total : option Z;
  connect : option Z;
  read : option Z;
  status : option Z;
  other : option Z;
  status_forcelist : list Z;
  backoff_factor : Z;
  raise_on_status : bool;
  respect_retry_after_header : bool;
  history : list attempt
}.

(** [Retry()] with the defaults of its constructor. *)
Definition default : Retry :=
  mkRetry (Some 10) None None None None [] 0 true true [].

Definition RETRY_AFTER_STATUS_CODES : list Z := [413; 429; 503].
Definition DEFAULT_BACKOFF_MAX : Z := 120.

Definition decr (c : option Z) : option Z := (fun x => x - 1) <$> c.

(** [filter(None, retry_counts)]: the counters that are neither [None]
    nor zero. *)
Definition live_counts (r : Retry) : list Z :=
  filter (fun x => x ≠ 0) (omap id [total r; connect r; read r; status r; other r]).

Definition is_exhausted (r : Retry) : bool :=
  match live_counts r with
  | [] => false
  | x :: l => foldr Z.min x l <? 0
  end.

Definition is_retry (r : Retry) (status_code : Z) (has_retry_after : bool) : bool :=
  if negb (bool_decide (status_forcelist r = []))
     && bool_decide (status_code ∈ status_forcelist r)
  then true
  else from_option (fun t => negb (t =? 0)) false (total r)
       && respect_retry_after_header r
       && has_retry_after
       && bool_decide (status_code ∈ RETRY_AFTER_STATUS_CODES).

(** [increment]: the new policy object, or [None] for [MaxRetryError]. *)
Definition increment (r : Retry) (a : attempt) : option Retry :=
  let r' :=
    match a with
    | Fail e =>
        if is_connection_error e then
          mkRetry (decr (total r)) (decr (connect r)) (read r) (status r) (other r)
                  (status_forcelist r) (backoff_factor r) (raise_on_status r)
                  (respect_retry_after_header r) (history r ++ [a])
        else if is_read_error e then
          mkRetry (decr (total r)) (connect r) (decr (read r)) (status r) (other r)
                  (status_forcelist r) (backoff_factor r) (raise_on_status r)
                  (respect_retry_after_header r) (history r ++ [a])
        else
          mkRetry (decr (total r)) (connect r) (read r) (status r) (decr (other r))
                  (status_forcelist r) (backoff_factor r) (raise_on_status r)
                  (respect_retry_after_header r) (history r ++ [a])
    | Respond _ _ =>
        mkRetry (decr (total r)) (connect r) (read r) (decr (status r)) (other r)
                (status_forcelist r) (backoff_factor r) (raise_on_status r)
                (respect_retry_after_header r) (history r ++ [a])
    end in
  if is_exhausted r' then None else Some r'.

Definition get_backoff_time (r : Retry) : Z :=
  let consecutive_errors_len := Z.of_nat (length (history r)) in
  if consecutive_errors_len <=? 1 then 0
  else Z.min DEFAULT_BACKOFF_MAX
             (backoff_factor r * 2 ^ (consecutive_errors_len - 1)).

(** [sleep(response)]: the seconds slept before the next attempt, given the
    [Retry-After] seconds of the response, if there is a response and it
    has the header. *)
Definition sleep (r : Retry) (retry_after : option Z) : Z :=
  match retry_after with
  | Some seconds =>
      if respect_retry_after_header r && negb (seconds =? 0) then seconds
      else get_backoff_time r
  | None => get_backoff_time r
  end.

Inductive reply : Set :=
  | Response (status : Z)
  | MaxRetryError (last : attempt).

(** A run of [urlopen]: the reply ([None] when the scripted attempts ran
    out before the client stopped), the number of attempts made and the
    seconds slept between them. *)
Record run : Set := Run { result : option reply; attempts : nat; sleeps : list Z }.

Definition again (z : Z) (r : run) : run :=
  Run (result r) (S (attempts r)) (z :: sleeps r).

(** [urlopen] against the outcomes of the successive attempts. An attempt
    whose outcome the script does not give is counted as made, and the run
    has no reply. *)
Fixpoint urlopen (retries : Retry) (script : list attempt) : run :=
  match script with
  | [] => Run None 1 []
  | a :: rest =>
      match a with
      | Fail _ =>
          match increment retries a with
          | None => Run (Some (MaxRetryError a)) 1 []
          | Some retries' => again (sleep retries' None) (urlopen retries' rest)
          end
      | Respond st retry_after =>
          if is_retry retries st (bool_decide (is_Some retry_after)) then
            match increment retries a with
            | None =>
                if raise_on_status retries then Run (Some (MaxRetryError a)) 1 []
                else Run (Some (Response st)) 1 []
            | Some retries' => again (sleep retries' retry_after) (urlopen retries' rest)
            end
          else Run (Some (Response st)) 1 []
      end
  end.

End Urllib3.

(* ===================================================================== *)
(** * podcast_search.py *)
(* ===================================================================== *)

Module PodcastSearch.

Import Json IO Eff.

Definition BASE_URL : string := "https://api.podcastindex.org/api/1.0".

(** The session of [create_session]: the adapters mounted on it. *)
Record session : Set := Session { mounts : list (string * Urllib3.Retry) }.

(** [Retry(total=3, backoff_factor=1, status_forcelist=[...])], the other
    fields as in [Urllib3.default]. *)
Definition retry_strategy : Urllib3.Retry :=
  Urllib3.mkRetry (Some 3) None None None None [429; 500; 502; 503; 504] 1
                  true true [].

Definition create_session : session :=
  Session [("https://", retry_strategy); ("http://", retry_strategy)].

(** The world around a run: what the [n]-th reading of the clock gives as
    [int(time.time())]; what [session.get] does with a request, that is
    the response it returns or the exception it raises; what
    [datetime.fromtimestamp(t).strftime("%Y-%m-%d")] gives for an [int] in
    the time zone of the machine, or the exception that [fromtimestamp]
    raises when [t] is out of range ([ValueError], [OverflowError] or
    [OSError]); and whether the interpreter can hash a slice (Python 3.12
    and later). *)
Record world : Type := World {
  time_time : nat -> Z;
  session_get : session -> Requests.request -> Py.result Requests.response;
  local_date : Z -> Py.result string;
  hashable_slices : bool
}.

Record state : Set := State { clock_reads : nat; trace : list event }.

Definition emit (e : event) : M state unit :=
  fun s => (Py.Return tt, State (clock_reads s) (trace s ++ [e])).

Definition print (line : string) : M state unit := emit (Stdout line).
Definition eprint (line : string) : M state unit := emit (Stderr line).

(** What an f-string shows for a value that can be [None]. *)
Definition fmt (v : option string) : string := default "None" v.

Section Program.

(** [API_KEY] and [API_SECRET] as [os.getenv] gave them. *)
Variables API_KEY API_SECRET : option string.
Variable W : world.

Definition now : M state Z :=
  fun s => (Py.Return (time_time W (clock_reads s)),
            State (S (clock_reads s)) (trace s)).

(** The headers for the clock reading [t]. *)
Definition sign (t : Z) : Requests.headers :=
  let auth_date := Py.str t in
  let hash_input := fmt API_KEY +:+ fmt API_SECRET +:+ auth_date in
  let auth_hash := SHA1.hexdigest (Py.encode hash_input) in
  [("X-Auth-Date", Some auth_date);
   ("X-Auth-Key", API_KEY);
   ("Authorization", Some auth_hash);
   ("User-Agent", Some "PodcastSearch/1.0")].

Definition get_headers : M state Requests.headers :=
  t ← now;
  mret (sign t).

(** The three [except] clauses shared by the two catalog calls; [what] is
    the text of the last one. *)
Definition degrade (what : string) (body : M state json) : M state json :=
  try_except body
    [(Py.ConnectionError, fun e =>
        eprint ("Connection error: Could not connect to " +:+ BASE_URL
                +:+ ". Please check your internet connection.") ;;
        eprint ("Detailed error: " +:+ Py.exn_str e) ;;
        mret (JArr []));
     (Py.Timeout, fun e =>
        eprint "Timeout error: The request took too long to complete." ;;
        eprint ("Detailed error: " +:+ Py.exn_str e) ;;
        mret (JArr []));
     (Py.RequestException, fun e =>
        eprint (what +:+ Py.exn_str e) ;;
        mret (JArr []))].

Definition search_request (h : Requests.headers) (term : string) : Requests.request :=
  Requests.Request (BASE_URL +:+ "/search/byterm") h [("q", JStr term)] false (Some 10).

Definition search_podcasts (term : string) : M state json :=
  let url := BASE_URL +:+ "/search/byterm" in
  degrade "Error searching podcasts: " (
    let session := create_session in
    print ("Making request to: " +:+ url) ;;
    shown ← get_headers;
    emit (PrintHeaders shown) ;;
    h ← get_headers;
    emit (HttpGet (search_request h term)) ;;
    response ← lift (session_get W session (search_request h term));
    lift (Requests.raise_for_status response) ;;
    body ← lift (Requests.json response);
    lift (get body "feeds" (JArr []))).

Definition episodes_request (h : Requests.headers) (feed_id : json) : Requests.request :=
  Requests.Request (BASE_URL +:+ "/episodes/byfeedid") h
                   [("id", feed_id); ("max", JNum 5)] false (Some 10).

Definition get_episodes (feed_id : json) : M state json :=
  degrade "Error getting episodes: " (
    let session := create_session in
    h ← get_headers;
    emit (HttpGet (episodes_request h feed_id)) ;;
    response ← lift (session_get W session (episodes_request h feed_id));
    lift (Requests.raise_for_status response) ;;
    body ← lift (Requests.json response);
    lift (get body "items" (JArr []))).

(** [format_date]: [fromtimestamp] takes a number, and a [bool] is one. *)
Definition format_date (timestamp : json) : Py.result string :=
  match timestamp with
  | JNum t => local_date W t
  | JBool b => local_date W (if b then 1 else 0)
  | _ => Py.Raise (Py.Exn Py.TypeError "an integer is required")
  end.

(** [display_podcast]: four lines. The description must be a string or a
    list, for the slice; the categories, unless they count as false, must
    be a dict of strings, for [values] and [join]. *)
Definition display_podcast (podcast : json) (index : nat) : M state unit :=
  title ← lift (get podcast "title" (JStr "Unknown Title"));
  emit (Print [Text (nl +:+ Py.str (Z.of_nat index + 1) +:+ ". "); Str title]) ;;
  author ← lift (get podcast "author" (JStr "Unknown Author"));
  emit (Print [Text "   Author: "; Str author]) ;;
  description ← lift (get podcast "description" (JStr "No description"));
  match slice_error (hashable_slices W) description with
  | Some e => raise e
  | None =>
      emit (Print [Text "   Description: "; Str200 description; Text "..."]) ;;
      categories ← lift (get podcast "categories" (JObj []));
      if truthy categories then
        names ← lift (values categories);
        joined ← lift (join ", " names);
        print ("   Categories: " +:+ joined)
      else print "   Categories: None"
  end.

(** [display_episode]: four lines. The date must be a number that
    [fromtimestamp] accepts, the duration a number. *)
Definition display_episode (episode : json) : M state unit :=
  title ← lift (get episode "title" (JStr "Unknown Title"));
  emit (Print [Text (nl +:+ "Title: "); Str title]) ;;
  published ← lift (get episode "datePublished" (JNum 0));
  date ← lift (format_date published);
  print ("Date: " +:+ date) ;;
  duration ← lift (get episode "duration" (JNum 0));
  minutes ← lift (floordiv duration 60);
  print ("Duration: " +:+ Py.str minutes +:+ " minutes") ;;
  url ← lift (get episode "enclosureUrl" (JStr "No URL available"));
  emit (Print [Text "Download URL: "; Str url]).

(** Where the two nested loops of [main] stand before an [input] call: at
    the prompt of the outer loop, or at the prompt of the inner loop with
    the list [podcasts] of the last search. *)
Inductive mode : Set :=
  | AwaitingSearchTerm
  | AwaitingSelection (podcasts : list json).

(** What one pass through a loop body leads to: [Break] leaves the outer
    loop, [Continue m] reaches the next [input] call in mode [m]. *)
Inductive next : Set :=
  | Break
  | Continue (m : mode).

Definition search_prompt : string :=
  nl +:+ "Enter podcast search term (or 'q' to quit): ".
Definition selection_prompt : string :=
  nl +:+ "Select a podcast number (1-5) or 'b' to go back: ".

(** [input(prompt)] when the user types [line]. *)
Definition input (prompt line : string) : M state string :=
  emit (Input prompt) ;; mret line.

(** The outer loop body from the search on, for the term [search_term]. *)
Definition searching (search_term : string) : M state next :=
  print (nl +:+ "Searching for '" +:+ search_term +:+ "'...") ;;
  podcasts ← search_podcasts search_term;
  if negb (truthy podcasts) then
    print "No podcasts found." ;;
    mret (Continue AwaitingSearchTerm)
  else
    print (nl +:+ "Top 5 Results:") ;;
    match podcasts with
    | JArr l =>
        for_each (imap (fun i p => (i, p)) (take 5 l))
                 (fun ip => display_podcast ip.2 ip.1) ;;
        mret (Continue (AwaitingSelection l))
    | JStr _ => raise (Py.Exn Py.AttributeError "object has no attribute 'get'")
    | _ => raise (default (Py.Exn Py.TypeError "object is not subscriptable")
                          (slice_error (hashable_slices W) podcasts))
    end.

(** The outer loop body, up to the inner loop. *)
Definition search_iteration (line : string) : M state next :=
  typed ← input search_prompt line;
  let search_term := Py.strip typed in
  if bool_decide (Py.lower search_term = "q") then mret Break
  else searching search_term.

(** The branch of the inner loop body that a valid number takes. *)
Definition select (podcasts : list json) (index : Z) : M state next :=
  match podcasts !! Z.to_nat index with
  | None => raise (Py.Exn Py.IndexError "list index out of range")
  | Some selected_podcast =>
      title ← lift (get selected_podcast "title" JNull);
      emit (PrintLatest title) ;;
      feed_id ← lift (getitem selected_podcast "id");
      episodes ← get_episodes feed_id;
      l ← lift (iter episodes);
      for_each l display_episode ;;
      mret (Continue AwaitingSearchTerm)
  end.

(** The inner loop body. *)
Definition selection_iteration (podcasts : list json) (line : string) : M state next :=
  try_except (
    typed ← input selection_prompt line;
    let selection := Py.strip typed in
    if bool_decide (Py.lower selection = "b") then mret (Continue AwaitingSearchTerm)
    else
      match Py.int selection with
      | None => raise (Py.Exn Py.ValueError "invalid literal for int() with base 10")
      | Some n =>
          let index := n - 1 in
          if (0 <=? index) && (index <? Z.min 5 (Z.of_nat (length podcasts)))
          then select podcasts index
          else
            print "Invalid selection. Please enter a number between 1 and 5." ;;
            mret (Continue (AwaitingSelection podcasts))
      end)
    [(Py.ValueError, fun _ =>
        print "Please enter a valid number or 'b' to go back." ;;
        mret (Continue (AwaitingSelection podcasts)))].

(** The two loops, one [input] call per step. When standard input is at
    its end, [input] shows the prompt and raises [EOFError]. *)
Fixpoint loop (stdin : list string) (m : mode) : M state unit :=
  match stdin with
  | [] =>
      emit (Input (match m with
                   | AwaitingSearchTerm => search_prompt
                   | AwaitingSelection _ => selection_prompt
                   end)) ;;
      raise (Py.Exn Py.EOFError "EOF when reading a line")
  | line :: rest =>
      n ← match m with
          | AwaitingSearchTerm => search_iteration line
          | AwaitingSelection podcasts => selection_iteration podcasts line
          end;
      match n with
      | Break => mret tt
      | Continue m' => loop rest m'
      end
  end.

(** [not API_KEY] *)
Definition missing (v : option string) : bool :=
  match v with
  | None => true
  | Some s => bool_decide (s = "")
  end.

Definition main (stdin : list string) : outcome * state :=
  let s0 := State 0 [] in
  if missing API_KEY then
    (Exit 1, (eprint "Error: PODCAST_INDEX_API_KEY not found in .env file" s0).2)
  else
    match loop stdin AwaitingSearchTerm s0 with
    | (Py.Return _, s) => (Exit 0, s)
    | (Py.Raise e, s) => (Uncaught e, s)
    end.

End Program.

End PodcastSearch.

(* ===================================================================== *)
(** * transcribe_podcast.py *)
(* ===================================================================== *)

Module TranscribePodcast.

Import Json IO Eff.

(** The regular files with their bytes. A file is named by one canonical
    path, the key of the map; the paths that the program spells reach it
    through [file_of] below. A file has one directory entry: hard links
    and symbolic links to files are left out. *)
Abbreviation files := (gmap string (list Z)).

(** The world around a run:
    - what [requests.get] does with a request;
    - the path component that [urlparse] finds in a URL, or the
      [ValueError] that [urlparse] raises on a URL it cannot parse;
    - the failure of [mkdir], if any;
    - the file that a path names: two spellings of one path, such as
      [transcripts/x] and [./transcripts/x], name the same file;
    - the paths that are directories;
    - the failures of opening a path for writing, of writing [data] to a
      path that holds [content], of [Path.exists] (which lets a
      [PermissionError] through before Python 3.12) and of [unlink];
    - the Whisper package: [whisper.load_model] and [model.transcribe],
      which sees the bytes of the audio file, if the file exists. *)
Record world : Type := World {
  requests_get : Requests.request -> Py.result Requests.response;
  urlparse_path : string -> Py.result string;
  mkdir_error : option Py.exn;
  file_of : string -> string;
  is_dir : string -> bool;
  open_error : string -> option Py.exn;
  write_error : string -> list Z -> list Z -> option Py.exn;
  exists_error : string -> option Py.exn;
  unlink_error : string -> option Py.exn;
  load_model : string -> option Py.exn;
  transcribe : string -> option (list Z) -> Py.result json
}.

Record state : Type := State { fs : files; trace : list event }.

Definition emit (e : event) : M state unit :=
  fun s => (Py.Return tt, State (fs s) (trace s ++ [e])).

Definition print (line : string) : M state unit := emit (Stdout line).
Definition eprint (line : string) : M state unit := emit (Stderr line).

(** [sys.exit(1)] *)
Definition sys_exit_1 {A} : M state A := raise (Py.Exn Py.SystemExit "1").

(** The progress bar: [tqdm(total=...)] and [update]. *)
Record tqdm : Set := Tqdm { n : Z; total : Z }.

Definition update (progress : tqdm) (size : Z) : M state tqdm :=
  let progress' := Tqdm (n progress + size) (total progress) in
  emit (Progress (n progress') (total progress')) ;;
  mret progress'.

Section Program.

Variable W : world.

(** [open(path, 'wb')] and [open(path, 'w')]: the file that the path names
    is created or truncated. *)
Definition open_for_writing (path : string) : M state unit :=
  match open_error W path with
  | Some e => raise e
  | None => fun s => (Py.Return tt, State (<[file_of W path := []]> (fs s)) (trace s))
  end.

(** [file.write(data)]: the number of bytes written. A write that fails
    leaves the file as it was. *)
Definition file_write (path : string) (data : list Z) : M state Z := fun s =>
  let content := default [] (fs s !! file_of W path) in
  match write_error W path content data with
  | Some e => (Py.Raise e, s)
  | None => (Py.Return (Z.of_nat (length data)),
             State (<[file_of W path := content ++ data]> (fs s)) (trace s))
  end.

(** [path.exists()]: a file or a directory is there. *)
Definition path_exists (path : string) : M state bool := fun s =>
  match exists_error W path with
  | Some e => (Py.Raise e, s)
  | None =>
      (Py.Return (bool_decide (is_Some (fs s !! file_of W path)) || is_dir W path), s)
  end.

(** [path.unlink()]: the file is removed, unless the call fails; on a
    directory it always fails. *)
Definition unlink (path : string) : M state unit := fun s =>
  match unlink_error W path with
  | Some e => (Py.Raise e, s)
  | None =>
      if is_dir W path then (Py.Raise (Py.Exn Py.IsADirectoryError "Is a directory"), s)
      else (Py.Return tt, State (delete (file_of W path) (fs s)) (trace s))
  end.

(** [for data in response.iter_content(...)]: the chunks in turn. *)
Fixpoint write_chunks (path : string) (chunks : list (list Z)) (progress : tqdm)
    : M state tqdm :=
  match chunks with
  | [] => mret progress
  | data :: rest =>
      size ← file_write path data;
      progress' ← update progress size;
      write_chunks path rest progress'
  end.

Definition download_request (url : string) : Requests.request :=
  Requests.Request url [] [] true None.

(** [int(response.headers.get('content-length', 0))] *)
Definition content_length (response : Requests.response) : Py.result Z :=
  match Requests.header_get "content-length" (Requests.resp_headers response) with
  | None => Py.Return 0
  | Some v =>
      match Py.int_latin1 v with
      | Some z => Py.Return z
      | None => Py.Raise (Py.Exn Py.ValueError "invalid literal for int() with base 10")
      end
  end.

(** The [try] block of [download_audio]. *)
Definition download_body (url output_path : string) : M state bool :=
  emit (HttpGet (download_request url)) ;;
  response ← lift (requests_get W (download_request url));
  lift (Requests.raise_for_status response) ;;
  total_size ← lift (content_length response);
  let progress := Tqdm 0 total_size in
  open_for_writing output_path ;;
  write_chunks output_path (Requests.resp_chunks response) progress ;;
  match Requests.resp_stream_error response with
  | Some e => raise e
  | None => mret true
  end.

Definition download_audio (url output_path : string) : M state bool :=
  try_except (download_body url output_path)
    [(Py.Exception, fun e =>
        eprint ("Error downloading file: " +:+ Py.exn_str e) ;;
        mret false)].

(** [os.path.basename] *)
Fixpoint basename_chars (l : list ascii) : list ascii :=
  match l with
  | [] => []
  | a :: l' =>
      if bool_decide ("/"%char ∈ l') then basename_chars l'
      else if bool_decide (a = "/"%char) then l' else l
  end.

(** [os.path.splitext(name)[0]] for a name without separator: the part
    before the last dot, unless only dots precede that dot. *)
Fixpoint root_chars (seen_other : bool) (l : list ascii) : list ascii :=
  match l with
  | [] => []
  | a :: l' =>
      if bool_decide (a = "."%char) then
        if seen_other && negb (bool_decide ("."%char ∈ l')) then []
        else a :: root_chars seen_other l'
      else a :: root_chars true l'
  end.

Definition get_output_filename (url : string) : Py.result string :=
  match urlparse_path W url with
  | Py.Raise e => Py.Raise e
  | Py.Return parsed_path =>
      let base_name := basename_chars (list_ascii_of_string parsed_path) in
      let name_without_ext := string_of_list_ascii (root_chars false base_name) in
      Py.Return (name_without_ext +:+ "_transcript.txt")
  end.

(** The [try] block of [transcribe_audio]. *)
Definition transcribe_body (audio_path output_path model_name : string)
    : M state bool :=
  print "Loading Whisper model..." ;;
  match load_model W model_name with
  | Some e => raise e
  | None =>
      print "Transcribing audio... This may take a while." ;;
      audio ← (fun s => (Py.Return (fs s !! file_of W audio_path), s));
      result ← lift (transcribe W model_name audio);
      open_for_writing output_path ;;
      text ← lift (getitem result "text");
      match text with
      | JStr t => file_write output_path (Py.encode t) ;; mret true
      | _ => raise (Py.Exn Py.TypeError "write() argument must be str")
      end
  end.

Definition transcribe_audio (audio_path output_path model_name : string)
    : M state bool :=
  try_except (transcribe_body audio_path output_path model_name)
    [(Py.Exception, fun e =>
        eprint ("Error during transcription: " +:+ Py.exn_str e) ;;
        mret false)].

(** The parsed command line. *)
Record args : Set := Args { url : string; model : string; output : option string }.

Definition output_dir : string := "transcripts".
Definition temp_audio : string := output_dir +:+ "/" +:+ "temp_audio.mp3".

(** [output_dir / get_output_filename(args.url)] *)
Definition default_output (a : args) : Py.result string :=
  match get_output_filename (url a) with
  | Py.Raise e => Py.Raise e
  | Py.Return name => Py.Return (output_dir +:+ "/" +:+ name)
  end.

(** [args.output if args.output else output_dir / get_output_filename(args.url)] *)
Definition resolve_output (a : args) : Py.result string :=
  match output a with
  | Some o => if bool_decide (o = "") then default_output a else Py.Return o
  | None => default_output a
  end.

(** The [finally] block of [main]. *)
Definition cleanup : M state unit :=
  there ← path_exists temp_audio;
  if there : bool then unlink temp_audio else mret tt.

(** The [try] block of [main]. *)
Definition pipeline (a : args) (output_path : string) : M state unit :=
  print ("Downloading podcast from " +:+ url a) ;;
  ok ← download_audio (url a) temp_audio;
  (if negb ok : bool then sys_exit_1 else mret tt) ;;
  print ("Transcribing to " +:+ output_path) ;;
  ok' ← transcribe_audio temp_audio output_path (model a);
  (if negb ok' : bool then sys_exit_1 else mret tt) ;;
  print (nl +:+ "Transcription completed successfully!") ;;
  print ("Transcript saved to: " +:+ output_path).

(** The [try] ... [finally] statement of [main]. *)
Definition run (a : args) (output_path : string) : M state unit :=
  try_finally (pipeline a output_path) cleanup.

(** How the interpreter ends on what [main] gave. *)
Definition at_exit (r : Py.result unit) : outcome :=
  match r with
  | Py.Return _ => Exit 0
  | Py.Raise e =>
      if bool_decide (Py.exn_cls e = Py.SystemExit)
      then Exit (default 1 (Py.int (Py.exn_str e)))
      else Uncaught e
  end.

Definition main (a : args) (s : state) : outcome * state :=
  match mkdir_error W with
  | Some e => (Uncaught e, s)
  | None =>
      match resolve_output a with
      | Py.Raise e => (Uncaught e, s)
      | Py.Return output_path =>
          let '(r, s') := run a output_path s in
          (at_exit r, s')
      end
  end.

End Program.

End TranscribePodcast.

Example sha1_abc :
  SHA1.hexdigest (Py.encode "abc") = "a9993e364706816aba3e25717850c26c9cd0d89d".
Proof. vm_compute. reflexivity. Qed.

Example sha1_empty :
  SHA1.hexdigest (Py.encode "") = "da39a3ee5e6b4b0d3255bfef95601890afd80709".
Proof. vm_compute. reflexivity. Qed.

Example sha1_two_blocks :
  SHA1.hexdigest
    (Py.encode "abcdbcdecdefdefgefghfghighijhijkijkljklmklmnlmnomnopnopq")
  = "84983e441c3bd26ebaae4aa1f95129e5e54670f1".
Proof. vm_compute. reflexivity. Qed.

Example int_examples :
  Py.int " 42 " = Some 42 /\ Py.int "-7" = Some (-7) /\ Py.int "+1_0" = Some 10
  /\ Py.int "" = None /\ Py.int "abc" = None /\ Py.int "1__0" = None
  /\ Py.int "0" = Some 0 /\ Py.int "007" = Some 7 /\ Py.int "-" = None
  /\ Py.int "+ 1" = None /\ Py.int "1e3" = None /\ Py.int "0x10" = None.
Proof. vm_compute. repeat split; reflexivity. Qed.

(** The limit on the digits: 4300 are converted, 4301 are not. *)
Example int_digit_limit :
  Py.int (string_of_list_ascii (repeat "1"%char 4300)) <> None
  /\ Py.int (string_of_list_ascii (repeat "0"%char 4300 ++ ["1"%char])) = None.
Proof. vm_compute. split; [discriminate|reflexivity]. Qed.

(** A header value that ends in a no-break space, byte 160. *)
Example int_latin1_examples :
  Py.int_latin1 "7" = Some 7
  /\ Py.int_latin1 (String "7" (String (ascii_of_nat 160) "")) = Some 7
  /\ Py.int_latin1 "seven" = None.
Proof. vm_compute. repeat split; reflexivity. Qed.

Example str_examples : Py.str 1700000000 = "1700000000" /\ Py.str (-5) = "-5".
Proof. vm_compute. split; reflexivity. Qed.

Example basename_splitext_examples :
  TranscribePodcast.basename_chars (list_ascii_of_string "/a/b/ep.mp3")
    = list_ascii_of_string "ep.mp3"
  /\ TranscribePodcast.root_chars false (list_ascii_of_string "ep.final.mp3")
    = list_ascii_of_string "ep.final"
  /\ TranscribePodcast.root_chars false (list_ascii_of_string "..hidden")
    = list_ascii_of_string "..hidden".
Proof. vm_compute. repeat split; reflexivity. Qed.

(* ===================================================================== *)
(** * The request signer *)
(* ===================================================================== *)

Module SignerFacts.

Import PodcastSearch.

Lemma be_bytes_length (n : nat) (x : Z) : length (SHA1.be_bytes n x) = n.
Proof.
  unfold SHA1.be_bytes.
  now rewrite length_map, length_rev, length_seq.
Qed.

Lemma digest_length (msg : list Z) : length (SHA1.digest msg) = 20%nat.
Proof.
  unfold SHA1.digest.
  repeat rewrite length_app.
  now repeat rewrite be_bytes_length.
Qed.

Lemma hex_length (bs : list Z) :
  String.length (SHA1.hex bs) = (2 * length bs)%nat.
Proof.
  induction bs as [|b bs IH]; simpl; [reflexivity|].
  rewrite IH. lia.
Qed.

Lemma hex_digit_lower (x : Z) : SHA1.is_lower_hex (SHA1.hex_digit x) = true.
Proof.
  unfold SHA1.hex_digit.
  pose proof (Z.mod_pos_bound x 16 eq_refl) as Hb.
  assert (Hm : (Z.to_nat (x mod 16) < 16)%nat) by lia.
  clear Hb. revert Hm. generalize (Z.to_nat (x mod 16)). intros m Hm.
  do 16 (destruct m as [|m]; [vm_compute; reflexivity|]).
  lia.
Qed.

Lemma hex_lower (bs : list Z) :
  Forall (fun a => SHA1.is_lower_hex a = true) (list_ascii_of_string (SHA1.hex bs)).
Proof.
  induction bs as [|b bs IH]; simpl; [constructor|].
  repeat constructor; auto using hex_digit_lower.
Qed.

(** C3. For credentials [key] and [secret] and at every call, [get_headers]
    returns the four headers in which [Authorization] is the SHA1 digest of
    [key ++ secret ++ t], where [t] is the decimal string of the unix time
    in seconds read at that call; the digest is rendered as 40 lowercase
    hexadecimal characters; [X-Auth-Date] is [t], [X-Auth-Key] is [key] and
    [User-Agent] is the fixed identifier. *)
Theorem get_headers_signs (key secret : string) (W : world) (s : state) :
  let t := Py.str (time_time W (clock_reads s)) in
  let signature := SHA1.hexdigest (Py.encode (key +:+ secret +:+ t)) in
  (get_headers (Some key) (Some secret) W s).1
    = Py.Return [("X-Auth-Date", Some t); ("X-Auth-Key", Some key);
                 ("Authorization", Some signature);
                 ("User-Agent", Some "PodcastSearch/1.0")]
  /\ String.length signature = 40%nat
  /\ Forall (fun a => SHA1.is_lower_hex a = true) (list_ascii_of_string signature)
  /\ trace (get_headers (Some key) (Some secret) W s).2 = trace s.
Proof.
  intros t signature. split; [reflexivity|]. split; [|split; [|reflexivity]].
  - unfold signature, SHA1.hexdigest. rewrite hex_length, digest_length. reflexivity.
  - apply hex_lower.
Qed.

End SignerFacts.

(* ===================================================================== *)
(** * The catalog calls *)
(* ===================================================================== *)

Module CatalogFacts.

Import Json IO Eff PodcastSearch.

Section Catalog.

Variables API_KEY API_SECRET : option string.
Variable W : world.

Local Abbreviation sign := (sign API_KEY API_SECRET).
Local Abbreviation search_podcasts := (search_podcasts API_KEY API_SECRET W).
Local Abbreviation get_episodes := (get_episodes API_KEY API_SECRET W).

(** The request that [search_podcasts term] sends from the state [s]: its
    headers are signed at the second clock reading of the call, the first
    one being spent on the headers that are printed. *)
Definition search_sent (term : string) (s : state) : Requests.request :=
  search_request (sign (time_time W (S (clock_reads s)))) term.

(** The request that [get_episodes feed_id] sends from the state [s]. *)
Definition episodes_sent (feed_id : json) (s : state) : Requests.request :=
  episodes_request (sign (time_time W (clock_reads s))) feed_id.

(** The failures of a call of [session.get] followed by
    [raise_for_status]: an exception of the [requests] hierarchy (a
    connection error, a timeout, retries exhausted on a status), or a
    response with a 4xx or 5xx status. *)
Definition http_failure (o : Py.result Requests.response) : bool :=
  match o with
  | Py.Raise e => Py.isinstance e Py.RequestException
  | Py.Return r => (400 <=? Requests.status_code r) && (Requests.status_code r <? 600)
  end.





Local Opaque PodcastSearch.sign.



End Catalog.

End CatalogFacts.

(* ===================================================================== *)
(** * The retry policy of the session *)
(* ===================================================================== *)

Module RetryFacts.

Import Urllib3.

(** The policy object after some retries: [t] retries left in [total],
    the attempts [h] behind it. *)
Definition policy (t : Z) (h : list attempt) : Retry :=
  mkRetry (Some t) None None None None [429; 500; 502; 503; 504] 1 true true h.

(** The attempts after which the session tries again while [total] is not
    used up: every failure without a response, a response whose status is
    in the [status_forcelist], and a 413, 429 or 503 response that carries
    a [Retry-After] header. *)
Definition retryable (a : attempt) : bool :=
  match a with
  | Fail _ => true
  | Respond st retry_after =>
      bool_decide (st ∈ [429; 500; 502; 503; 504])
      || (bool_decide (is_Some retry_after) && bool_decide (st ∈ [413; 429; 503]))
  end.

(** The number of leading retryable attempts of a script, [budget] at most. *)
Fixpoint retried (budget : nat) (script : list attempt) : nat :=
  match budget, script with
  | S b, a :: rest => if retryable a then S (retried b rest) else O
  | _, _ => O
  end.

Definition retry_after_of (a : attempt) : option Z :=
  match a with
  | Fail _ => None
  | Respond _ retry_after => retry_after
  end.

Lemma retry_strategy_policy : PodcastSearch.retry_strategy = policy 3 [].
Proof. reflexivity. Qed.

Lemma exhausted_total (r : Retry) (t : Z) :
  total r = Some t -> connect r = None -> read r = None -> status r = None ->
  other r = None ->
  is_exhausted r = (t <? 0).
Proof.
  intros Ht Hc Hr Hs Ho. unfold is_exhausted, live_counts.
  rewrite Ht, Hc, Hr, Hs, Ho. cbn.
  destruct (decide (t ≠ 0)) as [Hne|Heq]; cbn; [reflexivity|].
  symmetry. apply Z.ltb_ge. lia.
Qed.

Lemma increment_policy (t : Z) (h : list attempt) (a : attempt) :
  increment (policy t h) a
  = if t - 1 <? 0 then None else Some (policy (t - 1) (h ++ [a])).
Proof.
  destruct a as [[]|st ra]; unfold increment; cbn;
    rewrite (exhausted_total _ (t - 1)) by reflexivity; reflexivity.
Qed.

Lemma is_retry_policy (t : Z) (h : list attempt) (st : Z) (ra : option Z) :
  t ≠ 0 ->
  is_retry (policy t h) st (bool_decide (is_Some ra)) = retryable (Respond st ra).
Proof.
  intros Ht. unfold is_retry, retryable. cbn.
  assert (negb (t =? 0) = true) as -> by (apply negb_true_iff, Z.eqb_neq; exact Ht).
  destruct (bool_decide (st ∈ [429; 500; 502; 503; 504])); cbn; [reflexivity|].
  unfold RETRY_AFTER_STATUS_CODES. reflexivity.
Qed.

Lemma attempts_pos (r : Retry) (script : list attempt) :
  (1 <= attempts (urlopen r script))%nat.
Proof.
  destruct script as [|[e|st ra] rest]; cbn; [lia| |].
  - destruct (increment r (Fail e)); cbn; lia.
  - destruct (is_retry r st _); cbn; [|lia].
    destruct (increment r _); cbn; [lia|].
    destruct (raise_on_status r); cbn; lia.
Qed.

Lemma attempts_policy (script : list attempt) :
  ∀ (t : Z) (h : list attempt), 0 <= t ->
    attempts (urlopen (policy t h) script) = S (retried (Z.to_nat t) script).
Proof.
  induction script as [|a rest IH]; intros t h Ht.
  - cbn. destruct (Z.to_nat t); reflexivity.
  - destruct (decide (t = 0)) as [->|Hne].
    + cbn [Z.to_nat retried].
      destruct a as [e|st ra]; cbn [urlopen].
      * rewrite increment_policy. reflexivity.
      * destruct (is_retry _ _ _); [|reflexivity].
        rewrite increment_policy. reflexivity.
    + replace (Z.to_nat t) with (S (Z.to_nat (t - 1))) by lia.
      cbn [retried].
      assert (Hge : (t - 1 <? 0) = false) by (apply Z.ltb_ge; lia).
      destruct a as [e|st ra]; cbn [urlopen].
      * rewrite increment_policy, Hge. cbn. now rewrite IH by lia.
      * rewrite is_retry_policy by assumption.
        destruct (retryable (Respond st ra)); [|reflexivity].
        rewrite increment_policy, Hge. cbn. now rewrite IH by lia.
Qed.

Lemma result_policy (script : list attempt) :
  ∀ (t : Z) (h : list attempt), 0 <= t -> (Z.to_nat t < length script)%nat ->
    is_Some (result (urlopen (policy t h) script)).
Proof.
  induction script as [|a rest IH]; intros t h Ht Hlen; [cbn in Hlen; lia|].
  destruct (decide (t = 0)) as [->|Hne].
  - destruct a as [e|st ra]; cbn [urlopen].
    + rewrite increment_policy. cbn. eauto.
    + destruct (is_retry _ _ _); [|cbn; eauto].
      rewrite increment_policy. cbn. eauto.
  - assert (Hge : (t - 1 <? 0) = false) by (apply Z.ltb_ge; lia).
    cbn in Hlen.
    destruct a as [e|st ra]; cbn [urlopen].
    + rewrite increment_policy, Hge. cbn. apply IH; lia.
    + destruct (is_retry _ _ _); [|cbn; eauto].
      rewrite increment_policy, Hge. cbn. apply IH; lia.
Qed.

(** [get_backoff_time] after [n] attempts in a row, for [backoff_factor=1]. *)
Definition backoff_at (n : nat) : Z :=
  if Z.of_nat n <=? 1 then 0 else Z.min 120 (1 * 2 ^ (Z.of_nat n - 1)).

(** The sleep after attempt number [n]: the seconds of its [Retry-After]
    header when it has one that is not zero, the backoff time otherwise. *)
Definition pause (n : nat) (a : attempt) : Z :=
  match retry_after_of a with
  | Some seconds => if negb (seconds =? 0) then seconds else backoff_at n
  | None => backoff_at n
  end.

Fixpoint pauses (n : nat) (l : list attempt) : list Z :=
  match l with
  | [] => []
  | a :: l' => pause (S n) a :: pauses (S n) l'
  end.

Lemma sleep_policy (t : Z) (h : list attempt) (a : attempt) :
  sleep (policy t (h ++ [a])) (retry_after_of a) = pause (S (length h)) a.
Proof.
  unfold sleep, pause, get_backoff_time, backoff_at. cbn.
  rewrite length_app. cbn. replace (length h + 1)%nat with (S (length h)) by lia.
  reflexivity.
Qed.

Lemma sleeps_policy (script : list attempt) :
  ∀ (t : Z) (h : list attempt), 0 <= t ->
    sleeps (urlopen (policy t h) script)
    = pauses (length h) (take (retried (Z.to_nat t) script) script).
Proof.
  induction script as [|a rest IH]; intros t h Ht.
  - cbn. destruct (retried _ _); reflexivity.
  - destruct (decide (t = 0)) as [->|Hne].
    + cbn [Z.to_nat retried take pauses].
      destruct a as [e|st ra]; cbn [urlopen].
      * rewrite increment_policy. reflexivity.
      * destruct (is_retry _ _ _); [|reflexivity].
        rewrite increment_policy. reflexivity.
    + replace (Z.to_nat t) with (S (Z.to_nat (t - 1))) by lia.
      cbn [retried].
      assert (Hge : (t - 1 <? 0) = false) by (apply Z.ltb_ge; lia).
      destruct a as [e|st ra]; cbn [urlopen].
      * rewrite increment_policy, Hge. cbn [retryable again sleeps take pauses].
        rewrite IH by lia. rewrite length_app. cbn [length].
        replace (length h + 1)%nat with (S (length h)) by lia.
        f_equal. apply (sleep_policy (t - 1) h (Fail e)).
      * rewrite is_retry_policy by assumption.
        destruct (retryable (Respond st ra)); [|reflexivity].
        rewrite increment_policy, Hge. cbn [again sleeps take pauses].
        rewrite IH by lia. rewrite length_app. cbn [length].
        replace (length h + 1)%nat with (S (length h)) by lia.
        f_equal. apply (sleep_policy (t - 1) h (Respond st ra)).
Qed.

Lemma retried_le (b : nat) (script : list attempt) : (retried b script <= b)%nat.
Proof.
  revert script. induction b as [|b IH]; intros [|a rest]; cbn; try lia.
  destruct (retryable a); [|lia]. specialize (IH rest). lia.
Qed.

Lemma pauses_plain (l : list attempt) :
  Forall (fun a => retry_after_of a = None) l -> (length l <= 3)%nat ->
  pauses 0 l = take (length l) [0; 2; 4].
Proof.
  intros Hl Hn.
  destruct l as [|a1 [|a2 [|a3 [|a4 l]]]]; cbn in Hn; try lia;
    repeat match goal with
           | H : Forall _ (_ :: _) |- _ => inversion H; subst; clear H
           end;
    cbn; unfold pause;
    repeat match goal with H : retry_after_of _ = None |- _ => rewrite H; clear H end;
    reflexivity.
Qed.

(** C4, as the code has it. The session makes at most 3 retries, 4 attempts
    in all. While that budget lasts it tries again after every retryable
    attempt: a response whose status is 429, 500, 502, 503 or 504 (and a
    413, 429 or 503 response with a [Retry-After] header), and also every
    failure without a response, which covers refused connections, failed
    name lookups and timeouts. The backoff sleeps are 0, 2 and 4 seconds
    when no response carries a [Retry-After] header, and four scripted
    attempts are enough for the client to stop with a reply. *)
Theorem session_retry_policy (script : list attempt) :
  let r := urlopen PodcastSearch.retry_strategy script in
  attempts r = S (retried 3 script)
  ∧ (attempts r <= 4)%nat
  ∧ (∀ a rest, script = a :: rest -> ((1 < attempts r)%nat ↔ retryable a = true))
  ∧ (∀ e, retryable (Fail e) = true)
  ∧ (∀ st, retryable (Respond st None) = true ↔ st ∈ [429; 500; 502; 503; 504])
  ∧ (Forall (fun a => retry_after_of a = None) script ->
     sleeps r = take (retried 3 script) [0; 2; 4])
  ∧ ((4 <= length script)%nat -> is_Some (result r)).
Proof.
  intros r. subst r. rewrite retry_strategy_policy.
  pose proof (attempts_policy script 3 [] ltac:(lia)) as Ha.
  change (Z.to_nat 3) with 3%nat in Ha.
  pose proof (retried_le 3 script) as Hle.
  split; [exact Ha|]. split; [lia|]. split; [|split; [|split; [|split]]].
  - intros a rest ->. rewrite Ha. cbn. destruct (retryable a); split; intros; try lia; done.
  - reflexivity.
  - intros st. cbn. rewrite orb_false_r. apply bool_decide_eq_true.
  - intros Hplain. rewrite sleeps_policy by lia. change (Z.to_nat 3) with 3%nat.
    cbn [length].
    rewrite pauses_plain.
    + rewrite length_take. f_equal.
      assert (retried 3 script <= length script)%nat; [|lia].
      clear. generalize 3%nat. intros b. revert script.
      induction b as [|b IH]; intros [|a rest]; cbn; try lia.
      destruct (retryable a); [|lia]. specialize (IH rest). lia.
    + apply Forall_take. exact Hplain.
    + rewrite length_take. lia.
  - intros Hlen. apply result_policy; [lia|]. change (Z.to_nat 3) with 3%nat. lia.
Qed.

(** C4, refuted as stated: a refused connection and a read timeout are
    each followed by a second attempt, which here gets the reply. *)
Lemma network_failures_are_retried :
  urlopen PodcastSearch.retry_strategy [Fail NewConnectionError; Respond 200 None]
    = Run (Some (Response 200)) 2 [0]
  ∧ urlopen PodcastSearch.retry_strategy [Fail ReadTimeoutError; Respond 200 None]
    = Run (Some (Response 200)) 2 [0]
  ∧ ¬ (∀ e rest, attempts (urlopen PodcastSearch.retry_strategy (Fail e :: rest)) = 1%nat).
Proof.
  split; [reflexivity|]. split; [reflexivity|].
  intros H. specialize (H NewConnectionError [Respond 200 None]). discriminate H.
Qed.

End RetryFacts.

(* ===================================================================== *)
(** * Facts on the string built-ins *)
(* ===================================================================== *)

Module PyFacts.

Lemma lower_char_b (c : ascii) :
  Py.lower_char c = "b"%char -> c = "b"%char ∨ c = "B"%char.
Proof.
  destruct c as [[] [] [] [] [] [] [] []]; vm_compute; intros H;
    solve [discriminate H | auto].
Qed.

Lemma lower_b (s : string) : Py.lower s = "b" -> s = "b" ∨ s = "B".
Proof.
  unfold Py.lower. intros H.
  apply (f_equal list_ascii_of_string) in H.
  rewrite list_ascii_of_string_of_list_ascii in H.
  destruct s as [|c [|c' s']]; cbn in H; try discriminate H.
  injection H as H. destruct (lower_char_b c H) as [-> | ->]; auto.
Qed.

(** A string that [int] accepts is not the letter that goes back. *)
Lemma int_not_b (s : string) (n : Z) : Py.int s = Some n -> Py.lower s ≠ "b".
Proof.
  intros Hn Hb. destruct (lower_b s Hb) as [-> | ->]; vm_compute in Hn; discriminate Hn.
Qed.

End PyFacts.

(* ===================================================================== *)
(** * Runs only add to the trace *)
(* ===================================================================== *)

Module TraceFacts.

Import IO Eff.

Section Traced.

(** A state with a trace of events. *)
Context {S : Type} (tr : S -> list event).

Definition extends (s s' : S) : Prop := ∃ events, tr s' = tr s ++ events.

Definition monotone {A} (c : M S A) : Prop := ∀ s, extends s (c s).2.

(** From [s], the run of [c] begins with the events [first]. *)
Definition starts {A} (c : M S A) (s : S) (first : list event) : Prop :=
  ∃ events, tr (c s).2 = tr s ++ first ++ events.

Lemma extends_refl (s : S) : extends s s.
Proof. exists []. now rewrite app_nil_r. Qed.

Lemma extends_trans (s1 s2 s3 : S) : extends s1 s2 -> extends s2 s3 -> extends s1 s3.
Proof.
  intros [e1 H1] [e2 H2]. exists (e1 ++ e2). rewrite H2, H1. now rewrite app_assoc.
Qed.

Lemma monotone_ret {A} (a : A) : monotone (mret a).
Proof. intros s. apply extends_refl. Qed.

Lemma monotone_raise {A} (e : Py.exn) : monotone (raise (A := A) e).
Proof. intros s. apply extends_refl. Qed.

Lemma monotone_lift {A} (r : Py.result A) : monotone (lift r).
Proof. intros s. apply extends_refl. Qed.

Lemma monotone_bind {A B} (c : M S A) (k : A -> M S B) :
  monotone c -> (∀ a, monotone (k a)) -> monotone (c ≫= k).
Proof.
  intros Hc Hk s. unfold mbind, M_bind. specialize (Hc s).
  destruct (c s) as [[a|e] s']; cbn in *; [|exact Hc].
  eapply extends_trans; [exact Hc|apply Hk].
Qed.

Lemma handler_monotone {A} (e : Py.exn)
    (clauses : list (Py.exn_class * (Py.exn -> M S A))) (h : M S A) :
  Forall (fun ch => ∀ e, monotone (ch.2 e)) clauses ->
  handler_for e clauses = Some h -> monotone h.
Proof.
  intros Hc. revert h. induction Hc as [|[cls h0] rest H0 _ IH]; cbn; [discriminate|].
  intros h. destruct (Py.isinstance e cls); [|exact (IH h)].
  intros [= <-]. apply H0.
Qed.

Lemma monotone_try_except {A} (body : M S A)
    (clauses : list (Py.exn_class * (Py.exn -> M S A))) :
  monotone body -> Forall (fun ch => ∀ e, monotone (ch.2 e)) clauses ->
  monotone (try_except body clauses).
Proof.
  intros Hb Hc s. unfold try_except. specialize (Hb s).
  destruct (body s) as [[a|e] s']; cbn in *; [exact Hb|].
  destruct (handler_for e clauses) as [h|] eqn:Hh; cbn; [|exact Hb].
  eapply extends_trans; [exact Hb|]. exact (handler_monotone _ _ _ Hc Hh s').
Qed.

Lemma monotone_try_finally {A} (body : M S A) (cleanup : M S unit) :
  monotone body -> monotone cleanup -> monotone (try_finally body cleanup).
Proof.
  intros Hb Hc s. unfold try_finally. specialize (Hb s).
  destruct (body s) as [r s']. specialize (Hc s').
  destruct (cleanup s') as [[u|e] s'']; cbn in *; eapply extends_trans; eauto.
Qed.

Lemma monotone_for_each {A} (l : list A) (body : A -> M S unit) :
  (∀ a, monotone (body a)) -> monotone (for_each l body).
Proof.
  intros Hb. induction l as [|a l IH]; cbn; [apply monotone_ret|].
  apply monotone_bind; auto.
Qed.

Lemma starts_monotone {A} (c : M S A) (s : S) : monotone c -> starts c s [].
Proof. intros Hc. exact (Hc s). Qed.


Lemma starts_bind {A B} (c : M S A) (k : A -> M S B) (s : S) (first : list event) :
  starts c s first -> (∀ a, monotone (k a)) -> starts (c ≫= k) s first.
Proof.
  intros [events H] Hk. unfold starts, mbind, M_bind.
  destruct (c s) as [[a|e] s'] eqn:Hc; cbn in *; [|eauto].
  destruct (Hk a s') as [more Hm]. exists (events ++ more).
  rewrite Hm, H. now rewrite <- !app_assoc.
Qed.

Lemma starts_try_except {A} (body : M S A)
    (clauses : list (Py.exn_class * (Py.exn -> M S A))) (s : S)
    (first : list event) :
  starts body s first -> Forall (fun ch => ∀ e, monotone (ch.2 e)) clauses ->
  starts (try_except body clauses) s first.
Proof.
  intros [events H] Hc. unfold starts, try_except.
  destruct (body s) as [[a|e] s'] eqn:Hb; cbn in *; [eauto|].
  destruct (handler_for e clauses) as [h|] eqn:Hh; cbn; [|eauto].
  destruct (handler_monotone _ _ _ Hc Hh s') as [more Hm]. exists (events ++ more).
  rewrite Hm, H. now rewrite <- !app_assoc.
Qed.

End Traced.

Create HintDb mono discriminated.
#[global] Hint Resolve monotone_ret monotone_raise monotone_lift monotone_for_each
  : mono.

(** Takes a goal [monotone tr c] apart along the structure of [c]. *)
Ltac mono :=
  repeat first
    [ progress auto with mono
    | apply monotone_bind; [|intros ?]
    | apply monotone_try_except
    | apply monotone_try_finally
    | apply Forall_cons; split; [intros ?|]
    | apply Forall_nil
    | match goal with
      | |- monotone _ (match ?x with _ => _ end) => destruct x
      | |- monotone _ (if ?x then _ else _) => destruct x
      end ].

End TraceFacts.

(* ===================================================================== *)
(** * The discovery flow *)
(* ===================================================================== *)

Module DiscoveryFacts.

Import Json IO Eff PodcastSearch TraceFacts.

Local Abbreviation monotone := (TraceFacts.monotone trace).
Local Abbreviation starts := (TraceFacts.starts trace).

Lemma monotone_emit (e : event) : monotone (emit e).
Proof. intros s. now exists [e]. Qed.

#[local] Hint Resolve monotone_emit : mono.

Section Flow.

Variables API_KEY API_SECRET : option string.
Variable W : world.

Local Abbreviation sign := (sign API_KEY API_SECRET).
Local Abbreviation get_headers := (get_headers API_KEY API_SECRET W).
Local Abbreviation search_podcasts := (search_podcasts API_KEY API_SECRET W).
Local Abbreviation get_episodes := (get_episodes API_KEY API_SECRET W).
Local Abbreviation display_podcast := (display_podcast W).
Local Abbreviation display_episode := (display_episode W).
Local Abbreviation searching := (searching API_KEY API_SECRET W).
Local Abbreviation search_iteration := (search_iteration API_KEY API_SECRET W).
Local Abbreviation select := (select API_KEY API_SECRET W).
Local Abbreviation selection_iteration := (selection_iteration API_KEY API_SECRET W).
Local Abbreviation main := (main API_KEY API_SECRET W).

Lemma monotone_print (line : string) : monotone (print line).
Proof. apply monotone_emit. Qed.

Lemma monotone_eprint (line : string) : monotone (eprint line).
Proof. apply monotone_emit. Qed.

Lemma monotone_get_headers : monotone get_headers.
Proof. intros s. exists []. cbn. now rewrite app_nil_r. Qed.

Hint Resolve monotone_print monotone_eprint monotone_get_headers : mono.

Lemma monotone_display_podcast (p : json) (i : nat) : monotone (display_podcast p i).
Proof. unfold PodcastSearch.display_podcast. mono. Qed.

Lemma monotone_display_episode (e : json) : monotone (display_episode e).
Proof. unfold PodcastSearch.display_episode. mono. Qed.

Hint Resolve monotone_display_podcast monotone_display_episode : mono.

Lemma monotone_degrade (what : string) (body : M state json) :
  monotone body -> monotone (degrade what body).
Proof. intros Hb. unfold degrade. mono. Qed.

(** ** What a run prints and sends first *)

Definition log (s : state) (events : list event) : state :=
  State (clock_reads s) (trace s ++ events).

Lemma starts_emit {A} (e : event) (k : unit -> M state A) (s : state)
    (first : list event) :
  starts (k tt) (log s [e]) first -> starts (emit e ≫= k) s (e :: first).
Proof.
  intros [events H]. exists events.
  change ((emit e ≫= k) s) with (k tt (log s [e])).
  rewrite H. cbn. now rewrite <- app_assoc.
Qed.

Lemma starts_get_headers {A} (k : Requests.headers -> M state A) (s : state)
    (first : list event) :
  starts (k (sign (time_time W (clock_reads s))))
         (State (S (clock_reads s)) (trace s)) first ->
  starts (get_headers ≫= k) s first.
Proof. intros H. exact H. Qed.

Lemma search_podcasts_starts (term : string) (s : state) :
  starts (search_podcasts term) s
    [Stdout ("Making request to: " +:+ BASE_URL +:+ "/search/byterm");
     PrintHeaders (sign (time_time W (clock_reads s)));
     HttpGet (search_request (sign (time_time W (S (clock_reads s)))) term)].
Proof.
  unfold PodcastSearch.search_podcasts, degrade.
  apply starts_try_except; [|mono].
  apply (starts_emit (Stdout _)). apply starts_get_headers.
  apply (starts_emit (PrintHeaders _)). apply starts_get_headers.
  apply (starts_emit (HttpGet _)). apply starts_monotone. mono.
Qed.


Lemma searching_starts (term : string) (s : state) :
  starts (searching term) s
    [Stdout (nl +:+ "Searching for '" +:+ term +:+ "'...");
     Stdout ("Making request to: " +:+ BASE_URL +:+ "/search/byterm");
     PrintHeaders (sign (time_time W (clock_reads s)));
     HttpGet (search_request (sign (time_time W (S (clock_reads s)))) term)].
Proof.
  unfold PodcastSearch.searching.
  apply (starts_emit (Stdout _)).
  apply starts_bind; [exact (search_podcasts_starts term (log s [_]))|].
  intros podcasts. mono.
Qed.

Lemma searching_not_break (term : string) (s : state) :
  (searching term s).1 ≠ Py.Return Break.
Proof.
  unfold PodcastSearch.searching, mbind, M_bind, print, emit. cbn.
  destruct (PodcastSearch.search_podcasts _ _ _ _ _) as [[podcasts|e] s']; cbn;
    [|discriminate].
  destruct (truthy podcasts); cbn; [|discriminate].
  destruct podcasts; cbn; try discriminate.
  destruct (for_each _ _ _) as [[[]|e] s'']; cbn; discriminate.
Qed.

Lemma search_iteration_searches (line : string) (s : state) :
  Py.lower (Py.strip line) ≠ "q" ->
  search_iteration line s = searching (Py.strip line) (log s [Input search_prompt]).
Proof.
  intros Hq.
  change (search_iteration line s)
    with ((if bool_decide (Py.lower (Py.strip line) = "q") then mret Break
           else searching (Py.strip line)) (log s [Input search_prompt])).
  now rewrite bool_decide_eq_false_2 by exact Hq.
Qed.

Lemma monotone_search_iteration (line : string) : monotone (search_iteration line).
Proof.
  unfold PodcastSearch.search_iteration, PodcastSearch.searching, input,
    PodcastSearch.search_podcasts, degrade.
  mono.
Qed.

Lemma monotone_selection_iteration (podcasts : list json) (line : string) :
  monotone (selection_iteration podcasts line).
Proof.
  unfold PodcastSearch.selection_iteration, PodcastSearch.select, input,
    PodcastSearch.get_episodes, degrade.
  mono.
Qed.

Lemma monotone_loop (stdin : list string) :
  ∀ m, monotone (loop API_KEY API_SECRET W stdin m).
Proof.
  induction stdin as [|line rest IH]; intros m; cbn [loop].
  - mono.
  - apply monotone_bind.
    + destruct m; [apply monotone_search_iteration|apply monotone_selection_iteration].
    + intros [|m']; [mono|apply IH].
Qed.

(** With a key, what [main] does is what its loop does. *)
Lemma main_runs_loop (stdin : list string) :
  missing API_KEY = false ->
  (main stdin).2 = (loop API_KEY API_SECRET W stdin AwaitingSearchTerm (State 0 [])).2.
Proof.
  intros H. unfold PodcastSearch.main. rewrite H.
  now destruct (loop _ _ _ _ _ _) as [[[]|e] s].
Qed.

(** C10. At the search prompt, a line that is empty once stripped is not
    the quit command and is not asked again: the loop body goes on to the
    search, prints the search line and sends the catalog search request
    whose term [q] is the empty string. *)
Theorem empty_term_is_searched (line : string) (s : state) :
  Py.strip line = "" ->
  search_iteration line s = searching "" (log s [Input search_prompt])
  ∧ (search_iteration line s).1 ≠ Py.Return Break
  ∧ ∃ sent events,
      Requests.req_url sent = BASE_URL +:+ "/search/byterm"
      ∧ Requests.req_params sent = [("q", JStr "")]
      ∧ trace (search_iteration line s).2
        = trace s ++ [Input search_prompt;
                      Stdout (nl +:+ "Searching for ''...");
                      Stdout ("Making request to: " +:+ BASE_URL +:+ "/search/byterm");
                      PrintHeaders (sign (time_time W (clock_reads s)));
                      HttpGet sent] ++ events.
Proof.
  intros Hstrip.
  assert (Hrun : search_iteration line s = searching "" (log s [Input search_prompt])).
  { rewrite search_iteration_searches; rewrite Hstrip; [reflexivity|discriminate]. }
  split; [exact Hrun|]. split.
  - rewrite Hrun. apply searching_not_break.
  - destruct (searching_starts "" (log s [Input search_prompt])) as [events He].
    exists (search_request (sign (time_time W (S (clock_reads s)))) ""), events.
    split; [reflexivity|]. split; [reflexivity|].
    rewrite Hrun, He. cbn. now rewrite <- app_assoc.
Qed.


Lemma selection_number (podcasts : list json) (line : string) (s : state) (n : Z) :
  Py.int (Py.strip line) = Some n ->
  selection_iteration podcasts line s
  = try_except
      (if (0 <=? n - 1) && (n - 1 <? Z.min 5 (Z.of_nat (length podcasts)))
       then select podcasts (n - 1)
       else print "Invalid selection. Please enter a number between 1 and 5." ;;
            mret (Continue (AwaitingSelection podcasts)))
      [(Py.ValueError, fun _ =>
          print "Please enter a valid number or 'b' to go back." ;;
          mret (Continue (AwaitingSelection podcasts)))]
      (log s [Input selection_prompt]).
Proof.
  intros Hn. pose proof (PyFacts.int_not_b _ _ Hn) as Hb.
  unfold PodcastSearch.selection_iteration, try_except, input, mbind, M_bind, emit.
  cbn. rewrite bool_decide_eq_false_2 by exact Hb. rewrite Hn. reflexivity.
Qed.


(** A missing or empty [API_KEY] ends [main] at once with exit code 1:
    nothing is asked and nothing is sent. *)
Lemma missing_key_is_fatal (stdin : list string) :
  missing API_KEY = true ->
  main stdin
  = (Exit 1, State 0 [Stderr "Error: PODCAST_INDEX_API_KEY not found in .env file"]).
Proof. intros H. unfold PodcastSearch.main. rewrite H. reflexivity. Qed.

End Flow.

(** C5, on the code: with the key set and the secret absent, [main] does not
    exit with code 1. It asks for a search term, and on [q] ends with code
    0. On a search term it sends the catalog request, with headers signed
    over the text [None] in the place of the secret. *)
Theorem missing_secret_is_not_fatal (W : world) (t : Z) :
  main (Some "key") None W ["q"] = (Exit 0, State 0 [Input search_prompt])
  ∧ sign (Some "key") None t
    = [("X-Auth-Date", Some (Py.str t)); ("X-Auth-Key", Some "key");
       ("Authorization",
        Some (SHA1.hexdigest (Py.encode ("key" +:+ "None" +:+ Py.str t))));
       ("User-Agent", Some "PodcastSearch/1.0")]
  ∧ ∃ events,
      trace (main (Some "key") None W ["rust"; "q"]).2
      = [Input search_prompt;
         Stdout (nl +:+ "Searching for 'rust'...");
         Stdout ("Making request to: " +:+ BASE_URL +:+ "/search/byterm");
         PrintHeaders (sign (Some "key") None (time_time W 0));
         HttpGet (search_request (sign (Some "key") None (time_time W 1)) "rust")]
        ++ events.
Proof.
  split; [reflexivity|]. split; [reflexivity|].
  rewrite main_runs_loop by reflexivity. cbn [loop].
  assert (Hs : TraceFacts.starts trace
            (search_iteration (Some "key") None W "rust") (State 0 [])
            [Input search_prompt;
             Stdout (nl +:+ "Searching for 'rust'...");
             Stdout ("Making request to: " +:+ BASE_URL +:+ "/search/byterm");
             PrintHeaders (sign (Some "key") None (time_time W 0));
             HttpGet (search_request (sign (Some "key") None (time_time W 1)) "rust")]).
  { destruct (searching_starts (Some "key") None W "rust"
                (log (State 0 []) [Input search_prompt])) as [events He].
    exists events. rewrite search_iteration_searches by (vm_compute; discriminate).
    change (Py.strip "rust") with "rust". rewrite He. reflexivity. }
  apply (TraceFacts.starts_bind trace) with (k := fun n =>
    match n with
    | Break => mret tt
    | Continue m' => loop (Some "key") None W ["q"] m'
    end) in Hs.
  - exact Hs.
  - intros [|m']; [apply TraceFacts.monotone_ret|apply monotone_loop].
Qed.

End DiscoveryFacts.

(* ===================================================================== *)
(** * The download and the transcription pipeline *)
(* ===================================================================== *)

Module PipelineFacts.

Import Json IO Eff TranscribePodcast TraceFacts.

Local Abbreviation monotone := (TraceFacts.monotone trace).
Local Abbreviation starts := (TraceFacts.starts trace).

Definition log (s : state) (events : list event) : state :=
  State (fs s) (trace s ++ events).

(** The successive values of the progress bar in a list of events. *)
Definition updates (events : list event) : list Z :=
  omap (fun e => match e with Progress n _ => Some n | _ => None end) events.

(** The values that the bar takes when it starts at [n0] and the chunks
    [chunks] are written one after the other. *)
Fixpoint progress_after (n0 : Z) (chunks : list (list Z)) : list Z :=
  match chunks with
  | [] => []
  | data :: rest =>
      (n0 + Z.of_nat (length data)) :: progress_after (n0 + Z.of_nat (length data)) rest
  end.

Lemma progress_after_ge (chunks : list (list Z)) :
  ∀ n0, Forall (Z.le n0) (progress_after n0 chunks).
Proof.
  induction chunks as [|data rest IH]; intros n0; cbn; constructor; [lia|].
  eapply Forall_impl; [apply IH|]. cbn. intros; lia.
Qed.

Lemma progress_after_sorted (chunks : list (list Z)) :
  ∀ n0, StronglySorted Z.le (n0 :: progress_after n0 chunks).
Proof.
  induction chunks as [|data rest IH]; intros n0; cbn.
  - repeat constructor.
  - constructor; [apply IH|].
    constructor; [lia|].
    eapply Forall_impl; [apply progress_after_ge|]. cbn. intros; lia.
Qed.

Lemma sorted_take (n0 : Z) (l : list Z) (k : nat) :
  StronglySorted Z.le (n0 :: l) -> StronglySorted Z.le (n0 :: take k l).
Proof.
  intros H. change (n0 :: take k l) with (take (S k) (n0 :: l)).
  generalize (S k) (n0 :: l) H. clear. intros k l H. revert k.
  induction H as [|x l Hs IH Hx]; intros [|k]; cbn; try constructor; auto.
  apply Forall_take. exact Hx.
Qed.

Lemma progress_after_last (chunks : list (list Z)) :
  ∀ n0, last (n0 :: progress_after n0 chunks)
        = Some (n0 + Z.of_nat (length (concat chunks))).
Proof.
  induction chunks as [|data rest IH]; intros n0.
  - cbn. f_equal. lia.
  - cbn [progress_after concat]. rewrite last_cons_cons, IH, length_app. f_equal. lia.
Qed.

Lemma progress_after_length (chunks : list (list Z)) :
  ∀ n0, length (progress_after n0 chunks) = length chunks.
Proof. induction chunks as [|data rest IH]; intros n0; cbn; [|rewrite IH]; reflexivity. Qed.

Lemma updates_app (l1 l2 : list event) : updates (l1 ++ l2) = updates l1 ++ updates l2.
Proof. apply omap_app. Qed.

Lemma updates_progress (total : Z) (l : list Z) :
  updates (map (fun n => Progress n total) l) = l.
Proof.
  unfold updates. induction l as [|x l IH]; cbn; [|rewrite IH]; reflexivity.
Qed.

Section Pipeline.

Variable W : world.

Local Abbreviation download_audio := (download_audio W).
Local Abbreviation transcribe_audio := (transcribe_audio W).
Local Abbreviation write_chunks := (write_chunks W).
Local Abbreviation file_write := (file_write W).
Local Abbreviation main := (main W).
Local Abbreviation run := (run W).
Local Abbreviation pipeline := (pipeline W).
Local Abbreviation cleanup := (cleanup W).

(** Writing the chunks: the bar shows the running totals of a prefix of
    the chunks, all of them when no write fails, and then the file holds
    what it held followed by all the chunks. *)
Lemma write_chunks_run (path : string) (chunks : list (list Z)) :
  ∀ (progress : tqdm) (s : state) (content : list Z),
    fs s !! file_of W path = Some content ->
    ∃ k : nat,
      trace (write_chunks path chunks progress s).2
      = trace s ++ map (fun n => Progress n (total progress))
                       (take k (progress_after (n progress) chunks))
      ∧ ((write_chunks path chunks progress s).1
         = Py.Return (Tqdm (n progress + Z.of_nat (length (concat chunks)))
                           (total progress))
         ∧ k = length chunks
         ∧ fs (write_chunks path chunks progress s).2 !! file_of W path
           = Some (content ++ concat chunks)
         ∨ ∃ e, (write_chunks path chunks progress s).1 = Py.Raise e).
Proof.
  induction chunks as [|data rest IH]; intros progress s content Hc.
  - exists 0%nat. cbn. rewrite !app_nil_r. split; [reflexivity|]. left.
    repeat split; [|exact Hc]. destruct progress. cbn. do 2 f_equal. lia.
  - set (p1 := Tqdm (n progress + Z.of_nat (length data)) (total progress)).
    set (s1 := State (<[file_of W path:=content ++ data]> (fs s))
                     (trace s ++ [Progress (n p1) (total p1)])).
    destruct (write_error W path content data) as [e|] eqn:Hw.
    + assert (write_chunks path (data :: rest) progress s = (Py.Raise e, s)) as ->.
      { cbn. unfold mbind, M_bind, TranscribePodcast.file_write.
        rewrite Hc. cbn. now rewrite Hw. }
      exists 0%nat. cbn. rewrite app_nil_r. eauto.
    + assert (write_chunks path (data :: rest) progress s
              = write_chunks path rest p1 s1) as ->.
      { cbn. unfold mbind, M_bind, TranscribePodcast.file_write.
        rewrite Hc. cbn. now rewrite Hw. }
      destruct (IH p1 s1 (content ++ data)) as (k & Ht & Hr).
      { apply lookup_insert_eq. }
      exists (S k). split.
      * cbn [progress_after take map]. rewrite Ht. subst s1 p1. cbn.
        now rewrite <- app_assoc.
      * destruct Hr as [(Hr & Hk & Hf)|[e He]]; [left|right; eauto].
        rewrite Hr, Hf, Hk. subst p1. cbn. rewrite length_app, <- app_assoc.
        repeat split. do 2 f_equal. lia.
Qed.

(** A [try] block guarded by the single clause [except Exception as e],
    which reports on standard error and returns [False]: either the block
    ran undisturbed, or it raised an [Exception] and the clause ran. *)
Lemma except_exception_run (body : M state bool) (report : Py.exn -> string)
    (s : state) :
  let r := try_except body
             [(Py.Exception, fun e => eprint (report e) ;; mret false)] s in
  (r = body s ∧ ∀ e, (body s).1 = Py.Raise e -> Py.isinstance e Py.Exception = false)
  ∨ (∃ e, (body s).1 = Py.Raise e
          ∧ Py.isinstance e Py.Exception = true
          ∧ r = (Py.Return false, log (body s).2 [Stderr (report e)])).
Proof.
  unfold try_except. destruct (body s) as [[b|e] s']; cbn.
  - left. split; [reflexivity|]. intros e [=].
  - destruct (Py.isinstance e Py.Exception) eqn:He.
    + right. exists e. auto.
    + left. split; [reflexivity|]. now intros e' [= <-].
Qed.

Lemma download_body_run (url output_path : string) (s : state) :
  let r := download_body W url output_path s in
  ∃ (chunks : list (list Z)) (k : nat) (total : Z),
    trace r.2 = trace s ++ HttpGet (download_request url)
                        :: map (fun n => Progress n total)
                               (take k (progress_after 0 chunks))
    ∧ ((∃ e, r.1 = Py.Raise e)
       ∨ (∃ response,
            r.1 = Py.Return true
            ∧ requests_get W (download_request url) = Py.Return response
            ∧ chunks = Requests.resp_chunks response
            ∧ k = length chunks
            ∧ fs r.2 !! file_of W output_path = Some (concat chunks))).
Proof.
  unfold download_body, mbind, M_bind, emit, lift, raise. cbn.
  destruct (requests_get W (download_request url)) as [response|e] eqn:Hget; cbn.
  2: { exists [], 0%nat, 0. cbn. split; [reflexivity|]. left. eauto. }
  destruct (Requests.raise_for_status response) as [[]|e]; cbn.
  2: { exists [], 0%nat, 0. cbn. split; [reflexivity|]. left. eauto. }
  destruct (content_length response) as [total_size|e]; cbn.
  2: { exists [], 0%nat, 0. cbn. split; [reflexivity|]. left. eauto. }
  unfold open_for_writing, raise.
  destruct (open_error W output_path) as [e|]; cbn.
  { exists [], 0%nat, 0. cbn. split; [reflexivity|]. left. eauto. }
  set (s1 := State (<[file_of W output_path:=[]]> (fs s))
                   (trace s ++ [HttpGet (download_request url)])).
  destruct (write_chunks_run output_path (Requests.resp_chunks response)
              (Tqdm 0 total_size) s1 []) as (k & Ht & Hr).
  { apply lookup_insert_eq. }
  exists (Requests.resp_chunks response), k, total_size.
  destruct (TranscribePodcast.write_chunks W output_path _ _ s1) as [[p|e] s2];
    cbn in *.
  - split.
    + destruct (Requests.resp_stream_error response); cbn;
        rewrite Ht; now rewrite <- app_assoc.
    + destruct Hr as [(Hr & Hk & Hf)|[e [=]]].
      destruct (Requests.resp_stream_error response); cbn; [left; eauto|].
      right. exists response. auto.
  - split; [rewrite Ht; now rewrite <- app_assoc|]. left. eauto.
Qed.

(** C9. During [download_audio] the value of the progress bar never
    decreases from one update to the next, starting from 0. After a
    successful download there was one update per chunk, the file holds the
    chunks that were streamed, and the last value of the bar is the size
    of the file in bytes. *)
Theorem download_progress (url output_path : string) (s : state) :
  let r := download_audio url output_path s in
  ∃ events,
    trace r.2 = trace s ++ events
    ∧ StronglySorted Z.le (0 :: updates events)
    ∧ (r.1 = Py.Return true ->
       ∃ response content,
         requests_get W (download_request url) = Py.Return response
         ∧ content = concat (Requests.resp_chunks response)
         ∧ fs r.2 !! file_of W output_path = Some content
         ∧ length (updates events) = length (Requests.resp_chunks response)
         ∧ last (0 :: updates events) = Some (Z.of_nat (length content))).
Proof.
  intros r. subst r. unfold TranscribePodcast.download_audio.
  destruct (download_body_run url output_path s)
    as (chunks & k & total & Ht & Hr).
  assert (Hu : updates (HttpGet (download_request url)
                        :: map (fun n => Progress n total)
                               (take k (progress_after 0 chunks)))
               = take k (progress_after 0 chunks)).
  { change (updates (HttpGet ?x :: ?l)) with (updates l). apply updates_progress. }
  destruct (except_exception_run (download_body W url output_path)
              (fun e => "Error downloading file: " +:+ Py.exn_str e) s)
    as [[-> Hno]|(e & He & Hex & ->)].
  - eexists. split; [exact Ht|]. rewrite Hu. split.
    + apply sorted_take, progress_after_sorted.
    + intros Hok. destruct Hr as [[e He]|(response & _ & Hget & -> & -> & Hf)];
        [congruence|].
      exists response, (concat (Requests.resp_chunks response)).
      assert (take (length (Requests.resp_chunks response))
                   (progress_after 0 (Requests.resp_chunks response))
              = progress_after 0 (Requests.resp_chunks response)) as ->.
      { apply take_ge. now rewrite progress_after_length. }
      split; [exact Hget|]. split; [reflexivity|]. split; [exact Hf|].
      split; [apply progress_after_length|apply progress_after_last].
  - eexists. cbn. rewrite Ht. split; [now rewrite <- app_assoc|].
    rewrite updates_app, Hu. cbn. rewrite app_nil_r. split.
    + apply sorted_take, progress_after_sorted.
    + intros [=].
Qed.

(** What the [finally] block needs for its work: [exists] and [unlink] do
    not fail on the temporary path, and no directory is in its place. *)
Definition removal_works : Prop :=
  exists_error W temp_audio = None
  ∧ unlink_error W temp_audio = None
  ∧ is_dir W temp_audio = false.

Lemma cleanup_state (s : state) :
  removal_works ->
  cleanup s = (Py.Return tt, State (delete (file_of W temp_audio) (fs s)) (trace s)).
Proof.
  intros (He & Hu & Hd). unfold TranscribePodcast.cleanup, mbind, M_bind, path_exists, unlink.
  rewrite He, Hd, orb_false_r.
  destruct (bool_decide (is_Some (fs s !! file_of W temp_audio))) eqn:Hb.
  - now rewrite Hu.
  - apply bool_decide_eq_false in Hb. apply eq_None_not_Some in Hb.
    rewrite (delete_id _ _ Hb). now destruct s.
Qed.

(** The [finally] block prints nothing, also when it fails. *)
Lemma cleanup_trace (s : state) : trace (cleanup s).2 = trace s.
Proof.
  unfold TranscribePodcast.cleanup, mbind, M_bind, path_exists, unlink.
  destruct (exists_error W temp_audio); [reflexivity|].
  destruct (_ || _); [|reflexivity].
  destruct (unlink_error W temp_audio); [reflexivity|].
  now destruct (is_dir W temp_audio).
Qed.

(** When [unlink] fails on the file that is there, the block ends on its
    exception and nothing is removed. *)
Lemma cleanup_fails (s : state) (e : Py.exn) :
  exists_error W temp_audio = None ->
  unlink_error W temp_audio = Some e ->
  is_Some (fs s !! file_of W temp_audio) ->
  cleanup s = (Py.Raise e, s).
Proof.
  intros He Hu Hf. unfold TranscribePodcast.cleanup, mbind, M_bind, path_exists, unlink.
  rewrite He, bool_decide_eq_true_2 by exact Hf. cbn. now rewrite Hu.
Qed.

Lemma run_cleans_up (a : args) (output_path : string) (s : state) :
  removal_works ->
  run a output_path s
  = ((pipeline a output_path s).1,
     State (delete (file_of W temp_audio) (fs (pipeline a output_path s).2))
           (trace (pipeline a output_path s).2)).
Proof.
  intros Hr. unfold TranscribePodcast.run, try_finally.
  destruct (TranscribePodcast.pipeline W a output_path s) as [r s']. cbn.
  now rewrite (cleanup_state s' Hr).
Qed.

Lemma run_trace (a : args) (output_path : string) (s : state) :
  trace (run a output_path s).2 = trace (pipeline a output_path s).2.
Proof.
  unfold TranscribePodcast.run, try_finally.
  destruct (TranscribePodcast.pipeline W a output_path s) as [r s']. cbn.
  pose proof (cleanup_trace s') as Hc.
  now destruct (cleanup s') as [[[]|e] s''].
Qed.

(** [main] once it has its directory and its output path. *)
Lemma main_enters_run (a : args) (output_path : string) (s : state) :
  mkdir_error W = None ->
  resolve_output W a = Py.Return output_path ->
  main a s = (at_exit (run a output_path s).1, (run a output_path s).2).
Proof.
  intros Hm Ho. unfold TranscribePodcast.main. rewrite Hm, Ho.
  now destruct (TranscribePodcast.run W a output_path s).
Qed.

(** C1, as the code has it. The [try] ... [finally] statement of [main]
    runs its clean-up on every way out of the [try] block: its end, both
    [sys.exit(1)] calls and every exception that leaves it. When the
    clean-up itself works, the temporary audio file does not exist
    afterwards and the statement ends as the [try] block ended; this holds
    for [main] too, once it has its output directory and its output path
    and so enters the statement. When [unlink] fails on the file, the
    statement ends on the exception of [unlink] and the file stays. *)
Theorem temp_file_is_removed (a : args) (output_path : string) (s : state) :
  let body := pipeline a output_path s in
  (removal_works ->
   run a output_path s
   = (body.1, State (delete (file_of W temp_audio) (fs body.2)) (trace body.2))
   ∧ fs (run a output_path s).2 !! file_of W temp_audio = None)
  ∧ (removal_works -> mkdir_error W = None ->
     resolve_output W a = Py.Return output_path ->
     fs (main a s).2 !! file_of W temp_audio = None)
  ∧ (∀ e, exists_error W temp_audio = None ->
          unlink_error W temp_audio = Some e ->
          is_Some (fs body.2 !! file_of W temp_audio) ->
          run a output_path s = (Py.Raise e, body.2)).
Proof.
  intros body. split; [|split].
  - intros Hr. rewrite (run_cleans_up a output_path s Hr).
    split; [reflexivity|apply lookup_delete_eq].
  - intros Hr Hm Ho. rewrite (main_enters_run a output_path s Hm Ho).
    rewrite (run_cleans_up a output_path s Hr). apply lookup_delete_eq.
  - intros e He Hu Hf. subst body. unfold TranscribePodcast.run, try_finally.
    destruct (TranscribePodcast.pipeline W a output_path s) as [r s'].
    cbn in Hf |- *. now rewrite (cleanup_fails s' e He Hu Hf).
Qed.

(** C8, on the code: the request that [download_audio] sends first has no
    timeout, while the two catalog requests have one of 10 seconds. *)
Theorem audio_request_has_no_timeout (url output_path : string) (s : state) :
  starts (download_audio url output_path) s [HttpGet (download_request url)]
  ∧ Requests.req_timeout (download_request url) = None
  ∧ (∀ h term, Requests.req_timeout (PodcastSearch.search_request h term) = Some 10)
  ∧ (∀ h feed_id,
       Requests.req_timeout (PodcastSearch.episodes_request h feed_id) = Some 10).
Proof.
  split; [|repeat split].
  destruct (download_body_run url output_path s) as (chunks & k & total & Ht & _).
  unfold TraceFacts.starts, TranscribePodcast.download_audio.
  destruct (except_exception_run (download_body W url output_path)
              (fun e => "Error downloading file: " +:+ Py.exn_str e) s)
    as [[-> _]|(e & _ & _ & ->)]; eexists; cbn; rewrite Ht.
  - reflexivity.
  - rewrite <- app_assoc. reflexivity.
Qed.

(** The step of [pipeline] after a successful download. *)
Lemma pipeline_after_download (a : args) (output_path : string) (s s1 : state) :
  download_audio (url a) temp_audio
    (log s [Stdout ("Downloading podcast from " +:+ url a)]) = (Py.Return true, s1) ->
  pipeline a output_path s
  = (ok ← transcribe_audio temp_audio output_path (model a);
     (if negb ok : bool then sys_exit_1 else mret tt) ;;
     print (nl +:+ "Transcription completed successfully!") ;;
     print ("Transcript saved to: " +:+ output_path))
      (log s1 [Stdout ("Transcribing to " +:+ output_path)]).
Proof.
  intros Hd. unfold TranscribePodcast.pipeline.
  change ((print ?l ;; ?k) s) with (k (log s [Stdout l])).
  unfold mbind at 1. unfold M_bind at 1. rewrite Hd. reflexivity.
Qed.

(** [transcribe_audio] when the model loads, the transcription succeeds
    and storing the text fails with the exception [e]. *)
Lemma transcribe_audio_persist_failure
    (audio_path output_path model_name : string) (s : state) (result : json)
    (e : Py.exn) :
  load_model W model_name = None ->
  transcribe W model_name (fs s !! file_of W audio_path) = Py.Return result ->
  open_error W output_path = Some e
  ∨ (open_error W output_path = None
     ∧ ∃ t, getitem result "text" = Py.Return (JStr t)
            ∧ write_error W output_path [] (Py.encode t) = Some e) ->
  Py.isinstance e Py.Exception = true ->
  ∃ s', transcribe_audio audio_path output_path model_name s
        = (Py.Return false, s')
        ∧ trace s'
          = trace s ++ [Stdout "Loading Whisper model...";
                        Stdout "Transcribing audio... This may take a while.";
                        Stderr ("Error during transcription: " +:+ Py.exn_str e)].
Proof.
  intros Hl Ht Hp He.
  assert (Hbody : ∃ s', transcribe_body W audio_path output_path model_name s
                        = (Py.Raise e, s')
                        ∧ trace s'
                          = trace s ++ [Stdout "Loading Whisper model...";
                               Stdout "Transcribing audio... This may take a while."]).
  { unfold transcribe_body, mbind, M_bind, print, emit, lift, raise. cbn.
    rewrite Hl. cbn. rewrite Ht. cbn. unfold open_for_writing, raise.
    destruct Hp as [Ho|(Ho & t & Hg & Hw)]; rewrite Ho; cbn.
    - eexists. split; [reflexivity|]. cbn. now rewrite <- app_assoc.
    - rewrite Hg. cbn. unfold TranscribePodcast.file_write. cbn.
      rewrite lookup_insert_eq. cbn. rewrite Hw.
      eexists. split; [reflexivity|]. cbn. now rewrite <- app_assoc. }
  destruct Hbody as (s' & Hb & Hs').
  unfold TranscribePodcast.transcribe_audio, try_except. rewrite Hb. cbn.
  rewrite He. eexists. split; [reflexivity|]. cbn. rewrite Hs'.
  now rewrite <- app_assoc.
Qed.

(** C7, as the code has it. When the download and the transcription
    succeed and storing the transcript fails, at [open] or at [write],
    with an exception [e], the last thing that [main] reports is the line
    that every failure inside [transcribe_audio] gets:
    [Error during transcription:] followed by the message of [e]. The
    clean-up runs, and when it works [main] ends with exit code 1 and the
    temporary file is removed. *)
Theorem persist_failure_is_reported_as_transcription
    (a : args) (s : state) (output_path : string) (result : json) (e : Py.exn) :
  let downloaded :=
    download_audio (url a) temp_audio
      (log s [Stdout ("Downloading podcast from " +:+ url a)]) in
  mkdir_error W = None ->
  resolve_output W a = Py.Return output_path ->
  downloaded.1 = Py.Return true ->
  load_model W (model a) = None ->
  transcribe W (model a) (fs downloaded.2 !! file_of W temp_audio) = Py.Return result ->
  open_error W output_path = Some e
  ∨ (open_error W output_path = None
     ∧ ∃ t, getitem result "text" = Py.Return (JStr t)
            ∧ write_error W output_path [] (Py.encode t) = Some e) ->
  Py.isinstance e Py.Exception = true ->
  (∃ events,
     trace (main a s).2
     = events ++ [Stderr ("Error during transcription: " +:+ Py.exn_str e)])
  ∧ (removal_works ->
     (main a s).1 = Exit 1
     ∧ fs (main a s).2 !! file_of W temp_audio = None).
Proof.
  intros downloaded Hm Ho Hd Hl Ht Hp He.
  destruct (transcribe_audio_persist_failure temp_audio output_path (model a)
              (log downloaded.2 [Stdout ("Transcribing to " +:+ output_path)])
              result e Hl Ht Hp He) as (s' & Hrun & Htrace).
  assert (Hpipe : pipeline a output_path s = (Py.Raise (Py.Exn Py.SystemExit "1"), s')).
  { rewrite (pipeline_after_download a output_path s downloaded.2)
      by (rewrite <- Hd; apply surjective_pairing).
    unfold mbind, M_bind. now rewrite Hrun. }
  rewrite (main_enters_run a output_path s Hm Ho). cbn [fst snd]. split.
  - rewrite run_trace, Hpipe. cbn [snd]. rewrite Htrace.
    exists (trace (log downloaded.2 [Stdout ("Transcribing to " +:+ output_path)])
            ++ [Stdout "Loading Whisper model...";
                Stdout "Transcribing audio... This may take a while."]).
    now rewrite <- app_assoc.
  - intros Hr. rewrite (run_cleans_up a output_path s Hr), Hpipe. cbn [fst snd fs].
    split; [reflexivity|apply lookup_delete_eq].
Qed.

End Pipeline.

End PipelineFacts.

(* ===================================================================== *)
(** * Runs in concrete worlds *)
(* ===================================================================== *)

Module Scenarios.

Import Json IO.

(** ** A machine on UTC

    [datetime.fromtimestamp(t).strftime("%Y-%m-%d")] where the time zone is
    UTC, for the years 1 to 9999 of [datetime], in the proleptic Gregorian
    calendar. *)

Module Calendar.

Definition two_digits (n : Z) : string :=
  if n <? 10 then "0" +:+ Py.str n else Py.str n.

Definition utc (t : Z) : Py.result string :=
  let z := t / 86400 + 719468 in
  let era := z / 146097 in
  let doe := z - era * 146097 in
  let yoe := (doe - doe / 1460 + doe / 36524 - doe / 146096) / 365 in
  let doy := doe - (365 * yoe + yoe / 4 - yoe / 100) in
  let mp := (5 * doy + 2) / 153 in
  let d := doy - (153 * mp + 2) / 5 + 1 in
  let m := if mp <? 10 then mp + 3 else mp - 9 in
  let y := yoe + era * 400 + (if m <=? 2 then 1 else 0) in
  if (1 <=? y) && (y <=? 9999)
  then Py.Return (Py.str y +:+ "-" +:+ two_digits m +:+ "-" +:+ two_digits d)
  else Py.Raise (Py.Exn Py.ValueError ("year " +:+ Py.str y +:+ " is out of range")).

Example utc_dates :
  utc 0 = Py.Return "1970-01-01"
  ∧ utc 1700000000 = Py.Return "2023-11-14"
  ∧ utc 951782400 = Py.Return "2000-02-29"
  ∧ utc (-1) = Py.Return "1969-12-31"
  ∧ utc 300000000000
    = Py.Raise (Py.Exn Py.ValueError "year 11476 is out of range").
Proof. vm_compute. repeat split; reflexivity. Qed.

End Calendar.

(** ** The discovery flow *)

Module Discovery.

Import PodcastSearch DiscoveryFacts CatalogFacts.

Definition key : option string := Some "key".
Definition secret : option string := Some "secret".

Definition s0 : state := State 0 [].

(** A machine on UTC with Python 3.11, a clock that gives [clock] and a
    catalog that does [get]. *)
Definition machine (clock : nat -> Z)
    (get : session -> Requests.request -> Py.result Requests.response) : world :=
  World clock get Calendar.utc false.

(** The catalog cannot be reached. *)
Definition unreachable : world :=
  machine (fun _ => 1700000000)
          (fun _ _ => Py.Raise (Py.Exn Py.ConnectionError "connection refused")).

(** The catalog answers every request with an empty JSON object. *)
Definition silent : world :=
  machine (fun _ => 1700000000)
          (fun _ _ => Py.Return (Requests.Response 200 [] (Some (JObj [])) [] None)).

(** The catalog is out of order: every request gets a 503 until the
    retries are used up. *)
Definition overloaded : world :=
  machine (fun _ => 1700000000)
          (fun _ _ => Py.Raise (Py.Exn Py.RetryError "too many 503 error responses")).

(** The catalog answers with a JSON list instead of an object. *)
Definition listing : world :=
  machine (fun _ => 1700000000)
          (fun _ _ => Py.Return (Requests.Response 200 [] (Some (JArr [])) [] None)).


Definition podcast (id : Z) (title : string) : json :=
  JObj [("id", JNum id); ("title", JStr title)].

Definition seven : list json :=
  [podcast 11 "one"; podcast 12 "two"; podcast 13 "three"; podcast 14 "four";
   podcast 15 "five"; podcast 16 "six"; podcast 17 "seven"].

Definition two : list json := [podcast 11 "one"; podcast 12 "two"].

(** The catalog knows seven podcasts for every term and no episodes. *)
Definition catalog : world :=
  machine (fun n => 1700000000 + Z.of_nat n)
          (fun _ r =>
             if bool_decide (Requests.req_url r = BASE_URL +:+ "/search/byterm")
             then Py.Return (Requests.Response 200 []
                               (Some (JObj [("feeds", JArr seven)])) [] None)
             else Py.Return (Requests.Response 200 []
                               (Some (JObj [("items", JArr [])])) [] None)).



Lemma empty_term_is_searched_witness :
  Py.strip "   " = ""
  ∧ search_iteration key secret unreachable "   " s0
    = searching key secret unreachable "" (log s0 [Input search_prompt])
  ∧ (search_iteration key secret unreachable "   " s0).1 ≠ Py.Return Break.
Proof.
  split; [reflexivity|].
  destruct (empty_term_is_searched key secret unreachable "   " s0 eq_refl)
    as (H1 & H2 & _).
  split; assumption.
Defined.


(** The numbered lines in a trace: the first line of each
    [display_podcast] call, with its number and the title. *)
Definition numbered (events : list event) : list (string * json) :=
  omap (fun e => match e with
                 | Print [Text t; Str v] =>
                     if bool_decide (t = "   Author: ") then None else Some (t, v)
                 | _ => None
                 end) events.

(** Seven podcasts found: five are shown, numbered from 1 to 5, and the
    loop waits for a selection. *)
Example seven_found_five_shown :
  ∃ s, search_iteration key secret catalog "test" s0
       = (Py.Return (Continue (AwaitingSelection seven)), s)
       ∧ numbered (trace s)
         = [(nl +:+ "1. ", JStr "one"); (nl +:+ "2. ", JStr "two");
            (nl +:+ "3. ", JStr "three"); (nl +:+ "4. ", JStr "four");
            (nl +:+ "5. ", JStr "five")].
Proof. eexists. split; vm_compute; reflexivity. Qed.

(** [q] at the first prompt: nothing is sent. *)
Example quit_at_once :
  main key secret catalog ["q"] = (Exit 0, State 0 [Input search_prompt]).
Proof. reflexivity. Qed.

End Discovery.

(** ** The retry policy *)

Module Retries.

Import Urllib3 RetryFacts.

(** A refused connection, a 503, a read timeout, a 500, and a 200 that is
    never asked for. *)
Definition script : list attempt :=
  [Fail NewConnectionError; Respond 503 None; Fail ReadTimeoutError;
   Respond 500 None; Respond 200 None].

Lemma session_retry_policy_witness :
  urlopen PodcastSearch.retry_strategy script
    = Run (Some (MaxRetryError (Respond 500 None))) 4 [0; 2; 4]
  ∧ attempts (urlopen PodcastSearch.retry_strategy script) = 4%nat
  ∧ ((1 < attempts (urlopen PodcastSearch.retry_strategy script))%nat
     ↔ retryable (Fail NewConnectionError) = true)
  ∧ sleeps (urlopen PodcastSearch.retry_strategy script) = [0; 2; 4]
  ∧ is_Some (result (urlopen PodcastSearch.retry_strategy script)).
Proof.
  destruct (session_retry_policy script) as (Ha & _ & Hfirst & _ & _ & Hs & Hr).
  split; [reflexivity|]. split; [exact Ha|].
  split; [exact (Hfirst _ _ eq_refl)|].
  split; [apply Hs; repeat constructor|].
  apply Hr. cbn. lia.
Defined.

End Retries.

(** ** The pipeline *)

Module Pipeline.

Import TranscribePodcast PipelineFacts.

Definition audio : list (list Z) := [[73; 68; 51; 4]; [0; 0]; [255]].

Definition served : Requests.response :=
  Requests.Response 200 [("content-length", "7")] None audio None.

Definition transcript : json := JObj [("text", JStr "hello world")].

Definition episode : args := Args "https://host/ep.mp3" "turbo" None.

Definition s0 : state := State ∅ [].

(** A run that starts with a temporary file left behind by an earlier one. *)
Definition stale : state := State {[ temp_audio := [1; 2; 3] ]} [].

(** Everything works, and every path names a file of its own. *)
Definition fine : world :=
  {| requests_get := fun _ => Py.Return served;
     urlparse_path := fun _ => Py.Return "/ep.mp3";
     mkdir_error := None;
     file_of := fun path => path;
     is_dir := fun _ => false;
     open_error := fun _ => None;
     write_error := fun _ _ _ => None;
     exists_error := fun _ => None;
     unlink_error := fun _ => None;
     load_model := fun _ => None;
     transcribe := fun _ _ => Py.Return transcript |}.

(** The world [w] with another network, URL parser, [open], [write],
    [unlink], model loader or model. *)
Definition with_get (get : Requests.request -> Py.result Requests.response)
    (w : world) : world :=
  World get (urlparse_path w) (mkdir_error w) (file_of w) (is_dir w) (open_error w)
        (write_error w) (exists_error w) (unlink_error w) (load_model w) (transcribe w).

Definition with_urlparse (parse : string -> Py.result string) (w : world) : world :=
  World (requests_get w) parse (mkdir_error w) (file_of w) (is_dir w) (open_error w)
        (write_error w) (exists_error w) (unlink_error w) (load_model w) (transcribe w).

Definition with_file_of (name : string -> string) (w : world) : world :=
  World (requests_get w) (urlparse_path w) (mkdir_error w) name (is_dir w)
        (open_error w) (write_error w) (exists_error w) (unlink_error w)
        (load_model w) (transcribe w).

Definition with_open (opened : string -> option Py.exn) (w : world) : world :=
  World (requests_get w) (urlparse_path w) (mkdir_error w) (file_of w) (is_dir w)
        opened (write_error w) (exists_error w) (unlink_error w) (load_model w)
        (transcribe w).

Definition with_write (written : string -> list Z -> list Z -> option Py.exn)
    (w : world) : world :=
  World (requests_get w) (urlparse_path w) (mkdir_error w) (file_of w) (is_dir w)
        (open_error w) written (exists_error w) (unlink_error w) (load_model w)
        (transcribe w).

Definition with_unlink (unlinked : string -> option Py.exn) (w : world) : world :=
  World (requests_get w) (urlparse_path w) (mkdir_error w) (file_of w) (is_dir w)
        (open_error w) (write_error w) (exists_error w) unlinked (load_model w)
        (transcribe w).

Definition with_load_model (loaded : string -> option Py.exn) (w : world) : world :=
  World (requests_get w) (urlparse_path w) (mkdir_error w) (file_of w) (is_dir w)
        (open_error w) (write_error w) (exists_error w) (unlink_error w) loaded
        (transcribe w).

Definition with_transcribe (heard : string -> option (list Z) -> Py.result json)
    (w : world) : world :=
  World (requests_get w) (urlparse_path w) (mkdir_error w) (file_of w) (is_dir w)
        (open_error w) (write_error w) (exists_error w) (unlink_error w)
        (load_model w) heard.

(** The audio host cannot be reached. *)
Definition no_host : world :=
  with_get (fun _ => Py.Raise (Py.Exn Py.ConnectionError "unreachable")) fine.

(** The connection breaks after the chunks that were served. *)
Definition broken_stream : world :=
  with_get (fun _ => Py.Return (Requests.Response 200 [] None audio
                                  (Some (Py.Exn Py.ConnectionError "reset")))) fine.

(** The model fails on the audio. *)
Definition no_speech : world :=
  with_transcribe (fun _ _ => Py.Raise (Py.Exn Py.RuntimeError "denied")) fine.

(** The transcript cannot be opened for writing. *)
Definition read_only : world :=
  with_open (fun path => if bool_decide (path = temp_audio) then None
                         else Some (Py.Exn Py.OSError "denied")) fine.

(** The disk is full when the transcript is written. *)
Definition disk_full : world :=
  with_write (fun path _ _ => if bool_decide (path = temp_audio) then None
                              else Some (Py.Exn Py.OSError "No space left on device"))
             fine.

(** The user interrupts the download. *)
Definition interrupted : world :=
  with_get (fun _ => Py.Raise (Py.Exn Py.KeyboardInterrupt "")) fine.

(** The directory [transcripts] does not take new entries and does not
    let go of the ones it has: the temporary file of an earlier run can be
    written again, no transcript can be created and nothing can be
    removed. *)
Definition locked : world :=
  with_unlink (fun _ => Some (Py.Exn Py.PermissionError "Permission denied"))
    (with_open (fun path => if bool_decide (path = temp_audio) then None
                            else Some (Py.Exn Py.PermissionError "Permission denied"))
               fine).

(** [urlparse] refuses the URL. *)
Definition unparsed : world :=
  with_urlparse (fun _ => Py.Raise (Py.Exn Py.ValueError "Invalid IPv6 URL")) fine.

Definition out : string := "transcripts/ep_transcript.txt".

Example output_path_of_episode : resolve_output fine episode = Py.Return out.
Proof. reflexivity. Qed.

(** The four ways out of the [try] block, and an interrupt: the temporary
    file exists while the pipeline runs and is gone at the end. *)
Example exit_paths :
  fs (pipeline fine episode out stale).2 !! temp_audio = Some (concat audio)
  ∧ (main fine episode stale).1 = Exit 0
  ∧ fs (main fine episode stale).2 !! temp_audio = None
  ∧ fs (main fine episode stale).2 !! out = Some (Py.encode "hello world")
  ∧ (main no_host episode stale).1 = Exit 1
  ∧ fs (main no_host episode stale).2 !! temp_audio = None
  ∧ fs (pipeline broken_stream episode out s0).2 !! temp_audio = Some (concat audio)
  ∧ (main broken_stream episode s0).1 = Exit 1
  ∧ fs (main broken_stream episode s0).2 !! temp_audio = None
  ∧ (main no_speech episode s0).1 = Exit 1
  ∧ fs (main no_speech episode s0).2 !! temp_audio = None
  ∧ (main disk_full episode s0).1 = Exit 1
  ∧ fs (main disk_full episode s0).2 !! temp_audio = None
  ∧ (main interrupted episode stale).1 = Uncaught (Py.Exn Py.KeyboardInterrupt "")
  ∧ fs (main interrupted episode stale).2 !! temp_audio = None.
Proof. vm_compute. repeat split; reflexivity. Qed.

(** C1, refuted as stated. In a directory that lets go of nothing, the
    download writes the temporary file of an earlier run again, the
    transcript cannot be created, and [unlink] fails in the [finally]
    block: [main] ends on the [PermissionError] and the temporary file
    stays, with the audio in it. And for a URL that [urlparse] refuses,
    [main] ends before the [try] statement: the temporary file of an
    earlier run stays as it was. *)
Lemma temp_file_can_stay :
  (main locked episode stale).1
    = Uncaught (Py.Exn Py.PermissionError "Permission denied")
  ∧ fs (main locked episode stale).2 !! temp_audio = Some (concat audio)
  ∧ (main unparsed episode stale).1 = Uncaught (Py.Exn Py.ValueError "Invalid IPv6 URL")
  ∧ fs (main unparsed episode stale).2 !! temp_audio = Some [1; 2; 3].
Proof. vm_compute. repeat split; reflexivity. Qed.

(** C7, refuted as stated: a run in which storing the transcript fails
    and a run in which the transcription fails end in the same way, exit
    code, files and every printed line included. Nothing in the result
    names the stage. *)
Lemma persist_failure_has_no_tag :
  main read_only episode s0 = main no_speech episode s0
  ∧ (main read_only episode s0).1 = Exit 1
  ∧ last (trace (main read_only episode s0).2)
    = Some (Stderr "Error during transcription: denied").
Proof. vm_compute. repeat split; reflexivity. Qed.

Lemma removal_works_fine : removal_works fine.
Proof. repeat split. Qed.

Lemma temp_file_is_removed_witness :
  fs (run fine episode out stale).2 !! temp_audio = None
  ∧ fs (main fine episode stale).2 !! temp_audio = None
  ∧ fs (main disk_full episode stale).2 !! temp_audio = None
  ∧ run locked episode out stale
    = (Py.Raise (Py.Exn Py.PermissionError "Permission denied"),
       (pipeline locked episode out stale).2).
Proof.
  destruct (temp_file_is_removed fine episode out stale) as (Hrun & Hmain & _).
  destruct (temp_file_is_removed disk_full episode out stale) as (_ & Hfull & _).
  destruct (temp_file_is_removed locked episode out stale) as (_ & _ & Hlocked).
  split; [exact (proj2 (Hrun removal_works_fine))|].
  split; [apply Hmain; [exact removal_works_fine|reflexivity|reflexivity]|].
  split; [apply Hfull; [repeat split|reflexivity|reflexivity]|].
  apply Hlocked; [reflexivity|reflexivity|].
  vm_compute. eexists. reflexivity.
Defined.

Lemma persist_failure_is_reported_as_transcription_witness :
  ((main read_only episode s0).1 = Exit 1
   ∧ fs (main read_only episode s0).2 !! temp_audio = None
   ∧ ∃ events,
       trace (main read_only episode s0).2
       = events ++ [Stderr ("Error during transcription: " +:+ "denied")])
  ∧ ((main disk_full episode s0).1 = Exit 1
     ∧ fs (main disk_full episode s0).2 !! temp_audio = None
     ∧ ∃ events,
         trace (main disk_full episode s0).2
         = events ++ [Stderr ("Error during transcription: "
                              +:+ "No space left on device")]).
Proof.
  destruct (persist_failure_is_reported_as_transcription read_only episode s0 out
              transcript (Py.Exn Py.OSError "denied")
              eq_refl eq_refl eq_refl eq_refl eq_refl (or_introl eq_refl) eq_refl)
    as [Ht1 Hr1].
  destruct (persist_failure_is_reported_as_transcription disk_full episode s0 out
              transcript (Py.Exn Py.OSError "No space left on device")
              eq_refl eq_refl eq_refl eq_refl eq_refl
              (or_intror (conj eq_refl
                 (ex_intro _ "hello world" (conj eq_refl eq_refl)))) eq_refl)
    as [Ht2 Hr2].
  destruct (Hr1 ltac:(repeat split)) as [He1 Hf1].
  destruct (Hr2 ltac:(repeat split)) as [He2 Hf2].
  repeat split; assumption.
Defined.

Lemma download_progress_witness :
  (download_audio fine "https://host/ep.mp3" temp_audio s0).1 = Py.Return true
  ∧ ∃ events,
      trace (download_audio fine "https://host/ep.mp3" temp_audio s0).2
      = trace s0 ++ events
      ∧ StronglySorted Z.le (0 :: updates events)
      ∧ ∃ response content,
          requests_get fine (download_request "https://host/ep.mp3")
          = Py.Return response
          ∧ content = concat (Requests.resp_chunks response)
          ∧ fs (download_audio fine "https://host/ep.mp3" temp_audio s0).2
            !! temp_audio = Some content
          ∧ length (updates events) = length (Requests.resp_chunks response)
          ∧ last (0 :: updates events) = Some (Z.of_nat (length content)).
Proof.
  split; [reflexivity|].
  destruct (download_progress fine "https://host/ep.mp3" temp_audio s0)
    as (events & Ht & Hs & Hok).
  exists events. split; [exact Ht|]. split; [exact Hs|].
  apply Hok. reflexivity.
Defined.

(** The bar of that download after each chunk. *)
Example progress_of_download :
  updates (trace (download_audio fine "https://host/ep.mp3" temp_audio s0).2)
  = [4; 6; 7].
Proof. reflexivity. Qed.

End Pipeline.

End Scenarios.

(* ===================================================================== *)
(** * The catalog calls, outcome by outcome *)
(* ===================================================================== *)

Module CatalogRuns.

Import Json IO Eff PodcastSearch CatalogFacts.

(** What the [try] block of a catalog call evaluates to, given what
    [session.get] gave: the value of [field] in the body, its default
    [[]], or the exception of the step that failed. *)
Definition fetched (field : string) (o : Py.result Requests.response)
    : Py.result json :=
  match o with
  | Py.Raise e => Py.Raise e
  | Py.Return response =>
      match Requests.raise_for_status response with
      | Py.Raise e => Py.Raise e
      | Py.Return _ =>
          match Requests.json response with
          | Py.Raise e => Py.Raise e
          | Py.Return body => get body field (JArr [])
          end
      end
  end.

(** The lines that the [except] clauses print for the exception [e], when
    one of them takes it. *)
Definition diagnostics (what : string) (e : Py.exn) : option (list event) :=
  if Py.isinstance e Py.ConnectionError then
    Some [Stderr ("Connection error: Could not connect to " +:+ BASE_URL
                  +:+ ". Please check your internet connection.");
          Stderr ("Detailed error: " +:+ Py.exn_str e)]
  else if Py.isinstance e Py.Timeout then
    Some [Stderr "Timeout error: The request took too long to complete.";
          Stderr ("Detailed error: " +:+ Py.exn_str e)]
  else if Py.isinstance e Py.RequestException then
    Some [Stderr (what +:+ Py.exn_str e)]
  else None.

(** How a catalog call ends from the state [s'] its [try] block reached. *)
Definition settled (what : string) (r : Py.result json) (s' : state)
    : Py.result json * state :=
  match r with
  | Py.Return v => (Py.Return v, s')
  | Py.Raise e =>
      match diagnostics what e with
      | Some lines => (Py.Return (JArr []), State (clock_reads s') (trace s' ++ lines))
      | None => (Py.Raise e, s')
      end
  end.

Section Runs.

Variables API_KEY API_SECRET : option string.
Variable W : world.

Local Abbreviation sign := (sign API_KEY API_SECRET).
Local Abbreviation search_podcasts := (search_podcasts API_KEY API_SECRET W).
Local Abbreviation get_episodes := (get_episodes API_KEY API_SECRET W).
Local Abbreviation search_sent := (search_sent API_KEY API_SECRET W).
Local Abbreviation episodes_sent := (episodes_sent API_KEY API_SECRET W).

Local Opaque PodcastSearch.sign.

(** The state in which the [try] block of [search_podcasts] ends. *)
Definition searched (term : string) (s : state) : state :=
  State (S (S (clock_reads s)))
        (trace s ++ [Stdout ("Making request to: " +:+ BASE_URL +:+ "/search/byterm");
                     PrintHeaders (sign (time_time W (clock_reads s)));
                     HttpGet (search_sent term s)]).

(** The state in which the [try] block of [get_episodes] ends. *)
Definition listed (feed_id : json) (s : state) : state :=
  State (S (clock_reads s)) (trace s ++ [HttpGet (episodes_sent feed_id s)]).

Lemma degrade_settles (what : string) (body : M state json) (s s' : state)
    (r : Py.result json) :
  body s = (r, s') -> degrade what body s = settled what r s'.
Proof.
  intros Hb. unfold degrade, try_except, settled, diagnostics. rewrite Hb.
  destruct r as [v|e]; [reflexivity|]. cbn.
  destruct (Py.isinstance e Py.ConnectionError); cbn.
  { unfold eprint, emit, mbind, M_bind, mret, M_ret. cbn.
    now rewrite <- app_assoc. }
  destruct (Py.isinstance e Py.Timeout); cbn.
  { unfold eprint, emit, mbind, M_bind, mret, M_ret. cbn.
    now rewrite <- app_assoc. }
  destruct (Py.isinstance e Py.RequestException); reflexivity.
Qed.

Ltac run_block :=
  repeat (progress (unfold mbind, M_bind, mret, M_ret, lift, emit, print,
                           get_headers, now; cbn)).

Lemma search_podcasts_settles (term : string) (s : state) :
  search_podcasts term s
  = settled "Error searching podcasts: "
      (fetched "feeds" (session_get W create_session (search_sent term s)))
      (searched term s).
Proof.
  unfold PodcastSearch.search_podcasts. apply degrade_settles.
  run_block. fold (search_sent term s). unfold fetched, searched.
  rewrite <- !app_assoc. cbn.
  destruct (session_get W create_session (search_sent term s)) as [r|e];
    [|reflexivity].
  destruct (Requests.raise_for_status r) as [[]|e]; [|reflexivity].
  destruct (Requests.json r) as [body|e]; reflexivity.
Qed.

Lemma get_episodes_settles (feed_id : json) (s : state) :
  get_episodes feed_id s
  = settled "Error getting episodes: "
      (fetched "items" (session_get W create_session (episodes_sent feed_id s)))
      (listed feed_id s).
Proof.
  unfold PodcastSearch.get_episodes. apply degrade_settles.
  run_block. fold (episodes_sent feed_id s). unfold fetched, listed.
  destruct (session_get W create_session (episodes_sent feed_id s)) as [r|e];
    [|reflexivity].
  destruct (Requests.raise_for_status r) as [[]|e]; [|reflexivity].
  destruct (Requests.json r) as [body|e]; reflexivity.
Qed.

(** X1. A response that [raise_for_status] accepts and whose JSON body is
    an object with the field gives exactly the value of that field,
    whatever it is, and nothing is written to standard error:
    [search_podcasts] returns [feeds], [get_episodes] returns [items]. *)
Theorem accepted_body_is_returned (term : string) (feed_id : json) (s : state) :
  (∀ r d v,
     session_get W create_session (search_sent term s) = Py.Return r ->
     http_failure (Py.Return r) = false ->
     Requests.resp_json r = Some (JObj d) ->
     dict_get "feeds" d = Some v ->
     search_podcasts term s = (Py.Return v, searched term s))
  ∧ (∀ r d v,
       session_get W create_session (episodes_sent feed_id s) = Py.Return r ->
       http_failure (Py.Return r) = false ->
       Requests.resp_json r = Some (JObj d) ->
       dict_get "items" d = Some v ->
       get_episodes feed_id s = (Py.Return v, listed feed_id s)).
Proof.
  split; intros r d v Ho Hf Hj Hd.
  - rewrite search_podcasts_settles, Ho. unfold fetched, Requests.raise_for_status,
      Requests.json. cbn in Hf. rewrite Hf, Hj. cbn. now rewrite Hd.
  - rewrite get_episodes_settles, Ho. unfold fetched, Requests.raise_for_status,
      Requests.json. cbn in Hf. rewrite Hf, Hj. cbn. now rewrite Hd.
Qed.

(** X2. A response that is accepted and whose JSON body is not an object
    (a list, a string, a number, [null]) is not degraded to the empty
    list: [.get] does not exist on it, and the [AttributeError] leaves
    [search_podcasts] and [get_episodes], with nothing on standard error. *)
Theorem body_that_is_no_object_raises (term : string) (feed_id : json) (s : state) :
  (∀ r v,
     session_get W create_session (search_sent term s) = Py.Return r ->
     http_failure (Py.Return r) = false ->
     Requests.resp_json r = Some v -> (∀ d, v ≠ JObj d) ->
     ∃ message,
       search_podcasts term s
       = (Py.Raise (Py.Exn Py.AttributeError message), searched term s))
  ∧ (∀ r v,
       session_get W create_session (episodes_sent feed_id s) = Py.Return r ->
       http_failure (Py.Return r) = false ->
       Requests.resp_json r = Some v -> (∀ d, v ≠ JObj d) ->
       ∃ message,
         get_episodes feed_id s
         = (Py.Raise (Py.Exn Py.AttributeError message), listed feed_id s)).
Proof.
  split; intros r v Ho Hf Hj Hv; eexists.
  - rewrite search_podcasts_settles, Ho. unfold fetched, Requests.raise_for_status,
      Requests.json. cbn in Hf. rewrite Hf, Hj.
    destruct v as [| | | | |d]; try reflexivity. now destruct (Hv d).
  - rewrite get_episodes_settles, Ho. unfold fetched, Requests.raise_for_status,
      Requests.json. cbn in Hf. rewrite Hf, Hj.
    destruct v as [| | | | |d]; try reflexivity. now destruct (Hv d).
Qed.

(** The events that are lines on standard error. *)
Definition stderr_only (events : list event) : Prop :=
  Forall (fun e => ∃ line, e = Stderr line) events.

Lemma settled_adds_stderr (what : string) (r : Py.result json) (s' : state) :
  ∃ lines,
    (settled what r s').2 = State (clock_reads s') (trace s' ++ lines)
    ∧ stderr_only lines.
Proof.
  unfold settled, diagnostics, stderr_only.
  destruct r as [v|e]; cbn.
  { exists []. rewrite app_nil_r. now destruct s'. }
  destruct (Py.isinstance e Py.ConnectionError); cbn.
  { eexists. split; [reflexivity|]. repeat constructor; eauto. }
  destruct (Py.isinstance e Py.Timeout); cbn.
  { eexists. split; [reflexivity|]. repeat constructor; eauto. }
  destruct (Py.isinstance e Py.RequestException); cbn.
  { eexists. split; [reflexivity|]. repeat constructor; eauto. }
  exists []. rewrite app_nil_r. now destruct s'.
Qed.

(** X3. Whatever the network does, one call of [search_podcasts] reads the
    clock twice and sends one request: it prints the URL, prints headers
    signed at the first reading, sends the search request with headers
    signed again at the second reading and a timeout of 10 seconds, and
    after that writes to standard error only. One call of [get_episodes]
    reads the clock once and sends one request, with [max] set to 5. The
    program itself never sends a request a second time. *)
Theorem catalog_call_sends_one_request (term : string) (feed_id : json) (s : state) :
  (∃ lines,
     (search_podcasts term s).2
     = State (S (S (clock_reads s)))
         (trace s
          ++ [Stdout ("Making request to: " +:+ BASE_URL +:+ "/search/byterm");
              PrintHeaders (sign (time_time W (clock_reads s)));
              HttpGet (Requests.Request (BASE_URL +:+ "/search/byterm")
                         (sign (time_time W (S (clock_reads s))))
                         [("q", JStr term)] false (Some 10))]
          ++ lines)
     ∧ stderr_only lines)
  ∧ (∃ lines,
       (get_episodes feed_id s).2
       = State (S (clock_reads s))
           (trace s
            ++ [HttpGet (Requests.Request (BASE_URL +:+ "/episodes/byfeedid")
                           (sign (time_time W (clock_reads s)))
                           [("id", feed_id); ("max", JNum 5)] false (Some 10))]
            ++ lines)
       ∧ stderr_only lines).
Proof.
  split.
  - rewrite search_podcasts_settles.
    destruct (settled_adds_stderr "Error searching podcasts: "
                (fetched "feeds" (session_get W create_session (search_sent term s)))
                (searched term s)) as (lines & -> & Hl).
    exists lines. split; [|exact Hl]. cbn. now rewrite <- app_assoc.
  - rewrite get_episodes_settles.
    destruct (settled_adds_stderr "Error getting episodes: "
                (fetched "items" (session_get W create_session (episodes_sent feed_id s)))
                (listed feed_id s)) as (lines & -> & Hl).
    exists lines. split; [|exact Hl]. cbn. now rewrite <- app_assoc.
Qed.

(** X4. The first [except] clause that fits takes the exception of
    [session.get]. An instance of [ConnectionError] is reported as a
    connection error, also when it is a timeout as well (a connect
    timeout); a [Timeout] that is no [ConnectionError] is reported as a
    timeout; any other [RequestException] is reported with its message;
    in these cases the result is the empty list. An exception that is no
    [RequestException] leaves [search_podcasts] unreported. *)
Theorem search_failure_is_reported_by_class (term : string) (s : state) (e : Py.exn) :
  session_get W create_session (search_sent term s) = Py.Raise e ->
  (Py.isinstance e Py.ConnectionError = true ->
   search_podcasts term s
   = (Py.Return (JArr []),
      State (S (S (clock_reads s)))
        (trace (searched term s)
         ++ [Stderr ("Connection error: Could not connect to " +:+ BASE_URL
                     +:+ ". Please check your internet connection.");
             Stderr ("Detailed error: " +:+ Py.exn_str e)])))
  ∧ (Py.isinstance e Py.ConnectionError = false ->
     Py.isinstance e Py.Timeout = true ->
     search_podcasts term s
     = (Py.Return (JArr []),
        State (S (S (clock_reads s)))
          (trace (searched term s)
           ++ [Stderr "Timeout error: The request took too long to complete.";
               Stderr ("Detailed error: " +:+ Py.exn_str e)])))
  ∧ (Py.isinstance e Py.ConnectionError = false ->
     Py.isinstance e Py.Timeout = false ->
     Py.isinstance e Py.RequestException = true ->
     search_podcasts term s
     = (Py.Return (JArr []),
        State (S (S (clock_reads s)))
          (trace (searched term s)
           ++ [Stderr ("Error searching podcasts: " +:+ Py.exn_str e)])))
  ∧ (Py.isinstance e Py.RequestException = false ->
     search_podcasts term s = (Py.Raise e, searched term s)).
Proof.
  intros Ho. rewrite search_podcasts_settles, Ho. unfold fetched, settled, diagnostics.
  repeat split.
  - intros ->. reflexivity.
  - intros -> ->. reflexivity.
  - intros -> -> ->. reflexivity.
  - intros Hr.
    assert (Py.isinstance e Py.ConnectionError = false) as ->.
    { destruct e as [[] m]; vm_compute in Hr |- *; congruence. }
    assert (Py.isinstance e Py.Timeout = false) as ->.
    { destruct e as [[] m]; vm_compute in Hr |- *; congruence. }
    now rewrite Hr.
Qed.

End Runs.

End CatalogRuns.

(* ===================================================================== *)
(** * Runs that only add events of one kind *)
(* ===================================================================== *)

Module EventFacts.

Import IO Eff.

Section Kind.

Context {S : Type} (tr : S -> list event) (P : event -> Prop).

(** Every run of [c] extends the trace, by events that satisfy [P]. *)
Definition emits {A} (c : M S A) : Prop :=
  ∀ s, ∃ events, tr (c s).2 = tr s ++ events ∧ Forall P events.

Lemma emits_ret {A} (a : A) : emits (mret a).
Proof. intros s. exists []. split; [now rewrite app_nil_r|constructor]. Qed.

Lemma emits_raise {A} (e : Py.exn) : emits (raise (A := A) e).
Proof. intros s. exists []. split; [now rewrite app_nil_r|constructor]. Qed.

Lemma emits_lift {A} (r : Py.result A) : emits (lift r).
Proof. intros s. exists []. split; [now rewrite app_nil_r|constructor]. Qed.

Lemma emits_bind {A B} (c : M S A) (k : A -> M S B) :
  emits c -> (∀ a, emits (k a)) -> emits (c ≫= k).
Proof.
  intros Hc Hk s. unfold mbind, M_bind. destruct (Hc s) as (e1 & H1 & P1).
  destruct (c s) as [[a|e] s']; cbn in *; [|eauto].
  destruct (Hk a s') as (e2 & H2 & P2). exists (e1 ++ e2).
  rewrite H2, H1, app_assoc. split; [reflexivity|]. now apply Forall_app.
Qed.

Lemma handler_emits {A} (e : Py.exn)
    (clauses : list (Py.exn_class * (Py.exn -> M S A))) (h : M S A) :
  Forall (fun ch => ∀ e, emits (ch.2 e)) clauses ->
  handler_for e clauses = Some h -> emits h.
Proof.
  intros Hc. revert h. induction Hc as [|[cls h0] rest H0 _ IH]; cbn; [discriminate|].
  intros h. destruct (Py.isinstance e cls); [|exact (IH h)].
  intros [= <-]. apply H0.
Qed.

Lemma emits_try_except {A} (body : M S A)
    (clauses : list (Py.exn_class * (Py.exn -> M S A))) :
  emits body -> Forall (fun ch => ∀ e, emits (ch.2 e)) clauses ->
  emits (try_except body clauses).
Proof.
  intros Hb Hc s. unfold try_except. destruct (Hb s) as (e1 & H1 & P1).
  destruct (body s) as [[a|e] s']; cbn in *; [eauto|].
  destruct (handler_for e clauses) as [h|] eqn:Hh; cbn; [|eauto].
  destruct (handler_emits _ _ _ Hc Hh s') as (e2 & H2 & P2). exists (e1 ++ e2).
  rewrite H2, H1, app_assoc. split; [reflexivity|]. now apply Forall_app.
Qed.

Lemma emits_try_finally {A} (body : M S A) (cleanup : M S unit) :
  emits body -> emits cleanup -> emits (try_finally body cleanup).
Proof.
  intros Hb Hc s. unfold try_finally. destruct (Hb s) as (e1 & H1 & P1).
  destruct (body s) as [r s']. destruct (Hc s') as (e2 & H2 & P2).
  exists (e1 ++ e2). cbn in *.
  destruct (cleanup s') as [[u|e] s'']; cbn in *;
    rewrite H2, H1, app_assoc; (split; [reflexivity|now apply Forall_app]).
Qed.

Lemma emits_for_each {A} (l : list A) (body : A -> M S unit) :
  (∀ a, emits (body a)) -> emits (for_each l body).
Proof.
  intros Hb. induction l as [|a l IH]; cbn; [apply emits_ret|].
  apply emits_bind; auto.
Qed.

End Kind.

Create HintDb emits discriminated.
#[global] Hint Resolve emits_ret emits_raise emits_lift emits_for_each : emits.

(** Takes a goal [emits tr P c] apart along the structure of [c]. *)
Ltac emits :=
  repeat first
    [ progress auto with emits
    | apply emits_bind; [|intros ?]
    | apply emits_try_except
    | apply emits_try_finally
    | apply Forall_cons; split; [intros ?|]
    | apply Forall_nil
    | match goal with
      | |- emits _ _ (match ?x with _ => _ end) => destruct x
      | |- emits _ _ (if ?x then _ else _) => destruct x
      end ].

End EventFacts.

(* ===================================================================== *)
(** * The discovery loop, step by step *)
(* ===================================================================== *)

Module DiscoveryRuns.

Import Json IO Eff PodcastSearch DiscoveryFacts EventFacts.

Definition is_dict (v : json) : Prop := ∃ d, v = JObj d.

(** The requests of the catalog: one of the two URLs, headers signed at
    some clock reading, no streaming, a timeout of 10 seconds. *)
Definition catalog_request (API_KEY API_SECRET : option string)
    (r : Requests.request) : Prop :=
  ∃ t, (∃ term, r = search_request (sign API_KEY API_SECRET t) term)
       ∨ (∃ feed_id, r = episodes_request (sign API_KEY API_SECRET t) feed_id).

(** The events of the discovery flow: every request is a catalog request,
    and there is no progress bar. *)
Definition discovery_event (API_KEY API_SECRET : option string) (e : event) : Prop :=
  match e with
  | HttpGet r => catalog_request API_KEY API_SECRET r
  | Progress _ _ => False
  | _ => True
  end.

Section Steps.

Variables API_KEY API_SECRET : option string.
Variable W : world.

Local Abbreviation sign := (sign API_KEY API_SECRET).
Local Abbreviation get_headers := (get_headers API_KEY API_SECRET W).
Local Abbreviation search_podcasts := (search_podcasts API_KEY API_SECRET W).
Local Abbreviation get_episodes := (get_episodes API_KEY API_SECRET W).
Local Abbreviation format_date := (format_date W).
Local Abbreviation display_podcast := (display_podcast W).
Local Abbreviation display_episode := (display_episode W).
Local Abbreviation searching := (searching API_KEY API_SECRET W).
Local Abbreviation search_iteration := (search_iteration API_KEY API_SECRET W).
Local Abbreviation select := (select API_KEY API_SECRET W).
Local Abbreviation selection_iteration := (selection_iteration API_KEY API_SECRET W).
Local Abbreviation loop := (loop API_KEY API_SECRET W).
Local Abbreviation main := (main API_KEY API_SECRET W).
Local Abbreviation emits := (EventFacts.emits trace (discovery_event API_KEY API_SECRET)).

Local Opaque PodcastSearch.sign.

(** X5. With a key, a first line that is [q] or [Q], spaces around it or
    not, ends [main] with exit code 0: the prompt was shown once, nothing
    was sent, and the lines that follow on standard input are not read. *)
Theorem quit_ends_main (line : string) (rest : list string) :
  missing API_KEY = false ->
  Py.lower (Py.strip line) = "q" ->
  main (line :: rest) = (Exit 0, State 0 [Input search_prompt]).
Proof.
  intros Hk Hq. unfold PodcastSearch.main. rewrite Hk. cbn [PodcastSearch.loop].
  unfold mbind at 1. unfold M_bind at 1.
  change (search_iteration line (State 0 []))
    with ((if bool_decide (Py.lower (Py.strip line) = "q") then mret Break
           else searching (Py.strip line)) (log (State 0 []) [Input search_prompt])).
  rewrite bool_decide_eq_true_2 by exact Hq. reflexivity.
Qed.

(** The state in which the search for the line [line] starts. *)
Definition asked (line : string) (s : state) : state :=
  log (log s [Input search_prompt])
      [Stdout (nl +:+ "Searching for '" +:+ Py.strip line +:+ "'...")].

Lemma search_iteration_run (line : string) (s : state) :
  Py.lower (Py.strip line) ≠ "q" ->
  search_iteration line s
  = (podcasts ← search_podcasts (Py.strip line);
     if negb (truthy podcasts) then
       print "No podcasts found." ;; mret (Continue AwaitingSearchTerm)
     else
       print (nl +:+ "Top 5 Results:") ;;
       match podcasts with
       | JArr l =>
           for_each (imap (fun i p => (i, p)) (take 5 l))
                    (fun ip => display_podcast ip.2 ip.1) ;;
           mret (Continue (AwaitingSelection l))
       | JStr _ => raise (Py.Exn Py.AttributeError "object has no attribute 'get'")
       | _ => raise (default (Py.Exn Py.TypeError "object is not subscriptable")
                             (slice_error (hashable_slices W) podcasts))
       end) (asked line s).
Proof. intros Hq. rewrite search_iteration_searches by exact Hq. reflexivity. Qed.

(** X6. For a line of ASCII text that is not the quit command: when the
    search gives nothing, that is an empty list (which includes every
    failure that [search_podcasts] degrades) or any other value that
    counts as false, the loop body prints [No podcasts found.] and leads
    back to the search prompt: no podcast is displayed and no selection is
    asked for. *)
Theorem nothing_found_asks_again (line : string) (s : state) (v : json) :
  Py.isascii line = true ->
  Py.lower (Py.strip line) ≠ "q" ->
  (search_podcasts (Py.strip line) (asked line s)).1 = Py.Return v ->
  truthy v = false ->
  search_iteration line s
  = (Py.Return (Continue AwaitingSearchTerm),
     log (search_podcasts (Py.strip line) (asked line s)).2
         [Stdout "No podcasts found."]).
Proof.
  intros _ Hq Hv Ht. rewrite search_iteration_run by exact Hq.
  unfold mbind at 1. unfold M_bind at 1.
  destruct (search_podcasts (Py.strip line) (asked line s)) as [r s'].
  cbn in Hv. subst r. rewrite Ht. reflexivity.
Qed.

(** What [display_podcast] prints after [Categories:], when it can: the
    values of a dict of strings, joined, or [None] for categories that
    count as false. *)
Definition categories_text (categories : json) : option string :=
  if truthy categories then
    match categories with
    | JObj d =>
        match join ", " (map snd d) with
        | Py.Return text => Some text
        | Py.Raise _ => None
        end
    | _ => None
    end
  else Some "None".

(** The four lines of [display_podcast(p, index)], when [p] can be
    displayed: a dict whose description, if it has one, is a string or a
    list, and whose categories have a text. *)
Definition podcast_lines (index : nat) (p : json) : option (list event) :=
  match p with
  | JObj d =>
      let description := default (JStr "No description") (dict_get "description" d) in
      match description, categories_text (default (JObj []) (dict_get "categories" d)) with
      | (JStr _ | JArr _), Some text =>
          Some [Print [Text (nl +:+ Py.str (Z.of_nat index + 1) +:+ ". ");
                       Str (default (JStr "Unknown Title") (dict_get "title" d))];
                Print [Text "   Author: ";
                       Str (default (JStr "Unknown Author") (dict_get "author" d))];
                Print [Text "   Description: "; Str200 description; Text "..."];
                Stdout ("   Categories: " +:+ text)]
      | _, _ => None
      end
  | _ => None
  end.

(** The lines of the podcasts of a list, numbered from [k + 1] on, when
    all of them can be displayed. *)
Fixpoint podcasts_lines (k : nat) (l : list json) : option (list event) :=
  match l with
  | [] => Some []
  | p :: l' =>
      match podcast_lines k p, podcasts_lines (S k) l' with
      | Some lines, Some more => Some (lines ++ more)
      | _, _ => None
      end
  end.

Lemma display_podcast_run (p : json) (i : nat) (s : state) :
  match podcast_lines i p with
  | Some lines => display_podcast p i s = (Py.Return tt, log s lines)
  | None => ∃ e, (display_podcast p i s).1 = Py.Raise e
  end.
Proof.
  unfold PodcastSearch.display_podcast, podcast_lines, categories_text.
  destruct p as [| | | | |d]; try (eexists; reflexivity).
  unfold mbind, M_bind, lift, print, emit, raise. cbn.
  destruct (default (JStr "No description") (dict_get "description" d));
    cbn; try (eexists; reflexivity).
  - destruct (default (JObj []) (dict_get "categories" d)) as [|b|n|t|l|c]; cbn.
    + unfold log. cbn. now rewrite <- !app_assoc.
    + destruct b; cbn; [eexists; reflexivity|].
      unfold log. cbn. now rewrite <- !app_assoc.
    + destruct (n =? 0); cbn; [|eexists; reflexivity].
      unfold log. cbn. now rewrite <- !app_assoc.
    + destruct (bool_decide (t = "")); cbn; [|eexists; reflexivity].
      unfold log. cbn. now rewrite <- !app_assoc.
    + destruct (bool_decide (l = [])); cbn; [|eexists; reflexivity].
      unfold log. cbn. now rewrite <- !app_assoc.
    + destruct (bool_decide (c = [])); cbn.
      { unfold log. cbn. now rewrite <- !app_assoc. }
      destruct (join ", " (map snd c)); cbn; [|eexists; reflexivity].
      unfold log. cbn. now rewrite <- !app_assoc.
  - destruct (default (JObj []) (dict_get "categories" d)) as [|b|n|t|l0|c]; cbn.
    + unfold log. cbn. now rewrite <- !app_assoc.
    + destruct b; cbn; [eexists; reflexivity|].
      unfold log. cbn. now rewrite <- !app_assoc.
    + destruct (n =? 0); cbn; [|eexists; reflexivity].
      unfold log. cbn. now rewrite <- !app_assoc.
    + destruct (bool_decide (t = "")); cbn; [|eexists; reflexivity].
      unfold log. cbn. now rewrite <- !app_assoc.
    + destruct (bool_decide (l0 = [])); cbn; [|eexists; reflexivity].
      unfold log. cbn. now rewrite <- !app_assoc.
    + destruct (bool_decide (c = [])); cbn.
      { unfold log. cbn. now rewrite <- !app_assoc. }
      destruct (join ", " (map snd c)); cbn; [|eexists; reflexivity].
      unfold log. cbn. now rewrite <- !app_assoc.
Qed.

Lemma display_all (l : list json) :
  ∀ (k : nat) (s : state),
    match podcasts_lines k l with
    | Some lines =>
        for_each (imap (fun i p => (k + i, p)%nat) l)
                 (fun ip => display_podcast ip.2 ip.1) s
        = (Py.Return tt, log s lines)
    | None =>
        ∃ e, (for_each (imap (fun i p => (k + i, p)%nat) l)
                       (fun ip => display_podcast ip.2 ip.1) s).1 = Py.Raise e
    end.
Proof.
  induction l as [|p l IH]; intros k s.
  - cbn. unfold log. rewrite app_nil_r. now destruct s.
  - rewrite imap_cons. cbn [for_each podcasts_lines].
    rewrite (imap_ext _ (fun i p => (S k + i, p)%nat))
      by (intros; unfold compose; f_equal; lia).
    cbn beta. cbn [fst snd]. rewrite Nat.add_0_r.
    pose proof (display_podcast_run p k s) as Hp.
    destruct (podcast_lines k p) as [lines|].
    + specialize (IH (S k) (log s lines)).
      destruct (podcasts_lines (S k) l) as [more|];
        unfold mbind, M_bind; rewrite Hp.
      * rewrite IH. unfold log. cbn. now rewrite <- app_assoc.
      * exact IH.
    + destruct Hp as [e He]. exists e. unfold mbind, M_bind.
      destruct (display_podcast p k s) as [r s']. cbn in He. now subst r.
Qed.

(** X7. For a line of ASCII text that is not the quit command: when the
    search gives a list that is not empty, the loop body prints the
    heading and calls [display_podcast] on the first [min(5, N)] podcasts,
    in the order of the list and numbered from 1. When each of them can be
    displayed, their lines follow the heading and the loop waits for a
    selection, keeping the whole list. When one of them cannot (it is no
    dict, its description cannot be sliced, or its categories are no dict
    of strings), the loop body ends on the exception of that call and no
    selection is asked for. *)
Theorem first_five_are_displayed (line : string) (s : state) (l : list json) :
  Py.isascii line = true ->
  Py.lower (Py.strip line) ≠ "q" ->
  (search_podcasts (Py.strip line) (asked line s)).1 = Py.Return (JArr l) ->
  l ≠ [] ->
  (∀ lines,
     podcasts_lines 0 (take 5 l) = Some lines ->
     search_iteration line s
     = (Py.Return (Continue (AwaitingSelection l)),
        log (log (search_podcasts (Py.strip line) (asked line s)).2
                 [Stdout (nl +:+ "Top 5 Results:")])
            lines))
  ∧ (podcasts_lines 0 (take 5 l) = None ->
     ∃ e, (search_iteration line s).1 = Py.Raise e)
  ∧ length (take 5 l) = Nat.min 5 (length l).
Proof.
  intros _ Hq Hv Hne.
  assert (Hrun : search_iteration line s
            = (for_each (imap (fun i p => (0 + i, p)%nat) (take 5 l))
                        (fun ip => display_podcast ip.2 ip.1) ;;
               mret (Continue (AwaitingSelection l)))
                (log (search_podcasts (Py.strip line) (asked line s)).2
                     [Stdout (nl +:+ "Top 5 Results:")])).
  { rewrite search_iteration_run by exact Hq.
    unfold mbind at 1. unfold M_bind at 1.
    destruct (search_podcasts (Py.strip line) (asked line s)) as [r s'].
    cbn in Hv. subst r. cbn [truthy].
    rewrite bool_decide_eq_false_2 by exact Hne. reflexivity. }
  pose proof (display_all (take 5 l) 0%nat
                (log (search_podcasts (Py.strip line) (asked line s)).2
                     [Stdout (nl +:+ "Top 5 Results:")])) as Hd.
  split; [|split; [|apply length_take]].
  - intros lines Hl. rewrite Hl in Hd. rewrite Hrun.
    unfold mbind at 1. unfold M_bind at 1. now rewrite Hd.
  - intros Hl. rewrite Hl in Hd. destruct Hd as [e He]. exists e. rewrite Hrun.
    unfold mbind at 1. unfold M_bind at 1.
    destruct (for_each _ _ _) as [r s']. cbn in He. now subst r.
Qed.

(** X8. Selecting a podcast that has no [id] ends the loop body with a
    [KeyError], after the title line and before any request: the
    [except ValueError] clause of the inner loop does not take it, so it
    leaves [main]. *)
Theorem selection_without_id_raises
    (podcasts : list json) (line : string) (s : state) (n : Z)
    (d : list (string * json)) :
  Py.int (Py.strip line) = Some n ->
  1 <= n <= Z.min 5 (Z.of_nat (length podcasts)) ->
  podcasts !! Z.to_nat (n - 1) = Some (JObj d) ->
  dict_get "id" d = None ->
  ∃ message,
    selection_iteration podcasts line s
    = (Py.Raise (Py.Exn Py.KeyError message),
       log (log s [Input selection_prompt])
           [PrintLatest (default JNull (dict_get "title" d))]).
Proof.
  intros Hn Hin Hp Hid. eexists. rewrite (selection_number _ _ _ _ _ _ n Hn).
  assert ((0 <=? n - 1) && (n - 1 <? Z.min 5 (Z.of_nat (length podcasts))) = true)
    as ->.
  { apply andb_true_iff. split; [apply Z.leb_le|apply Z.ltb_lt]; lia. }
  unfold try_except, PodcastSearch.select. rewrite Hp.
  unfold mbind, M_bind, lift, emit. cbn. rewrite Hid. reflexivity.
Qed.

Lemma emits_emit (e : event) :
  discovery_event API_KEY API_SECRET e -> emits (emit e).
Proof. intros He s. exists [e]. split; [reflexivity|]. now constructor. Qed.

Lemma emits_get_headers {A} (k : Requests.headers -> M state A) :
  (∀ t, emits (k (sign t))) -> emits (get_headers ≫= k).
Proof.
  intros Hk s.
  exact (Hk (time_time W (clock_reads s)) (State (S (clock_reads s)) (trace s))).
Qed.

Lemma emits_degrade (what : string) (body : M state json) :
  emits body -> emits (degrade what body).
Proof.
  intros Hb. unfold degrade. apply emits_try_except; [exact Hb|].
  repeat (apply Forall_cons; split; [intros ?|]); try apply Forall_nil_2;
    cbn; unfold eprint;
    repeat (apply emits_bind; [apply emits_emit; exact I|intros ?]);
    apply emits_ret.
Qed.

Lemma emits_search_podcasts (term : string) : emits (search_podcasts term).
Proof.
  unfold PodcastSearch.search_podcasts. apply emits_degrade.
  apply emits_bind; [apply emits_emit; exact I|intros _].
  apply emits_get_headers. intros t0.
  apply emits_bind; [apply emits_emit; exact I|intros _].
  apply emits_get_headers. intros t1.
  apply emits_bind; [apply emits_emit; exists t1; eauto|intros _].
  emits.
Qed.

Lemma emits_get_episodes (feed_id : json) : emits (get_episodes feed_id).
Proof.
  unfold PodcastSearch.get_episodes. apply emits_degrade.
  apply emits_get_headers. intros t.
  apply emits_bind; [apply emits_emit; exists t; eauto|intros _].
  emits.
Qed.

Ltac printing :=
  repeat first
    [ apply emits_emit; exact I
    | apply emits_ret
    | apply emits_raise
    | apply emits_lift
    | apply emits_bind; [|intros ?]
    | match goal with
      | |- EventFacts.emits _ _ (match ?x with _ => _ end) => destruct x
      | |- EventFacts.emits _ _ (if ?x then _ else _) => destruct x
      end ].

Lemma emits_display_podcast (p : json) (i : nat) : emits (display_podcast p i).
Proof. unfold PodcastSearch.display_podcast, print. printing. Qed.

Lemma emits_display_episode (e : json) : emits (display_episode e).
Proof. unfold PodcastSearch.display_episode, print. printing. Qed.

Lemma emits_search_iteration (line : string) : emits (search_iteration line).
Proof.
  unfold PodcastSearch.search_iteration, PodcastSearch.searching, input, print.
  repeat first
    [ apply emits_search_podcasts
    | apply emits_display_podcast
    | apply emits_emit; exact I
    | apply emits_ret
    | apply emits_raise
    | apply emits_for_each; intros ?
    | apply emits_bind; [|intros ?]
    | match goal with
      | |- EventFacts.emits _ _ (match ?x with _ => _ end) => destruct x
      | |- EventFacts.emits _ _ (if ?x then _ else _) => destruct x
      end ].
Qed.

Lemma emits_selection_iteration (podcasts : list json) (line : string) :
  emits (selection_iteration podcasts line).
Proof.
  unfold PodcastSearch.selection_iteration, PodcastSearch.select, input, print.
  apply emits_try_except.
  2: { apply Forall_cons; split; [intros ?|apply Forall_nil_2]. cbn.
       apply emits_bind; [apply emits_emit; exact I|intros ?]. apply emits_ret. }
  repeat first
    [ apply emits_get_episodes
    | apply emits_display_episode
    | apply emits_emit; exact I
    | apply emits_ret
    | apply emits_raise
    | apply emits_lift
    | apply emits_for_each; intros ?
    | apply emits_bind; [|intros ?]
    | match goal with
      | |- EventFacts.emits _ _ (match ?x with _ => _ end) => destruct x
      | |- EventFacts.emits _ _ (if ?x then _ else _) => destruct x
      end ].
Qed.

Lemma emits_loop (stdin : list string) : ∀ m, emits (loop stdin m).
Proof.
  induction stdin as [|line rest IH]; intros m; cbn [PodcastSearch.loop].
  - apply emits_bind; [apply emits_emit; exact I|intros _]. apply emits_raise.
  - apply emits_bind.
    + destruct m; [apply emits_search_iteration|apply emits_selection_iteration].
    + intros [|m']; [apply emits_ret|apply IH].
Qed.

(** X9. Every request that a run of the discovery [main] sends is a
    catalog request made with a key: it goes to the search URL or to the
    episodes URL, is not streamed, has a timeout of 10 seconds and carries
    the four headers signed at some reading of the clock. With a missing
    or empty key no request is sent at all. *)
Theorem discovery_sends_catalog_requests_only
    (stdin : list string) (r : Requests.request) :
  HttpGet r ∈ trace (main stdin).2 ->
  missing API_KEY = false
  ∧ Requests.req_timeout r = Some 10
  ∧ Requests.req_stream r = false
  ∧ (Requests.req_url r = BASE_URL +:+ "/search/byterm"
     ∨ Requests.req_url r = BASE_URL +:+ "/episodes/byfeedid")
  ∧ ∃ t, Requests.req_headers r = sign t.
Proof.
  intros Hin. destruct (missing API_KEY) eqn:Hk.
  { rewrite (missing_key_is_fatal API_KEY API_SECRET W stdin Hk) in Hin. cbn in Hin.
    apply list_elem_of_singleton in Hin. discriminate Hin. }
  split; [reflexivity|].
  rewrite (main_runs_loop API_KEY API_SECRET W stdin Hk) in Hin.
  destruct (emits_loop stdin AwaitingSearchTerm (State 0 [])) as (events & He & Hp).
  rewrite He in Hin. cbn in Hin.
  rewrite Forall_forall in Hp. specialize (Hp _ Hin).
  destruct Hp as [t [[term ->]|[feed_id ->]]]; cbn; eauto 10.
Qed.

(** The four lines of [display_episode(e)], when [e] can be displayed: a
    dict whose date, if it has one, is a number that [format_date] takes,
    and whose duration, if it has one, is a number. *)
Definition episode_lines (e : json) : option (list event) :=
  match e with
  | JObj d =>
      match format_date (default (JNum 0) (dict_get "datePublished" d)),
            floordiv (default (JNum 0) (dict_get "duration" d)) 60 with
      | Py.Return date, Py.Return minutes =>
          Some [Print [Text (nl +:+ "Title: ");
                       Str (default (JStr "Unknown Title") (dict_get "title" d))];
                Stdout ("Date: " +:+ date);
                Stdout ("Duration: " +:+ Py.str minutes +:+ " minutes");
                Print [Text "Download URL: ";
                       Str (default (JStr "No URL available")
                                    (dict_get "enclosureUrl" d))]]
      | _, _ => None
      end
  | _ => None
  end.

(** The lines of the episodes of a list, when all of them can be
    displayed. *)
Fixpoint episodes_lines (l : list json) : option (list event) :=
  match l with
  | [] => Some []
  | e :: l' =>
      match episode_lines e, episodes_lines l' with
      | Some lines, Some more => Some (lines ++ more)
      | _, _ => None
      end
  end.

Lemma display_episode_run (e : json) (s : state) :
  match episode_lines e with
  | Some lines => display_episode e s = (Py.Return tt, log s lines)
  | None => ∃ x, (display_episode e s).1 = Py.Raise x
  end.
Proof.
  unfold PodcastSearch.display_episode, episode_lines.
  destruct e as [| | | | |d]; try (eexists; reflexivity).
  unfold mbind, M_bind, lift, print, emit. cbn.
  destruct (format_date (default (JNum 0) (dict_get "datePublished" d)))
    as [date|x]; cbn; [|eexists; reflexivity].
  destruct (floordiv (default (JNum 0) (dict_get "duration" d)) 60)
    as [minutes|x]; cbn; [|eexists; reflexivity].
  unfold log. cbn. now rewrite <- !app_assoc.
Qed.

Lemma display_episodes (l : list json) :
  ∀ s : state,
    match episodes_lines l with
    | Some lines => for_each l display_episode s = (Py.Return tt, log s lines)
    | None => ∃ x, (for_each l display_episode s).1 = Py.Raise x
    end.
Proof.
  induction l as [|e l IH]; intros s.
  - cbn. unfold log. rewrite app_nil_r. now destruct s.
  - cbn [for_each episodes_lines].
    pose proof (display_episode_run e s) as He.
    destruct (episode_lines e) as [lines|].
    + specialize (IH (log s lines)).
      destruct (episodes_lines l) as [more|]; unfold mbind, M_bind; rewrite He.
      * rewrite IH. unfold log. cbn. now rewrite <- app_assoc.
      * exact IH.
    + destruct He as [x Hx]. exists x. unfold mbind, M_bind.
      destruct (display_episode e s) as [r s']. cbn in Hx. now subst r.
Qed.

(** An episode whose date [format_date] refuses: the title line is
    printed, then the exception of [format_date] leaves the call. *)
Lemma display_episode_refused_date (d : dict) (x : Py.exn) (s : state) :
  format_date (default (JNum 0) (dict_get "datePublished" d)) = Py.Raise x ->
  display_episode (JObj d) s
  = (Py.Raise x,
     log s [Print [Text (nl +:+ "Title: ");
                   Str (default (JStr "Unknown Title") (dict_get "title" d))]]).
Proof.
  intros Hx. unfold PodcastSearch.display_episode, mbind, M_bind, lift, emit. cbn.
  now rewrite Hx.
Qed.

Lemma for_each_app {A} (l1 l2 : list A) (body : A -> M state unit) (s : state) :
  for_each (l1 ++ l2) body s = (for_each l1 body ;; for_each l2 body) s.
Proof.
  revert s. induction l1 as [|a l1 IH]; intros s; [reflexivity|].
  cbn [app for_each]. unfold mbind, M_bind.
  destruct (body a s) as [[[]|e] s']; [|reflexivity]. apply IH.
Qed.

(** The inner loop body for a number that selects a podcast with an id:
    what is left of it once the episodes were fetched. *)
Lemma selection_fetches (podcasts : list json) (line : string) (s : state) (n : Z)
    (d : list (string * json)) (feed_id : json) (l : list json) :
  let s1 := log (log s [Input selection_prompt])
                [PrintLatest (default JNull (dict_get "title" d))] in
  Py.int (Py.strip line) = Some n ->
  1 <= n <= Z.min 5 (Z.of_nat (length podcasts)) ->
  podcasts !! Z.to_nat (n - 1) = Some (JObj d) ->
  dict_get "id" d = Some feed_id ->
  (get_episodes feed_id s1).1 = Py.Return (JArr l) ->
  selection_iteration podcasts line s
  = try_except
      (for_each l display_episode ;; mret (Continue AwaitingSearchTerm))
      [(Py.ValueError, fun _ =>
          print "Please enter a valid number or 'b' to go back." ;;
          mret (Continue (AwaitingSelection podcasts)))]
      (get_episodes feed_id s1).2.
Proof.
  intros s1 Hn Hin Hp Hid He. rewrite (selection_number _ _ _ _ _ _ n Hn).
  assert ((0 <=? n - 1) && (n - 1 <? Z.min 5 (Z.of_nat (length podcasts))) = true)
    as ->.
  { apply andb_true_iff. split; [apply Z.leb_le|apply Z.ltb_lt]; lia. }
  unfold try_except at 1 2.
  assert (Hsel : select podcasts (n - 1) (log s [Input selection_prompt])
                 = (for_each l display_episode ;; mret (Continue AwaitingSearchTerm))
                     (get_episodes feed_id s1).2).
  { unfold PodcastSearch.select. rewrite Hp. cbn [get].
    unfold mbind at 1. unfold M_bind at 1. unfold lift at 1.
    unfold mbind at 1. unfold M_bind at 1. cbn [emit].
    unfold mbind at 1. unfold M_bind at 1. unfold lift at 1.
    cbn [getitem]. rewrite Hid.
    unfold mbind at 1. unfold M_bind at 1.
    change (State (clock_reads (log s [Input selection_prompt]))
                  (trace (log s [Input selection_prompt])
                   ++ [PrintLatest (default JNull (dict_get "title" d))]))
      with s1.
    destruct (get_episodes feed_id s1) as [r s2]. cbn [fst snd] in He |- *. subst r.
    reflexivity. }
  now rewrite Hsel.
Qed.

(** X23. After a valid selection, when [get_episodes] gives a list, the
    loop body calls [display_episode] on its episodes, in order. When each
    of them can be displayed, their lines are printed and the loop leads
    back to the search prompt, not to the selection; with the empty list,
    which is also what every degraded failure of the catalog gives,
    nothing is printed. When [format_date] refuses the date of an episode
    with a [ValueError] (a date beyond the year 9999, say), the episodes
    before it and its title line are printed, and the
    [except ValueError] clause of the inner loop takes the exception: the
    loop says that the number is not valid and asks for the selection
    again. *)
Theorem selection_displays_the_episodes
    (podcasts : list json) (line : string) (s : state) (n : Z)
    (d : list (string * json)) (feed_id : json) (l : list json) :
  let s1 := log (log s [Input selection_prompt])
                [PrintLatest (default JNull (dict_get "title" d))] in
  Py.int (Py.strip line) = Some n ->
  1 <= n <= Z.min 5 (Z.of_nat (length podcasts)) ->
  podcasts !! Z.to_nat (n - 1) = Some (JObj d) ->
  dict_get "id" d = Some feed_id ->
  (get_episodes feed_id s1).1 = Py.Return (JArr l) ->
  (∀ lines,
     episodes_lines l = Some lines ->
     selection_iteration podcasts line s
     = (Py.Return (Continue AwaitingSearchTerm),
        log (get_episodes feed_id s1).2 lines))
  ∧ (∀ before ep after lines x,
       l = before ++ JObj ep :: after ->
       episodes_lines before = Some lines ->
       format_date (default (JNum 0) (dict_get "datePublished" ep)) = Py.Raise x ->
       Py.isinstance x Py.ValueError = true ->
       selection_iteration podcasts line s
       = (Py.Return (Continue (AwaitingSelection podcasts)),
          log (get_episodes feed_id s1).2
              (lines
               ++ [Print [Text (nl +:+ "Title: ");
                          Str (default (JStr "Unknown Title") (dict_get "title" ep))];
                   Stdout "Please enter a valid number or 'b' to go back."]))).
Proof.
  intros s1 Hn Hin Hp Hid He.
  rewrite (selection_fetches podcasts line s n d feed_id l Hn Hin Hp Hid He).
  fold s1. set (s2 := (get_episodes feed_id s1).2). split.
  - intros lines Hl. pose proof (display_episodes l s2) as Hd. rewrite Hl in Hd.
    unfold try_except, mbind, M_bind. now rewrite Hd.
  - intros before ep after lines x -> Hl Hx Hv.
    pose proof (display_episodes before s2) as Hd. rewrite Hl in Hd.
    unfold try_except. unfold mbind at 1. unfold M_bind at 1.
    rewrite for_each_app. unfold mbind at 1. unfold M_bind at 1. rewrite Hd.
    cbn [for_each]. unfold mbind at 1. unfold M_bind at 1.
    rewrite (display_episode_refused_date ep x _ Hx). cbn [handler_for].
    rewrite Hv. unfold print, emit, mbind, M_bind, mret, M_ret, log. cbn.
    now rewrite <- !app_assoc.
Qed.

(** A computation that, when it returns, returns a value in [Q]. *)
Definition returns {A} (Q : A -> Prop) (c : M state A) : Prop :=
  ∀ s a, (c s).1 = Py.Return a -> Q a.

Lemma returns_bind {A B} (Q : B -> Prop) (c : M state A) (k : A -> M state B) :
  (∀ a, returns Q (k a)) -> returns Q (c ≫= k).
Proof.
  intros Hk s b. unfold mbind, M_bind.
  destruct (c s) as [[a|e] s']; [apply Hk|discriminate].
Qed.

Lemma returns_ret {A} (Q : A -> Prop) (a : A) : Q a -> returns Q (mret a).
Proof. intros Ha s b [= <-]. exact Ha. Qed.

Lemma returns_raise {A} (Q : A -> Prop) (e : Py.exn) : returns Q (raise e).
Proof. intros s b. discriminate. Qed.

Lemma returns_try_except {A} (Q : A -> Prop) (body : M state A)
    (clauses : list (Py.exn_class * (Py.exn -> M state A))) :
  returns Q body -> Forall (fun ch => ∀ e, returns Q (ch.2 e)) clauses ->
  returns Q (try_except body clauses).
Proof.
  intros Hb Hc s a. unfold try_except. specialize (Hb s).
  destruct (body s) as [[b|e] s']; cbn in *; [apply Hb|].
  assert (Hh : ∀ h, handler_for e clauses = Some h -> returns Q h).
  { clear Hb. induction Hc as [|[cls h0] rest H0 _ IH]; cbn; [discriminate|].
    intros h. destruct (Py.isinstance e cls); [|exact (IH h)].
    intros [= <-]. apply H0. }
  destruct (handler_for e clauses) as [h|]; [|discriminate].
  now apply Hh.
Qed.

Definition goes_on (n : next) : Prop := n ≠ Break.

Lemma selection_goes_on (podcasts : list json) (line : string) :
  returns goes_on (selection_iteration podcasts line).
Proof.
  unfold PodcastSearch.selection_iteration, PodcastSearch.select.
  apply returns_try_except.
  2: { apply Forall_cons; split; [intros ?|apply Forall_nil_2]. cbn.
       apply returns_bind. intros _. apply returns_ret. discriminate. }
  apply returns_bind. intros typed.
  destruct (bool_decide _); [apply returns_ret; discriminate|].
  destruct (Py.int _); [|apply returns_raise].
  destruct (_ && _).
  - destruct (podcasts !! _); [|apply returns_raise].
    repeat (apply returns_bind; intros ?). apply returns_ret. discriminate.
  - apply returns_bind. intros _. apply returns_ret. discriminate.
Qed.

Lemma loop_returns_after_quit (stdin : list string) :
  ∀ (m : mode) (s : state),
    (loop stdin m s).1 = Py.Return tt ->
    ∃ line, line ∈ stdin ∧ Py.lower (Py.strip line) = "q".
Proof.
  induction stdin as [|line rest IH]; intros m s; cbn [PodcastSearch.loop].
  - unfold mbind, M_bind, emit, raise. cbn. discriminate.
  - unfold mbind at 1. unfold M_bind at 1. destruct m as [|podcasts].
    + destruct (decide (Py.lower (Py.strip line) = "q")) as [Hq|Hq].
      { intros _. exists line. split; [apply list_elem_of_here|exact Hq]. }
      pose proof (searching_not_break API_KEY API_SECRET W (Py.strip line)
                    (log s [Input search_prompt])) as Hnb.
      rewrite (search_iteration_searches API_KEY API_SECRET W line s Hq).
      destruct (PodcastSearch.searching _ _ _ _ _) as [[[|m']|e] s']; cbn in *;
        [now destruct Hnb| |discriminate].
      intros Hr. destruct (IH m' s' Hr) as (l & Hl & Hq').
      exists l. split; [now apply list_elem_of_further|exact Hq'].
    + pose proof (selection_goes_on podcasts line s) as Hgo.
      destruct (selection_iteration podcasts line s) as [[[|m']|e] s']; cbn in *;
        [now destruct (Hgo Break eq_refl)| |discriminate].
      intros Hr. destruct (IH m' s' Hr) as (l & Hl & Hq').
      exists l. split; [now apply list_elem_of_further|exact Hq'].
Qed.

(** X24. The discovery [main] calls [sys.exit(1)] exactly when the key is
    missing or empty: with a key it ends by returning or on an exception
    that nothing catches, such as [EOFError] when standard input is used
    up. On lines of ASCII text it returns only when the key is there and
    some line of standard input was [q] or [Q]. *)
Theorem discovery_exit_codes (stdin : list string) :
  ((main stdin).1 = Exit 1 ↔ missing API_KEY = true)
  ∧ (Forall (fun line => Py.isascii line = true) stdin ->
     (main stdin).1 = Exit 0 ->
     missing API_KEY = false
     ∧ ∃ line, line ∈ stdin ∧ Py.lower (Py.strip line) = "q")
  ∧ (missing API_KEY = false ->
     (main stdin).1 = Exit 0 ∨ ∃ e, (main stdin).1 = Uncaught e).
Proof.
  unfold PodcastSearch.main. destruct (missing API_KEY) eqn:Hk.
  - split; [split; reflexivity|]. split; discriminate.
  - pose proof (loop_returns_after_quit stdin AwaitingSearchTerm (State 0 [])) as Hq.
    destruct (PodcastSearch.loop _ _ _ _ _ _) as [[[]|e] s']; cbn in *.
    + split; [split; discriminate|]. split; [|now left].
      intros _ _. split; [reflexivity|]. now apply Hq.
    + split; [split; discriminate|]. split; [discriminate|]. right. now exists e.
Qed.

End Steps.

End DiscoveryRuns.

(* ===================================================================== *)
(** * What the session hands back *)
(* ===================================================================== *)

Module RetryRuns.

Import Urllib3 RetryFacts.

(** The attempts that use up a retry whatever the headers say: a failure
    without a response, or a status of the [status_forcelist]. *)
Definition forced (a : attempt) : Prop :=
  match a with
  | Fail _ => True
  | Respond st _ => st ∈ [429; 500; 502; 503; 504]
  end.

Lemma is_retry_spent (h : list attempt) (st : Z) (ra : bool) :
  is_retry (policy 0 h) st ra = bool_decide (st ∈ [429; 500; 502; 503; 504]).
Proof.
  unfold is_retry. cbn.
  now destruct (bool_decide (st ∈ [429; 500; 502; 503; 504])).
Qed.

Lemma reply_policy (script : list attempt) :
  ∀ (t : Z) (h : list attempt), 0 <= t ->
    (∀ st, result (urlopen (policy t h) script) = Some (Response st) ->
           st ∉ [429; 500; 502; 503; 504])
    ∧ (∀ a, result (urlopen (policy t h) script) = Some (MaxRetryError a) ->
            attempts (urlopen (policy t h) script) = S (Z.to_nat t) ∧ forced a).
Proof.
  induction script as [|a rest IH]; intros t h Ht; [split; intros ?; discriminate|].
  destruct (decide (t = 0)) as [->|Hne].
  - destruct a as [e|st ra]; cbn [urlopen].
    + rewrite increment_policy. cbn. split; [discriminate|].
      intros a [= <-]. split; [reflexivity|exact I].
    + rewrite is_retry_spent.
      destruct (bool_decide (st ∈ [429; 500; 502; 503; 504])) eqn:Hst.
      * rewrite increment_policy. cbn. split; [discriminate|].
        intros a [= <-]. split; [reflexivity|]. now apply bool_decide_eq_true in Hst.
      * cbn. split; [|discriminate].
        intros st' [= <-]. now apply bool_decide_eq_false in Hst.
  - assert (Hge : (t - 1 <? 0) = false) by (apply Z.ltb_ge; lia).
    destruct (IH (t - 1) (h ++ [a]) ltac:(lia)) as [IHr IHm].
    replace (S (Z.to_nat t)) with (S (S (Z.to_nat (t - 1)))) by lia.
    destruct a as [e|st ra]; cbn [urlopen].
    + rewrite increment_policy, Hge. cbn. split; [exact IHr|].
      intros a Ha. destruct (IHm a Ha) as [-> Hf]. auto.
    + rewrite is_retry_policy by assumption.
      destruct (retryable (Respond st ra)) eqn:Hr.
      * rewrite increment_policy, Hge. cbn. split; [exact IHr|].
        intros a Ha. destruct (IHm a Ha) as [-> Hf]. auto.
      * cbn. split; [|discriminate]. intros st' [= <-].
        cbn in Hr. apply orb_false_iff in Hr as [Hr _].
        now apply bool_decide_eq_false in Hr.
Qed.

(** X10. The session never hands a response with status 429, 500, 502,
    503 or 504 back to its caller: such a status either leads to another
    attempt or, when the retries are used up, to [MaxRetryError]. That
    error is raised only at the fourth attempt, and only for a failure
    without a response or a status of that list. *)
Theorem forced_statuses_never_reach_the_caller (script : list attempt) :
  let r := urlopen PodcastSearch.retry_strategy script in
  (∀ st, result r = Some (Response st) -> st ∉ [429; 500; 502; 503; 504])
  ∧ (∀ a, result r = Some (MaxRetryError a) -> attempts r = 4%nat ∧ forced a).
Proof.
  intros r. subst r. rewrite retry_strategy_policy.
  exact (reply_policy script 3 [] ltac:(lia)).
Qed.

End RetryRuns.

(* ===================================================================== *)
(** * The pipeline, stage by stage *)
(* ===================================================================== *)

Module PipelineRuns.

Import Json IO Eff TranscribePodcast PipelineFacts EventFacts.

(** The requests in a list of events. *)
Definition requests (events : list event) : list Requests.request :=
  omap (fun e => match e with HttpGet r => Some r | _ => None end) events.

Definition no_request (e : event) : Prop :=
  match e with HttpGet _ => False | _ => True end.

Lemma requests_none (events : list event) :
  Forall no_request events -> requests events = [].
Proof.
  unfold requests. induction 1 as [|e l He _ IH]; [reflexivity|].
  destruct e; cbn in *; try exact IH. destruct He.
Qed.


Section Stages.

Variable W : world.

Local Abbreviation download_audio := (download_audio W).
Local Abbreviation download_body := (download_body W).
Local Abbreviation transcribe_audio := (transcribe_audio W).
Local Abbreviation transcribe_body := (transcribe_body W).
Local Abbreviation write_chunks := (write_chunks W).
Local Abbreviation main := (main W).
Local Abbreviation run := (run W).
Local Abbreviation pipeline := (pipeline W).
Local Abbreviation silent := (EventFacts.emits trace no_request).

(** What stops [download_audio] before it opens the destination: an
    exception of [requests.get], an error status, or a [content-length]
    that is not a number; and a destination that cannot be opened. *)
Definition stops_before_writing (o : Py.result Requests.response)
    (opened : option Py.exn) : bool :=
  match o with
  | Py.Raise e => Py.isinstance e Py.Exception
  | Py.Return r =>
      match Requests.raise_for_status r, content_length r with
      | Py.Raise _, _ => true
      | Py.Return _, Py.Raise _ => true
      | Py.Return _, Py.Return _ =>
          match opened with
          | Some e => Py.isinstance e Py.Exception
          | None => false
          end
      end
  end.

Lemma raise_for_status_exception (r : Requests.response) (e : Py.exn) :
  Requests.raise_for_status r = Py.Raise e -> Py.isinstance e Py.Exception = true.
Proof.
  unfold Requests.raise_for_status. destruct (_ && _); [|discriminate].
  now intros [= <-].
Qed.

Lemma content_length_exception (r : Requests.response) (e : Py.exn) :
  content_length r = Py.Raise e -> Py.isinstance e Py.Exception = true.
Proof.
  unfold content_length. destruct (Requests.header_get _ _); [|discriminate].
  destruct (Py.int_latin1 _); [discriminate|]. now intros [= <-].
Qed.

(** X11. When [requests.get] raises, the status is 4xx or 5xx, the
    [content-length] header is not a number or the destination cannot be
    opened, [download_audio] returns [False] after one line on standard
    error, and no file is created or changed. *)
Theorem refused_download_touches_no_file (url output_path : string) (s : state) :
  stops_before_writing (requests_get W (download_request url))
                       (open_error W output_path) = true ->
  ∃ message,
    download_audio url output_path s
    = (Py.Return false,
       State (fs s)
             (trace s ++ [HttpGet (download_request url);
                          Stderr ("Error downloading file: " +:+ message)])).
Proof.
  intros Hstop.
  assert (Hbody : ∃ e, download_body url output_path s
                       = (Py.Raise e, State (fs s)
                                        (trace s ++ [HttpGet (download_request url)]))
                       ∧ Py.isinstance e Py.Exception = true).
  { unfold TranscribePodcast.download_body, mbind, M_bind, emit, lift. cbn.
    unfold stops_before_writing in Hstop.
    destruct (requests_get W (download_request url)) as [r|e]; cbn; [|eauto].
    destruct (Requests.raise_for_status r) as [[]|e] eqn:Hs; cbn.
    2: { pose proof (raise_for_status_exception _ _ Hs). eauto. }
    destruct (content_length r) as [t|e] eqn:Hc; cbn.
    2: { pose proof (content_length_exception _ _ Hc). eauto. }
    unfold open_for_writing, raise.
    destruct (open_error W output_path) as [e|]; [eauto|discriminate]. }
  destruct Hbody as (e & Hb & He). exists (Py.exn_str e).
  unfold TranscribePodcast.download_audio, try_except. rewrite Hb. cbn.
  rewrite He. unfold eprint, emit, mbind, M_bind, mret, M_ret. cbn.
  now rewrite <- app_assoc.
Qed.



Lemma download_audio_raises (url output_path : string) (s : state) (e : Py.exn) :
  (download_audio url output_path s).1 = Py.Raise e ->
  Py.isinstance e Py.Exception = false.
Proof.
  unfold TranscribePodcast.download_audio.
  destruct (except_exception_run (download_body url output_path)
              (fun e => "Error downloading file: " +:+ Py.exn_str e) s)
    as [[-> Hno]|(e' & _ & _ & ->)]; [apply Hno|discriminate].
Qed.

Lemma transcribe_audio_raises (audio_path output_path model_name : string)
    (s : state) (e : Py.exn) :
  (transcribe_audio audio_path output_path model_name s).1 = Py.Raise e ->
  Py.isinstance e Py.Exception = false.
Proof.
  unfold TranscribePodcast.transcribe_audio.
  destruct (except_exception_run (transcribe_body audio_path output_path model_name)
              (fun e => "Error during transcription: " +:+ Py.exn_str e) s)
    as [[-> Hno]|(e' & _ & _ & ->)]; [apply Hno|discriminate].
Qed.

(** X13. No [Exception] leaves [download_audio] or [transcribe_audio]:
    whatever fails inside, from the network to the file system and the
    model, comes back as [False]. Only what is not an [Exception], such as
    [KeyboardInterrupt] or [SystemExit], passes through. *)
Theorem stages_catch_every_exception
    (url audio_path output_path model_name : string) (s : state) (e : Py.exn) :
  ((download_audio url output_path s).1 = Py.Raise e ->
   Py.isinstance e Py.Exception = false)
  ∧ ((transcribe_audio audio_path output_path model_name s).1 = Py.Raise e ->
     Py.isinstance e Py.Exception = false).
Proof. split; [apply download_audio_raises|apply transcribe_audio_raises]. Qed.

(** [transcribe_audio] when every step works. *)
Lemma transcribe_audio_stores (audio_path output_path model_name : string)
    (s : state) (result : json) (text : string) :
  load_model W model_name = None ->
  transcribe W model_name (fs s !! file_of W audio_path) = Py.Return result ->
  getitem result "text" = Py.Return (JStr text) ->
  open_error W output_path = None ->
  write_error W output_path [] (Py.encode text) = None ->
  transcribe_audio audio_path output_path model_name s
  = (Py.Return true,
     State (<[file_of W output_path := Py.encode text]> (fs s))
           (trace s ++ [Stdout "Loading Whisper model...";
                        Stdout "Transcribing audio... This may take a while."])).
Proof.
  intros Hl Ht Hg Ho Hw.
  unfold TranscribePodcast.transcribe_audio, try_except,
    TranscribePodcast.transcribe_body, mbind, M_bind, print, emit, lift. cbn.
  rewrite Hl. cbn. rewrite Ht. cbn. unfold open_for_writing. rewrite Ho. cbn.
  rewrite Hg. cbn. unfold TranscribePodcast.file_write. cbn.
  rewrite lookup_insert_eq. cbn. rewrite Hw. cbn.
  now rewrite insert_insert_eq, <- app_assoc.
Qed.

(** X14. When the model loads, the transcription gives a dict whose
    [text] is a string, and the output opens and takes the write,
    [transcribe_audio] returns [True] and the file that the output path
    names holds the UTF-8 bytes of that text and nothing else: earlier
    content is replaced and no other file changes. *)
Theorem transcript_is_stored_verbatim
    (audio_path output_path model_name : string) (s : state) (result : json)
    (text : string) :
  load_model W model_name = None ->
  transcribe W model_name (fs s !! file_of W audio_path) = Py.Return result ->
  getitem result "text" = Py.Return (JStr text) ->
  open_error W output_path = None ->
  write_error W output_path [] (Py.encode text) = None ->
  (transcribe_audio audio_path output_path model_name s).1 = Py.Return true
  ∧ fs (transcribe_audio audio_path output_path model_name s).2
       !! file_of W output_path
    = Some (Py.encode text)
  ∧ ∀ other, other ≠ file_of W output_path ->
      fs (transcribe_audio audio_path output_path model_name s).2 !! other
      = fs s !! other.
Proof.
  intros Hl Ht Hg Ho Hw.
  rewrite (transcribe_audio_stores _ _ _ _ _ _ Hl Ht Hg Ho Hw). cbn.
  split; [reflexivity|]. split; [apply lookup_insert_eq|].
  intros other Hne. now apply lookup_insert_ne.
Qed.

(** X15. When the model cannot be loaded or the transcription fails,
    [transcribe_audio] returns [False] and no file is created or changed:
    a transcript of an earlier run stays as it was. *)
Theorem failed_transcription_touches_no_file
    (audio_path output_path model_name : string) (s : state) (e : Py.exn) :
  Py.isinstance e Py.Exception = true ->
  (load_model W model_name = Some e ->
   transcribe_audio audio_path output_path model_name s
   = (Py.Return false,
      State (fs s)
            (trace s ++ [Stdout "Loading Whisper model...";
                         Stderr ("Error during transcription: " +:+ Py.exn_str e)])))
  ∧ (load_model W model_name = None ->
     transcribe W model_name (fs s !! file_of W audio_path) = Py.Raise e ->
     transcribe_audio audio_path output_path model_name s
     = (Py.Return false,
        State (fs s)
              (trace s ++ [Stdout "Loading Whisper model...";
                           Stdout "Transcribing audio... This may take a while.";
                           Stderr ("Error during transcription: "
                                   +:+ Py.exn_str e)]))).
Proof.
  intros He. split.
  - intros Hl.
    unfold TranscribePodcast.transcribe_audio, try_except,
      TranscribePodcast.transcribe_body, mbind, M_bind, print, emit, raise. cbn.
    rewrite Hl. cbn. rewrite He. cbn. now rewrite <- app_assoc.
  - intros Hl Ht.
    unfold TranscribePodcast.transcribe_audio, try_except,
      TranscribePodcast.transcribe_body, mbind, M_bind, print, emit, lift. cbn.
    rewrite Hl. cbn. rewrite Ht. cbn. rewrite He. cbn. now rewrite <- !app_assoc.
Qed.

(** X16. When the transcription gives a result without a [text] that is
    a string (the key is missing, or its value is not a string),
    [transcribe_audio] returns [False], but the output file was opened
    before the text was looked up: it is left empty, and what it held
    before is lost. *)
Theorem result_without_text_empties_the_output
    (audio_path output_path model_name : string) (s : state) (result : json) :
  load_model W model_name = None ->
  transcribe W model_name (fs s !! file_of W audio_path) = Py.Return result ->
  open_error W output_path = None ->
  (∀ text, getitem result "text" ≠ Py.Return (JStr text)) ->
  (transcribe_audio audio_path output_path model_name s).1 = Py.Return false
  ∧ fs (transcribe_audio audio_path output_path model_name s).2
    = <[file_of W output_path := []]> (fs s).
Proof.
  intros Hl Ht Ho Hg.
  unfold TranscribePodcast.transcribe_audio, try_except,
    TranscribePodcast.transcribe_body, mbind, M_bind, print, emit, lift. cbn.
  rewrite Hl. cbn. rewrite Ht. cbn. unfold open_for_writing. rewrite Ho. cbn.
  destruct (getitem result "text") as [v|e] eqn:Hv; cbn.
  - destruct v as [| | |text| |]; try (cbn; split; reflexivity).
    now destruct (Hg text).
  - assert (Py.isinstance e Py.Exception = true) as ->.
    { unfold getitem in Hv. destruct result; try (injection Hv as <-; reflexivity).
      destruct (dict_get "text" items); [discriminate|].
      injection Hv as <-. reflexivity. }
    cbn. split; reflexivity.
Qed.

(** The state after the first line of [main] and the download. *)
Definition downloaded (a : args) (s : state) : Py.result bool * state :=
  download_audio (url a) temp_audio
    (PipelineFacts.log s [Stdout ("Downloading podcast from " +:+ url a)]).

(** [main] in terms of its [try] block, once it has its directory and its
    output path and the clean-up works. *)
Lemma main_after_setup (a : args) (output_path : string) (s : state) :
  mkdir_error W = None ->
  resolve_output W a = Py.Return output_path ->
  removal_works W ->
  main a s
  = (at_exit (pipeline a output_path s).1,
     State (delete (file_of W temp_audio) (fs (pipeline a output_path s).2))
           (trace (pipeline a output_path s).2)).
Proof.
  intros Hm Ho Hr. rewrite (main_enters_run W a output_path s Hm Ho).
  now rewrite (run_cleans_up W a output_path s Hr).
Qed.

Lemma pipeline_after_failed_download (a : args) (output_path : string) (s : state) :
  (downloaded a s).1 = Py.Return false ->
  pipeline a output_path s
  = (Py.Raise (Py.Exn Py.SystemExit "1"), (downloaded a s).2).
Proof.
  intros Hd. unfold TranscribePodcast.pipeline.
  change ((print ?l ;; ?k) s) with (k (PipelineFacts.log s [Stdout l])).
  unfold mbind at 1. unfold M_bind at 1. fold (downloaded a s).
  destruct (downloaded a s) as [r s1]. cbn in Hd. subst r. reflexivity.
Qed.

(** X17. When [main] has its directory and its output path and the
    download returns [False], the [try] block ends right after it with
    [sys.exit(1)]: the model is not loaded and nothing more is printed.
    When the clean-up works, [main] ends with exit code 1 and what the
    download left of the temporary file is removed; when [unlink] fails
    on a temporary file that is there, [main] ends on the exception of
    [unlink] instead and the file stays. *)
Theorem failed_download_ends_main (a : args) (output_path : string) (s : state) :
  mkdir_error W = None ->
  resolve_output W a = Py.Return output_path ->
  (downloaded a s).1 = Py.Return false ->
  (removal_works W ->
   main a s
   = (Exit 1, State (delete (file_of W temp_audio) (fs (downloaded a s).2))
                    (trace (downloaded a s).2)))
  ∧ (∀ e, exists_error W temp_audio = None ->
          unlink_error W temp_audio = Some e ->
          is_Some (fs (downloaded a s).2 !! file_of W temp_audio) ->
          main a s = (at_exit (Py.Raise e), (downloaded a s).2)).
Proof.
  intros Hm Ho Hd. split.
  - intros Hr. rewrite (main_after_setup a output_path s Hm Ho Hr).
    now rewrite (pipeline_after_failed_download a output_path s Hd).
  - intros e He Hu Hf. rewrite (main_enters_run W a output_path s Hm Ho).
    unfold TranscribePodcast.run, try_finally.
    rewrite (pipeline_after_failed_download a output_path s Hd).
    now rewrite (cleanup_fails W _ e He Hu Hf).
Qed.

(** X18. When [main] has its directory and its output path, the download,
    the model, the transcription and the write all succeed and the
    clean-up works, [main] ends with exit code 0 after the two closing
    lines, the temporary file is removed and no other file than the
    output changes after the download. The output file then holds exactly
    the text, unless the output path names the temporary file, under
    whatever spelling: in that case the transcript is removed with it,
    and [main] still ends with exit code 0. *)
Theorem successful_run_stores_the_transcript
    (a : args) (output_path : string) (s : state) (result : json) (text : string) :
  let s1 := (downloaded a s).2 in
  mkdir_error W = None ->
  resolve_output W a = Py.Return output_path ->
  removal_works W ->
  (downloaded a s).1 = Py.Return true ->
  load_model W (model a) = None ->
  transcribe W (model a) (fs s1 !! file_of W temp_audio) = Py.Return result ->
  getitem result "text" = Py.Return (JStr text) ->
  open_error W output_path = None ->
  write_error W output_path [] (Py.encode text) = None ->
  main a s
  = (Exit 0,
     State (delete (file_of W temp_audio)
                   (<[file_of W output_path := Py.encode text]> (fs s1)))
           (trace s1
            ++ [Stdout ("Transcribing to " +:+ output_path);
                Stdout "Loading Whisper model...";
                Stdout "Transcribing audio... This may take a while.";
                Stdout (nl +:+ "Transcription completed successfully!");
                Stdout ("Transcript saved to: " +:+ output_path)]))
  ∧ fs (main a s).2 !! file_of W output_path
    = (if bool_decide (file_of W output_path = file_of W temp_audio) then None
       else Some (Py.encode text)).
Proof.
  intros s1 Hm Hout Hr Hd Hl Ht Hg Ho Hw.
  assert (Hmain : main a s
    = (Exit 0,
       State (delete (file_of W temp_audio)
                     (<[file_of W output_path := Py.encode text]> (fs s1)))
             (trace s1
              ++ [Stdout ("Transcribing to " +:+ output_path);
                  Stdout "Loading Whisper model...";
                  Stdout "Transcribing audio... This may take a while.";
                  Stdout (nl +:+ "Transcription completed successfully!");
                  Stdout ("Transcript saved to: " +:+ output_path)]))).
  { assert (Hp : pipeline a output_path s
      = (Py.Return tt,
         State (<[file_of W output_path := Py.encode text]> (fs s1))
               (trace s1
                ++ [Stdout ("Transcribing to " +:+ output_path);
                    Stdout "Loading Whisper model...";
                    Stdout "Transcribing audio... This may take a while.";
                    Stdout (nl +:+ "Transcription completed successfully!");
                    Stdout ("Transcript saved to: " +:+ output_path)]))).
    { rewrite (pipeline_after_download W a output_path s s1)
        by (rewrite <- Hd; apply surjective_pairing).
      unfold mbind at 1. unfold M_bind at 1.
      rewrite (transcribe_audio_stores temp_audio output_path (model a)
                 (PipelineFacts.log s1 [Stdout ("Transcribing to " +:+ output_path)])
                 result text Hl Ht Hg Ho Hw).
      unfold mbind, M_bind, print, emit, mret, M_ret. cbn.
      now rewrite <- !app_assoc. }
    rewrite (main_after_setup a output_path s Hm Hout Hr). now rewrite Hp. }
  split; [exact Hmain|]. rewrite Hmain. cbn [snd fs].
  destruct (bool_decide (file_of W output_path = file_of W temp_audio)) eqn:Hb.
  - apply bool_decide_eq_true in Hb. rewrite Hb. apply lookup_delete_eq.
  - apply bool_decide_eq_false in Hb.
    rewrite lookup_delete_ne by (intros H; now apply Hb).
    apply lookup_insert_eq.
Qed.

Lemma pipeline_raises (a : args) (output_path : string) (s : state) (e : Py.exn) :
  (pipeline a output_path s).1 = Py.Raise e ->
  Py.isinstance e Py.Exception = false.
Proof.
  unfold TranscribePodcast.pipeline.
  change ((print ?l ;; ?k) s) with (k (PipelineFacts.log s [Stdout l])).
  unfold mbind at 1. unfold M_bind at 1.
  pose proof (download_audio_raises (url a) temp_audio
                (PipelineFacts.log s [Stdout ("Downloading podcast from " +:+ url a)]))
    as Hd.
  destruct (download_audio (url a) temp_audio
              (PipelineFacts.log s [Stdout ("Downloading podcast from " +:+ url a)]))
    as [[ok|e1] s1]; cbn [fst] in Hd |- *.
  2: { intros [= <-]. now apply Hd. }
  destruct ok; cbn [negb].
  2: { unfold mbind at 1. unfold M_bind at 1. cbn. now intros [= <-]. }
  change (((mret tt : M state unit) ;; print ?l ;; ?k) s1)
    with (k (PipelineFacts.log s1 [Stdout l])).
  unfold mbind at 1. unfold M_bind at 1.
  pose proof (transcribe_audio_raises temp_audio output_path (model a)
                (PipelineFacts.log s1 [Stdout ("Transcribing to " +:+ output_path)]))
    as Ht.
  destruct (transcribe_audio temp_audio output_path (model a)
              (PipelineFacts.log s1 [Stdout ("Transcribing to " +:+ output_path)]))
    as [[ok|e2] s2]; cbn [fst] in Ht |- *.
  2: { intros [= <-]. now apply Ht. }
  destruct ok; cbn; [discriminate|now intros [= <-]].
Qed.

(** The exception on which the [finally] block ends, when it does, is the
    one of [exists] or the one of [unlink]. *)
Lemma cleanup_raises (s : state) (e : Py.exn) :
  (cleanup W s).1 = Py.Raise e ->
  exists_error W temp_audio = Some e
  ∨ unlink_error W temp_audio = Some e
  ∨ (is_dir W temp_audio = true ∧ Py.exn_cls e = Py.IsADirectoryError).
Proof.
  unfold TranscribePodcast.cleanup, mbind, M_bind, path_exists, unlink.
  destruct (exists_error W temp_audio) as [e0|]; cbn; [intros [= <-]; now left|].
  destruct (_ || _); [|discriminate].
  destruct (unlink_error W temp_audio) as [e1|]; cbn;
    [intros [= <-]; right; now left|].
  destruct (is_dir W temp_audio); [|discriminate].
  intros [= <-]. right. right. split; reflexivity.
Qed.

(** X19. An exception on which [main] ends is raised outside the [try]
    block or is no [Exception]: it is the one of [mkdir] or the one of
    [urlparse], both raised before the block, or the one of [exists] or
    [unlink] in the [finally] block ([IsADirectoryError] when a directory
    is in the place of the temporary file), or it is not an [Exception]
    at all, such as [KeyboardInterrupt]. Every failure of the network,
    the file system or the model inside the [try] block ends in an exit
    code instead. *)
Theorem main_lets_no_exception_through (a : args) (s : state) (e : Py.exn) :
  (main a s).1 = Uncaught e ->
  mkdir_error W = Some e
  ∨ resolve_output W a = Py.Raise e
  ∨ exists_error W temp_audio = Some e
  ∨ unlink_error W temp_audio = Some e
  ∨ (is_dir W temp_audio = true ∧ Py.exn_cls e = Py.IsADirectoryError)
  ∨ Py.isinstance e Py.Exception = false.
Proof.
  destruct (mkdir_error W) as [e0|] eqn:Hm.
  { unfold TranscribePodcast.main. rewrite Hm. cbn. intros [= <-]. now left. }
  destruct (resolve_output W a) as [output_path|e0] eqn:Ho.
  2: { unfold TranscribePodcast.main. rewrite Hm, Ho. cbn. intros [= <-].
       right. now left. }
  rewrite (main_enters_run W a output_path s Hm Ho). cbn [fst].
  unfold TranscribePodcast.run, try_finally.
  pose proof (pipeline_raises a output_path s) as Hp.
  destruct (pipeline a output_path s) as [r s']. cbn [fst] in Hp.
  pose proof (cleanup_raises s') as Hc.
  destruct (cleanup W s') as [[[]|e1] s'']; cbn [fst] in Hc |- *.
  - intros Hu. do 5 right.
    destruct r as [u|e1]; cbn in Hu; [discriminate Hu|].
    destruct (bool_decide (Py.exn_cls e1 = Py.SystemExit)); [discriminate Hu|].
    injection Hu as <-. now apply Hp.
  - cbn. destruct (bool_decide (Py.exn_cls e1 = Py.SystemExit)) eqn:Hx;
      [discriminate|].
    intros [= <-]. right. right. destruct (Hc e1 eq_refl) as [H|[H|H]]; auto.
Qed.

Lemma silent_emit (e : event) : no_request e -> silent (emit e).
Proof. intros He s. exists [e]. split; [reflexivity|]. now constructor. Qed.

Lemma silent_transcribe_audio (audio_path output_path model_name : string) :
  silent (transcribe_audio audio_path output_path model_name).
Proof.
  unfold TranscribePodcast.transcribe_audio, TranscribePodcast.transcribe_body,
    print, eprint.
  apply emits_try_except.
  2: { apply Forall_cons; split; [intros ?|apply Forall_nil_2]. cbn.
       apply emits_bind; [apply silent_emit; exact I|intros ?]. apply emits_ret. }
  apply emits_bind; [apply silent_emit; exact I|intros _].
  destruct (load_model W model_name); [apply emits_raise|].
  apply emits_bind; [apply silent_emit; exact I|intros _].
  apply emits_bind.
  { intros st. exists []. split; [now rewrite app_nil_r|constructor]. }
  intros audio. apply emits_bind; [apply emits_lift|intros result].
  apply emits_bind.
  { unfold open_for_writing. destruct (open_error W output_path);
      [apply emits_raise|].
    intros st. exists []. split; [cbn; now rewrite app_nil_r|constructor]. }
  intros _. apply emits_bind; [apply emits_lift|intros text].
  destruct text; try apply emits_raise.
  apply emits_bind; [|intros ?; apply emits_ret].
  intros st. exists []. unfold TranscribePodcast.file_write.
  destruct (write_error W _ _ _); cbn; (split; [now rewrite app_nil_r|constructor]).
Qed.

Lemma download_audio_sends_first (url output_path : string) (s : state) :
  ∃ events,
    trace (download_audio url output_path s).2
    = trace s ++ HttpGet (download_request url) :: events
    ∧ Forall no_request events.
Proof.
  destruct (download_body_run W url output_path s)
    as (chunks & k & total & Ht & _).
  assert (Hbar : Forall no_request
                   (map (fun n => Progress n total) (take k (progress_after 0 chunks)))).
  { apply Forall_forall. intros e He. apply list_elem_of_fmap in He as (x & -> & _).
    exact I. }
  unfold TranscribePodcast.download_audio.
  destruct (except_exception_run (download_body url output_path)
              (fun e => "Error downloading file: " +:+ Py.exn_str e) s)
    as [[-> _]|(e & _ & _ & ->)].
  - eexists. split; [exact Ht|exact Hbar].
  - eexists. cbn. rewrite Ht, <- app_assoc. split; [reflexivity|].
    apply Forall_app. split; [exact Hbar|]. repeat constructor.
Qed.

(** X20. A run of [main] that has its output directory and its output
    path sends exactly one request, whatever happens afterwards: the
    streamed GET of the episode URL, without headers, without parameters
    and without a timeout. The pipeline never sends the catalog
    credentials and never asks twice. A run that does not get its
    directory, or whose URL [urlparse] refuses when no output path is
    given, sends nothing. *)
Theorem pipeline_sends_one_plain_request (a : args) (s : state) :
  (∀ output_path,
     mkdir_error W = None ->
     resolve_output W a = Py.Return output_path ->
     ∃ events,
       trace (main a s).2 = trace s ++ events
       ∧ requests events = [Requests.Request (url a) [] [] true None])
  ∧ (is_Some (mkdir_error W) ∨ (∃ e, resolve_output W a = Py.Raise e) ->
     (main a s).2 = s).
Proof.
  split.
  2: { unfold TranscribePodcast.main. intros [[e He]|[e He]].
       - now rewrite He.
       - rewrite He. now destruct (mkdir_error W). }
  intros output_path Hm Ho. rewrite (main_enters_run W a output_path s Hm Ho).
  cbn [snd]. rewrite (run_trace W a output_path s).
  unfold TranscribePodcast.pipeline.
  change ((print ?l ;; ?k) s) with (k (PipelineFacts.log s [Stdout l])).
  unfold mbind at 1. unfold M_bind at 1.
  destruct (download_audio_sends_first (url a) temp_audio
              (PipelineFacts.log s [Stdout ("Downloading podcast from " +:+ url a)]))
    as (ev1 & H1 & P1).
  destruct (download_audio _ _ _) as [[ok|e1] s1]; cbn in H1 |- *.
  2: { eexists. rewrite H1. rewrite <- app_assoc. split; [reflexivity|].
       cbn. fold (requests ev1). now rewrite (requests_none _ P1). }
  assert (Hrest : silent
    ((if negb ok : bool then sys_exit_1 else mret tt) ;;
     print ("Transcribing to " +:+ output_path) ;;
     ok' ← transcribe_audio temp_audio output_path (model a);
     (if negb ok' : bool then sys_exit_1 else mret tt) ;;
     print (nl +:+ "Transcription completed successfully!") ;;
     print ("Transcript saved to: " +:+ output_path))).
  { unfold print, sys_exit_1.
    repeat first
      [ apply silent_transcribe_audio
      | apply silent_emit; exact I
      | apply emits_ret
      | apply emits_raise
      | apply emits_bind; [|intros ?]
      | match goal with
        | |- EventFacts.emits _ _ (if ?x then _ else _) => destruct x
        end ]. }
  destruct (Hrest s1) as (ev2 & H2 & P2).
  exists ([Stdout ("Downloading podcast from " +:+ url a)]
          ++ HttpGet (download_request (url a)) :: ev1 ++ ev2).
  split.
  - etransitivity; [exact H2|]. rewrite H1. cbn. now rewrite <- !app_assoc.
  - cbn. fold (requests (ev1 ++ ev2)).
    rewrite (requests_none (ev1 ++ ev2)); [reflexivity|].
    apply Forall_app. now split.
Qed.

End Stages.

End PipelineRuns.

(* ===================================================================== *)
(** * The name of the transcript *)
(* ===================================================================== *)

Module FilenameFacts.

Import TranscribePodcast.

Abbreviation chars := list_ascii_of_string.

Lemma chars_app (x y : string) : chars (x +:+ y) = chars x ++ chars y.
Proof.
  induction x as [|a x IH]; [reflexivity|].
  change (String a x +:+ y) with (String a (x +:+ y)). cbn. f_equal. exact IH.
Qed.

Lemma basename_no_slash (l : list ascii) : "/"%char ∉ basename_chars l.
Proof.
  induction l as [|a l IH]; cbn; [apply not_elem_of_nil|].
  destruct (bool_decide ("/"%char ∈ l)) eqn:Hin; [exact IH|].
  apply bool_decide_eq_false in Hin.
  destruct (bool_decide (a = "/"%char)) eqn:Ha; [exact Hin|].
  apply bool_decide_eq_false in Ha.
  apply not_elem_of_cons. split; [congruence|exact Hin].
Qed.

Lemma basename_split (l : list ascii) :
  (∃ dir, l = dir ++ ("/"%char :: basename_chars l))
  ∨ (("/"%char ∉ l) ∧ basename_chars l = l).
Proof.
  induction l as [|a l IH]; cbn; [right; split; [apply not_elem_of_nil|reflexivity]|].
  destruct (bool_decide ("/"%char ∈ l)) eqn:Hin.
  - apply bool_decide_eq_true in Hin. left.
    destruct IH as [[dir Hd]|[Hno _]]; [|contradiction].
    exists (a :: dir). cbn. now rewrite <- Hd.
  - apply bool_decide_eq_false in Hin.
    destruct (bool_decide (a = "/"%char)) eqn:Ha.
    + apply bool_decide_eq_true in Ha. subst a. left. now exists [].
    + apply bool_decide_eq_false in Ha. right. split; [|reflexivity].
      apply not_elem_of_cons. split; [congruence|exact Hin].
Qed.

(** An extension as [splitext] cuts it off: nothing, or a dot followed by
    characters that are not dots. *)
Definition extension (ext : list ascii) : Prop :=
  ext = [] ∨ ∃ rest, ext = "."%char :: rest ∧ "."%char ∉ rest.

Lemma root_split (l : list ascii) :
  ∀ seen, ∃ ext, l = root_chars seen l ++ ext ∧ extension ext.
Proof.
  induction l as [|a l IH]; intros seen; cbn.
  - exists []. split; [reflexivity|now left].
  - destruct (bool_decide (a = "."%char)) eqn:Ha.
    + apply bool_decide_eq_true in Ha. subst a.
      destruct (seen && negb (bool_decide ("."%char ∈ l))) eqn:Hcut.
      * apply andb_true_iff in Hcut as [_ Hl]. apply negb_true_iff in Hl.
        apply bool_decide_eq_false in Hl.
        exists ("."%char :: l). split; [reflexivity|]. right. now exists l.
      * destruct (IH seen) as (ext & He & Hx). exists ext. cbn. now rewrite <- He.
    + destruct (IH true) as (ext & He & Hx). exists ext. cbn. now rewrite <- He.
Qed.

Lemma root_not_empty (l : list ascii) : l ≠ [] -> root_chars false l ≠ [].
Proof.
  destruct l as [|a l]; [congruence|]. intros _. cbn.
  destruct (bool_decide (a = "."%char)); discriminate.
Qed.

Lemma root_subset (l : list ascii) : ∀ seen, root_chars seen l ⊆ l.
Proof.
  intros seen. destruct (root_split l seen) as (ext & He & _).
  intros x Hx. rewrite He. apply elem_of_app. now left.
Qed.

Section Names.

Variable W : world.

(** X21. When [urlparse] finds the path of the URL,
    [get_output_filename] returns a name: the last segment of that path
    without its last extension, followed by [_transcript.txt]. The name
    never contains a slash, so the transcript stays in the output
    directory; at most one extension is cut off, and only when something
    other than dots precedes it; a segment that is not empty gives a stem
    that is not empty. When [urlparse] raises, so does
    [get_output_filename]. *)
Theorem output_filename_is_a_plain_name (url parsed_path : string) :
  urlparse_path W url = Py.Return parsed_path ->
  let path := chars parsed_path in
  ∃ filename,
    get_output_filename W url = Py.Return filename
    ∧ ("/"%char ∉ chars filename)
    ∧ ∃ stem ext,
        chars filename = stem ++ chars "_transcript.txt"
        ∧ basename_chars path = stem ++ ext
        ∧ extension ext
        ∧ ((∃ dir, path = dir ++ ("/"%char :: stem ++ ext))
           ∨ (("/"%char ∉ path) ∧ path = stem ++ ext))
        ∧ (basename_chars path ≠ [] -> stem ≠ []).
Proof.
  intros Hu path. unfold get_output_filename. rewrite Hu. fold path.
  eexists. split; [reflexivity|].
  rewrite chars_app, list_ascii_of_string_of_list_ascii.
  destruct (root_split (basename_chars path) false) as (ext & He & Hx).
  split.
  - intros Hin. apply elem_of_app in Hin as [Hin|Hin].
    + apply root_subset in Hin. now apply basename_no_slash in Hin.
    + vm_compute in Hin. repeat (apply elem_of_cons in Hin as [Hin|Hin];
                                  [discriminate Hin|]).
      now apply elem_of_nil in Hin.
  - exists (root_chars false (basename_chars path)), ext.
    split; [reflexivity|]. split; [exact He|]. split; [exact Hx|]. split.
    + rewrite <- He. destruct (basename_split path) as [[dir Hd]|[Hno Hb]].
      * left. now exists dir.
      * right. split; [exact Hno|]. now rewrite Hb.
    + apply root_not_empty.
Qed.



End Names.

End FilenameFacts.

(* ===================================================================== *)
(** * More runs in concrete worlds *)
(* ===================================================================== *)

Module MoreScenarios.

Import Json IO.

(** ** The catalog and the discovery loop *)

Module Discovery.

Import PodcastSearch DiscoveryFacts CatalogFacts CatalogRuns DiscoveryRuns.
Import Scenarios.Discovery.

(** The connection to the catalog times out while it is opened. *)
Definition slow_connect : world :=
  machine (fun _ => 1700000000)
          (fun _ _ => Py.Raise (Py.Exn Py.ConnectTimeout "connect timed out")).

Definition episode (title : string) (published : Z) : json :=
  JObj [("title", JStr title); ("datePublished", JNum published);
        ("duration", JNum 1830)].

(** A catalog that knows the podcasts [feeds] for every term and the
    episodes [items] for every feed. *)
Definition serving (feeds items : list json) : world :=
  machine (fun n => 1700000000 + Z.of_nat n)
          (fun _ r =>
             if bool_decide (Requests.req_url r = BASE_URL +:+ "/search/byterm")
             then Py.Return (Requests.Response 200 []
                               (Some (JObj [("feeds", JArr feeds)])) [] None)
             else Py.Return (Requests.Response 200 []
                               (Some (JObj [("items", JArr items)])) [] None)).

(** Two podcasts and two episodes. *)
Definition stocked : world :=
  serving two [episode "pilot" 1700000000; episode "finale" 1700086400].

(** Two episodes, the second of them dated in the year 11476. *)
Definition far_future : world :=
  serving two [episode "pilot" 1700000000; episode "finale" 300000000000].

(** A podcast that the catalog lists with [null] for a description. *)
Definition undescribed : json :=
  JObj [("id", JNum 13); ("title", JStr "three"); ("description", JNull)].

Definition sparse : world := serving [podcast 11 "one"; undescribed] [].

(** A podcast that the catalog lists without an id. *)
Definition anonymous : list json := [JObj [("title", JStr "anonymous")]].

Lemma accepted_body_is_returned_witness :
  search_podcasts key secret stocked "rust" s0
    = (Py.Return (JArr two), searched key secret stocked "rust" s0)
  ∧ get_episodes key secret stocked (JNum 11) s0
    = (Py.Return (JArr [episode "pilot" 1700000000; episode "finale" 1700086400]),
       listed key secret stocked (JNum 11) s0).
Proof.
  destruct (accepted_body_is_returned key secret stocked "rust" (JNum 11) s0)
    as [Hs He].
  split.
  - eapply Hs; reflexivity.
  - eapply He; reflexivity.
Defined.

Lemma body_that_is_no_object_raises_witness :
  (∃ message,
     search_podcasts key secret listing "rust" s0
     = (Py.Raise (Py.Exn Py.AttributeError message),
        searched key secret listing "rust" s0))
  ∧ (∃ message,
       get_episodes key secret listing (JNum 11) s0
       = (Py.Raise (Py.Exn Py.AttributeError message),
          listed key secret listing (JNum 11) s0)).
Proof.
  destruct (body_that_is_no_object_raises key secret listing "rust" (JNum 11) s0)
    as [Hs He].
  split.
  - eapply Hs; [reflexivity|reflexivity|reflexivity|discriminate].
  - eapply He; [reflexivity|reflexivity|reflexivity|discriminate].
Defined.

Lemma search_failure_is_reported_by_class_witness :
  Py.isinstance (Py.Exn Py.ConnectTimeout "connect timed out") Py.Timeout = true
  ∧ search_podcasts key secret slow_connect "rust" s0
    = (Py.Return (JArr []),
       State 2
         (trace (searched key secret slow_connect "rust" s0)
          ++ [Stderr ("Connection error: Could not connect to " +:+ BASE_URL
                      +:+ ". Please check your internet connection.");
              Stderr ("Detailed error: " +:+ "connect timed out")]))
  ∧ search_podcasts key secret overloaded "rust" s0
    = (Py.Return (JArr []),
       State 2
         (trace (searched key secret overloaded "rust" s0)
          ++ [Stderr ("Error searching podcasts: "
                      +:+ "too many 503 error responses")])).
Proof.
  split; [reflexivity|].
  destruct (search_failure_is_reported_by_class key secret slow_connect "rust" s0
              (Py.Exn Py.ConnectTimeout "connect timed out") eq_refl)
    as (Hc & _).
  destruct (search_failure_is_reported_by_class key secret overloaded "rust" s0
              (Py.Exn Py.RetryError "too many 503 error responses") eq_refl)
    as (_ & _ & Hr & _).
  split; [apply Hc; reflexivity|apply Hr; reflexivity].
Defined.

Lemma quit_ends_main_witness :
  main key secret stocked ["  Q "; "rust"; "1"]
  = (Exit 0, State 0 [Input search_prompt]).
Proof.
  apply (quit_ends_main key secret stocked "  Q " ["rust"; "1"]); reflexivity.
Defined.

Lemma nothing_found_asks_again_witness :
  search_iteration key secret unreachable "rust" s0
  = (Py.Return (Continue AwaitingSearchTerm),
     log (search_podcasts key secret unreachable "rust" (asked "rust" s0)).2
         [Stdout "No podcasts found."]).
Proof.
  apply (nothing_found_asks_again key secret unreachable "rust" s0 (JArr []));
    [reflexivity|vm_compute; discriminate|reflexivity|reflexivity].
Defined.

(** The lines of the second of two podcasts. *)
Example lines_of_a_podcast :
  podcast_lines 1 (podcast 12 "two")
  = Some [Print [Text (nl +:+ "2. "); Str (JStr "two")];
          Print [Text "   Author: "; Str (JStr "Unknown Author")];
          Print [Text "   Description: "; Str200 (JStr "No description"); Text "..."];
          Stdout "   Categories: None"]
  ∧ podcast_lines 1 undescribed = None
  ∧ podcast_lines 0
      (JObj [("categories", JObj [("9", JStr "Arts"); ("55", JStr "News")])])
    = Some [Print [Text (nl +:+ "1. "); Str (JStr "Unknown Title")];
            Print [Text "   Author: "; Str (JStr "Unknown Author")];
            Print [Text "   Description: "; Str200 (JStr "No description");
                   Text "..."];
            Stdout "   Categories: Arts, News"].
Proof. vm_compute. repeat split; reflexivity. Qed.

Lemma first_five_are_displayed_witness :
  search_iteration key secret catalog "test" s0
    = (Py.Return (Continue (AwaitingSelection seven)),
       log (log (search_podcasts key secret catalog "test" (asked "test" s0)).2
                [Stdout (nl +:+ "Top 5 Results:")])
           (default [] (podcasts_lines 0 (take 5 seven))))
  ∧ length (default [] (podcasts_lines 0 (take 5 seven))) = 20%nat
  ∧ ∃ e, (search_iteration key secret sparse "test" s0).1 = Py.Raise e.
Proof.
  destruct (first_five_are_displayed key secret catalog "test" s0 seven)
    as (Hshown & _ & _);
    [reflexivity|vm_compute; discriminate|reflexivity|discriminate|].
  destruct (first_five_are_displayed key secret sparse "test" s0
              [podcast 11 "one"; undescribed])
    as (_ & Hfails & _);
    [reflexivity|vm_compute; discriminate|reflexivity|discriminate|].
  split; [apply Hshown; reflexivity|]. split; [reflexivity|].
  apply Hfails. reflexivity.
Defined.

Lemma selection_without_id_raises_witness :
  ∃ message,
    selection_iteration key secret stocked anonymous "1" s0
    = (Py.Raise (Py.Exn Py.KeyError message),
       log (log s0 [Input selection_prompt]) [PrintLatest (JStr "anonymous")]).
Proof.
  apply (selection_without_id_raises key secret stocked anonymous "1" s0 1
           [("title", JStr "anonymous")]);
    [reflexivity|cbn; lia|reflexivity|reflexivity].
Defined.

(** The state in which the episodes of the second podcast were fetched. *)
Definition fetched_for_two (W : world) : state :=
  (get_episodes key secret W (JNum 12)
     (log (log s0 [Input selection_prompt]) [PrintLatest (JStr "two")])).2.

Lemma selection_displays_the_episodes_witness :
  selection_iteration key secret stocked two "2" s0
    = (Py.Return (Continue AwaitingSearchTerm),
       log (fetched_for_two stocked)
           [Print [Text (nl +:+ "Title: "); Str (JStr "pilot")];
            Stdout "Date: 2023-11-14";
            Stdout "Duration: 30 minutes";
            Print [Text "Download URL: "; Str (JStr "No URL available")];
            Print [Text (nl +:+ "Title: "); Str (JStr "finale")];
            Stdout "Date: 2023-11-15";
            Stdout "Duration: 30 minutes";
            Print [Text "Download URL: "; Str (JStr "No URL available")]])
  ∧ selection_iteration key secret far_future two "2" s0
    = (Py.Return (Continue (AwaitingSelection two)),
       log (fetched_for_two far_future)
           [Print [Text (nl +:+ "Title: "); Str (JStr "pilot")];
            Stdout "Date: 2023-11-14";
            Stdout "Duration: 30 minutes";
            Print [Text "Download URL: "; Str (JStr "No URL available")];
            Print [Text (nl +:+ "Title: "); Str (JStr "finale")];
            Stdout "Please enter a valid number or 'b' to go back."]).
Proof.
  destruct (selection_displays_the_episodes key secret stocked two "2" s0 2
              [("id", JNum 12); ("title", JStr "two")] (JNum 12)
              [episode "pilot" 1700000000; episode "finale" 1700086400])
    as [Hshown _];
    [reflexivity|cbn; lia|reflexivity|reflexivity|reflexivity|].
  destruct (selection_displays_the_episodes key secret far_future two "2" s0 2
              [("id", JNum 12); ("title", JStr "two")] (JNum 12)
              [episode "pilot" 1700000000; episode "finale" 300000000000])
    as [_ Hdate];
    [reflexivity|cbn; lia|reflexivity|reflexivity|reflexivity|].
  split.
  - apply Hshown. reflexivity.
  - apply (Hdate [episode "pilot" 1700000000]
                 [("title", JStr "finale"); ("datePublished", JNum 300000000000);
                  ("duration", JNum 1830)]
                 []
                 [Print [Text (nl +:+ "Title: "); Str (JStr "pilot")];
                  Stdout "Date: 2023-11-14";
                  Stdout "Duration: 30 minutes";
                  Print [Text "Download URL: "; Str (JStr "No URL available")]]
                 (Py.Exn Py.ValueError "year 11476 is out of range"));
      reflexivity.
Defined.

(** The search request of a run that searches, goes back and quits. *)
Definition sent_for_test : Requests.request :=
  search_request (sign key secret 1700000001) "test".

Lemma discovery_sends_catalog_requests_only_witness :
  HttpGet sent_for_test ∈ trace (main key secret catalog ["test"; "b"; "q"]).2
  ∧ missing key = false
  ∧ Requests.req_timeout sent_for_test = Some 10
  ∧ ∃ t, Requests.req_headers sent_for_test = sign key secret t.
Proof.
  assert (Hin : HttpGet sent_for_test
                ∈ trace (main key secret catalog ["test"; "b"; "q"]).2).
  { apply (list_elem_of_lookup_2 _ 4%nat). vm_compute. reflexivity. }
  split; [exact Hin|].
  destruct (discovery_sends_catalog_requests_only key secret catalog
              ["test"; "b"; "q"] sent_for_test Hin) as (Hk & Ht & _ & _ & Hh).
  split; [exact Hk|]. split; [exact Ht|exact Hh].
Defined.

Lemma discovery_exit_codes_witness :
  (main None secret catalog ["q"]).1 = Exit 1
  ∧ (main key secret catalog ["test"; "b"; "q"]).1 = Exit 0
  ∧ (∃ line, line ∈ ["test"; "b"; "q"] ∧ Py.lower (Py.strip line) = "q")
  ∧ (main key secret catalog ["test"; "b"]).1
    = Uncaught (Py.Exn Py.EOFError "EOF when reading a line").
Proof.
  destruct (discovery_exit_codes None secret catalog ["q"]) as (H1 & _ & _).
  destruct (discovery_exit_codes key secret catalog ["test"; "b"; "q"])
    as (_ & H0 & _).
  destruct (discovery_exit_codes key secret catalog ["test"; "b"]) as (_ & _ & Hu).
  split; [apply H1; reflexivity|].
  assert (He : (main key secret catalog ["test"; "b"; "q"]).1 = Exit 0)
    by (vm_compute; reflexivity).
  split; [exact He|]. split.
  - refine (proj2 (H0 _ He)). repeat constructor.
  - destruct (Hu eq_refl) as [Hz|[e Hx]]; [vm_compute in Hz; discriminate Hz|].
    vm_compute. reflexivity.
Defined.

End Discovery.

(** ** The reply of the session *)

Module Retries.

Import Urllib3 RetryFacts RetryRuns.

(** Four 503 in a row, and a run that gets a 404 after one 503. *)
Definition worn_out : list attempt :=
  [Respond 503 None; Respond 503 None; Respond 503 None; Respond 503 None].

Definition not_found : list attempt := [Respond 503 None; Respond 404 None].

Lemma forced_statuses_never_reach_the_caller_witness :
  result (urlopen PodcastSearch.retry_strategy not_found) = Some (Response 404)
  ∧ (404 ∉ [429; 500; 502; 503; 504])
  ∧ result (urlopen PodcastSearch.retry_strategy worn_out)
    = Some (MaxRetryError (Respond 503 None))
  ∧ attempts (urlopen PodcastSearch.retry_strategy worn_out) = 4%nat.
Proof.
  destruct (forced_statuses_never_reach_the_caller not_found) as [Hr _].
  destruct (forced_statuses_never_reach_the_caller worn_out) as [_ Hm].
  split; [reflexivity|]. split; [apply Hr; reflexivity|].
  split; [reflexivity|]. apply (Hm (Respond 503 None)). reflexivity.
Defined.

End Retries.

(** ** The stages of the pipeline *)

Module Pipeline.

Import TranscribePodcast PipelineFacts PipelineRuns FilenameFacts.
Import Scenarios.Pipeline.

(** The host answers 404. *)
Definition missing_file : world :=
  with_get (fun _ => Py.Return (Requests.Response 404 [] None [] None)) fine.

(** The host answers 404 and nothing can be removed from the directory. *)
Definition missing_and_locked : world :=
  with_unlink (fun _ => Some (Py.Exn Py.PermissionError "Permission denied"))
              missing_file.

(** The model cannot be loaded. *)
Definition no_model : world :=
  with_load_model (fun _ => Some (Py.Exn Py.RuntimeError "model not found")) fine.

(** The transcription gives a result without text. *)
Definition wordless : world :=
  with_transcribe (fun _ _ => Py.Return (JObj [])) fine.

(** A transcript of an earlier run is there. *)
Definition earlier : state := State {[ out := Py.encode "old words" ]} [].

(** The path of the temporary file, spelled from the current directory. *)
Definition dotted_temp : string := "./transcripts/temp_audio.mp3".

(** A machine on which that spelling names the temporary file. *)
Definition dotted : world :=
  with_file_of (fun path => if bool_decide (path = dotted_temp) then temp_audio
                            else path) fine.

(** The user asks for the transcript at that path. *)
Definition clash : args := Args "https://host/ep.mp3" "turbo" (Some dotted_temp).

Lemma refused_download_touches_no_file_witness :
  ∃ message,
    download_audio missing_file "https://host/ep.mp3" temp_audio earlier
    = (Py.Return false,
       State (fs earlier)
             (trace earlier ++ [HttpGet (download_request "https://host/ep.mp3");
                                Stderr ("Error downloading file: " +:+ message)])).
Proof.
  apply (refused_download_touches_no_file missing_file "https://host/ep.mp3"
           temp_audio earlier).
  reflexivity.
Defined.


Lemma stages_catch_every_exception_witness :
  (download_audio interrupted "https://host/ep.mp3" temp_audio s0).1
    = Py.Raise (Py.Exn Py.KeyboardInterrupt "")
  ∧ Py.isinstance (Py.Exn Py.KeyboardInterrupt "") Py.Exception = false.
Proof.
  assert (Hd : (download_audio interrupted "https://host/ep.mp3" temp_audio s0).1
               = Py.Raise (Py.Exn Py.KeyboardInterrupt "")) by reflexivity.
  split; [exact Hd|].
  exact (proj1 (stages_catch_every_exception interrupted "https://host/ep.mp3"
                  temp_audio temp_audio "turbo" s0
                  (Py.Exn Py.KeyboardInterrupt "")) Hd).
Defined.

Lemma transcript_is_stored_verbatim_witness :
  (transcribe_audio fine temp_audio out "turbo" earlier).1 = Py.Return true
  ∧ fs (transcribe_audio fine temp_audio out "turbo" earlier).2 !! out
    = Some (Py.encode "hello world").
Proof.
  destruct (transcript_is_stored_verbatim fine temp_audio out "turbo" earlier
              transcript "hello world") as (H1 & H2 & _); try reflexivity.
  split; assumption.
Defined.

Lemma failed_transcription_touches_no_file_witness :
  transcribe_audio no_model temp_audio out "turbo" earlier
    = (Py.Return false,
       State (fs earlier)
             (trace earlier
              ++ [Stdout "Loading Whisper model...";
                  Stderr ("Error during transcription: " +:+ "model not found")]))
  ∧ transcribe_audio no_speech temp_audio out "turbo" earlier
    = (Py.Return false,
       State (fs earlier)
             (trace earlier
              ++ [Stdout "Loading Whisper model...";
                  Stdout "Transcribing audio... This may take a while.";
                  Stderr ("Error during transcription: " +:+ "denied")])).
Proof.
  destruct (failed_transcription_touches_no_file no_model temp_audio out "turbo"
              earlier (Py.Exn Py.RuntimeError "model not found") eq_refl)
    as [Hl _].
  destruct (failed_transcription_touches_no_file no_speech temp_audio out "turbo"
              earlier (Py.Exn Py.RuntimeError "denied") eq_refl)
    as [_ Ht].
  split; [apply Hl|apply Ht]; reflexivity.
Defined.

Lemma result_without_text_empties_the_output_witness :
  (transcribe_audio wordless temp_audio out "turbo" earlier).1 = Py.Return false
  ∧ fs earlier !! out = Some (Py.encode "old words")
  ∧ fs (transcribe_audio wordless temp_audio out "turbo" earlier).2
    = <[out := []]> (fs earlier).
Proof.
  destruct (result_without_text_empties_the_output wordless temp_audio out "turbo"
              earlier (JObj [])) as [H1 H2]; try reflexivity.
  { intros text. discriminate. }
  split; [exact H1|]. split; [reflexivity|exact H2].
Defined.

Lemma failed_download_ends_main_witness :
  main missing_file episode stale
    = (Exit 1, State (delete temp_audio (fs (downloaded missing_file episode stale).2))
                     (trace (downloaded missing_file episode stale).2))
  ∧ main missing_and_locked episode stale
    = (Uncaught (Py.Exn Py.PermissionError "Permission denied"),
       (downloaded missing_and_locked episode stale).2)
  ∧ fs (main missing_and_locked episode stale).2 !! temp_audio = Some [1; 2; 3].
Proof.
  destruct (failed_download_ends_main missing_file episode out stale
              eq_refl eq_refl eq_refl) as [Hexit _].
  destruct (failed_download_ends_main missing_and_locked episode out stale
              eq_refl eq_refl eq_refl) as [_ Hstays].
  assert (Hl : main missing_and_locked episode stale
               = (Uncaught (Py.Exn Py.PermissionError "Permission denied"),
                  (downloaded missing_and_locked episode stale).2)).
  { apply (Hstays (Py.Exn Py.PermissionError "Permission denied"));
      [reflexivity|reflexivity|]. vm_compute. eexists. reflexivity. }
  split; [apply Hexit; repeat split|]. split; [exact Hl|].
  rewrite Hl. reflexivity.
Defined.

Lemma successful_run_stores_the_transcript_witness :
  fs (main fine episode earlier).2 !! out = Some (Py.encode "hello world")
  ∧ (main dotted clash earlier).1 = Exit 0
  ∧ fs (main dotted clash earlier).2 !! temp_audio = None.
Proof.
  destruct (successful_run_stores_the_transcript fine episode out earlier transcript
              "hello world") as [_ Hout]; try reflexivity; [repeat split|].
  destruct (successful_run_stores_the_transcript dotted clash dotted_temp earlier
              transcript "hello world") as [Hmain Hclash];
    try reflexivity; [repeat split|].
  split; [exact Hout|]. split; [now rewrite Hmain|exact Hclash].
Defined.

Lemma main_lets_no_exception_through_witness :
  (main interrupted episode stale).1 = Uncaught (Py.Exn Py.KeyboardInterrupt "")
  ∧ Py.isinstance (Py.Exn Py.KeyboardInterrupt "") Py.Exception = false
  ∧ (main unparsed episode stale).1 = Uncaught (Py.Exn Py.ValueError "Invalid IPv6 URL")
  ∧ resolve_output unparsed episode = Py.Raise (Py.Exn Py.ValueError "Invalid IPv6 URL").
Proof.
  assert (Hu : (main interrupted episode stale).1
               = Uncaught (Py.Exn Py.KeyboardInterrupt "")) by reflexivity.
  assert (Hv : (main unparsed episode stale).1
               = Uncaught (Py.Exn Py.ValueError "Invalid IPv6 URL")) by reflexivity.
  split; [exact Hu|]. split.
  - destruct (main_lets_no_exception_through interrupted episode stale _ Hu)
      as [H|[H|[H|[H|[[H _]|H]]]]]; try discriminate H. exact H.
  - split; [exact Hv|].
    destruct (main_lets_no_exception_through unparsed episode stale _ Hv)
      as [H|[H|[H|[H|[[H _]|H]]]]]; try discriminate H. exact H.
Defined.

Lemma pipeline_sends_one_plain_request_witness :
  (∃ events,
     trace (main disk_full episode s0).2 = trace s0 ++ events
     ∧ requests events = [Requests.Request "https://host/ep.mp3" [] [] true None])
  ∧ (main unparsed episode s0).2 = s0.
Proof.
  destruct (pipeline_sends_one_plain_request disk_full episode s0) as [Hone _].
  destruct (pipeline_sends_one_plain_request unparsed episode s0) as [_ Hnone].
  split; [apply (Hone out); reflexivity|].
  apply Hnone. right. eexists. reflexivity.
Defined.


(** The name for a path with two dots in its last segment. *)
Example output_filename_of_dotted_path :
  get_output_filename
    (with_urlparse (fun _ => Py.Return "/shows/1/ep.final.mp3") fine)
    "https://host/shows/1/ep.final.mp3?x=1"
  = Py.Return "ep.final_transcript.txt".
Proof. reflexivity. Qed.

Lemma output_filename_is_a_plain_name_witness :
  ∃ filename,
    get_output_filename fine "https://host/ep.mp3" = Py.Return filename
    ∧ ("/"%char ∉ chars filename).
Proof.
  destruct (output_filename_is_a_plain_name fine "https://host/ep.mp3" "/ep.mp3"
              eq_refl) as (filename & Hf & Hno & _).
  exists filename. split; assumption.
Defined.

End Pipeline.

End MoreScenarios.
